(** * Fraud-score pipeline: the feature-preprocessing contract

    A shallow embedding of the four jobs of the pipeline
    (training extractor, inference extractor, trainer, predictor) and of
    the score loader, with the properties of the shared preprocessing
    contract.  The first half of the file holds the definitions, one
    module per source file, preceded by the library operations they call
    (warehouse SQL, pandas frames, the ordinal encoder, the Spark row
    index); the second half holds the theorems. *)

From Stdlib Require Import ZArith QArith Qround Ascii String.
From stdpp Require Import base option list sorting strings pretty gmap.

#[local] Open Scope Z_scope.
#[local] Open Scope string_scope.
#[local] Open Scope list_scope.

(** ** Python exceptions and fallible computations *)

Inductive error : Type :=
| KeyError (missing : list string)
| ValueError (msg : string)
| AttributeError (msg : string)
| FileNotFoundError (path : string)
| UnpicklingError (path : string)
| InvalidIndexError (msg : string).

Definition result (A : Type) : Type := (error + A)%type.

Definition raise {A : Type} (e : error) : result A := inl e.
Definition ok {A : Type} (a : A) : result A := inr a.

#[global] Instance result_ret : MRet result := fun A a => inr a.
#[global] Instance result_bind : MBind result :=
  fun A B f m => match m with inl e => inl e | inr a => f a end.

Definition raises {A : Type} (m : result A) : Prop :=
  match m with inl _ => True | inr _ => False end.

(** What belongs to the platforms and not to the repository: how the
    warehouse prints numbers and timestamps in [TO_VARCHAR], how Python
    prints a float in [str], in an f-string and in [json.dumps] (its
    [repr]), how numpy prints a float32 in [str], and whether the
    installed scikit-learn rejects a frame whose column names differ
    from those seen in [fit] (it does from 1.2 on, and only warns
    before). *)
Class Platform : Type := {
  varchar_of_number : Q -> string;
  varchar_of_time : Q -> string;
  py_str_float : Q -> string;
  np_str_float32 : Q -> string;
  sklearn_rejects_renamed_columns : bool
}.

(** The declared type of a column of the feature contract. *)
Inductive coltype : Type := Boolean | Categorical | Numeric.

#[global] Instance coltype_eq_dec : EqDecision coltype.
Proof. solve_decision. Defined.

(** ** The warehouse: the fragment of SQL the extractors emit *)

Module Sql.

(** A scalar of the warehouse.  Numbers are exact rationals: every
    NUMBER and every finite FLOAT is one, and the queries only compare
    and pass them on.  A timestamp is a number of days since the epoch,
    fractional within the day. *)
Inductive value : Type :=
| VNull
| VBool (b : bool)
| VNum (q : Q)
| VStr (s : string)
| VTime (t : Q).

Abbreviation row := (list (string * value)).
Abbreviation table := (list (list (string * value))).

Fixpoint get (c : string) (r : row) : option value :=
  match r with
  | [] => None
  | (k, v) :: r' => if decide (k = c) then Some v else get c r'
  end.

Inductive expr : Type :=
| ECol (c : string)
| ETrue
| EInt (z : Z)
| EDec (q : Q)
| EStr (s : string)
| EEq (a b : expr)
| ELt (a b : expr)
| EGe (a b : expr)
| EAnd (a b : expr)
| EIsNotNull (a : expr)
| ECase (c t e : expr)
| ECoalesce (a b : expr)
| EToVarchar (a : expr)
| ERandom (seed : Z)
| ECurrentDate
| EDateAddDay (n : Z) (d : expr)
| EDate (a : expr).

(** [expr AS alias]; the alias is absent for a bare column. *)
Definition select_item : Type := (expr * option string)%type.

Definition item_name (it : select_item) : string :=
  match it with
  | (_, Some a) => a
  | (ECol c, None) => c
  | (_, None) => ""
  end.

(** RANDOM returns a signed 64-bit integer. *)
Definition to_int64 (z : Z) : Z := (z + 2 ^ 63) mod 2 ^ 64 - 2 ^ 63.

Definition Qltb (a b : Q) : bool := negb (Qle_bool b a).

Definition is_null (v : value) : bool :=
  match v with VNull => true | _ => false end.

(** Comparison is three-valued: NULL when an operand is NULL.  Operands
    of two different types would be coerced by the warehouse; the
    queries never compare such operands and the model rejects them. *)
Definition sql_cmp (num : Q -> Q -> bool) (str : string -> string -> bool)
    (boo : bool -> bool -> bool) (x y : value) : option value :=
  match x, y with
  | VNull, _ | _, VNull => Some VNull
  | VNum a, VNum b => Some (VBool (num a b))
  | VTime a, VTime b => Some (VBool (num a b))
  | VStr a, VStr b => Some (VBool (str a b))
  | VBool a, VBool b => Some (VBool (boo a b))
  | _, _ => None
  end.

Definition sql_eq : value -> value -> option value :=
  sql_cmp Qeq_bool String.eqb Bool.eqb.
Definition sql_lt : value -> value -> option value :=
  sql_cmp Qltb String.ltb (fun a b => negb a && b).
Definition sql_ge : value -> value -> option value :=
  sql_cmp (fun a b => Qle_bool b a) (fun a b => negb (String.ltb a b))
          (fun a b => a || negb b).

Definition sql_and (x y : value) : option value :=
  match x, y with
  | VBool false, (VBool _ | VNull) | VNull, VBool false => Some (VBool false)
  | VBool true, VBool b => Some (VBool b)
  | VBool true, VNull | VNull, VBool true | VNull, VNull => Some VNull
  | _, _ => None
  end.

Section Eval.
Context {platform : Platform}.

Definition to_varchar (v : value) : value :=
  match v with
  | VNull => VNull
  | VBool true => VStr "true"
  | VBool false => VStr "false"
  | VNum q => VStr (varchar_of_number q)
  | VStr s => VStr s
  | VTime t => VStr (varchar_of_time t)
  end.

(** What a row is evaluated against: the row itself, the value the
    warehouse's generator yields for this row under each seed, and the
    current date (in days). *)
Record env : Type := {
  e_row : row;
  e_draw : Z -> Z;
  e_today : Z
}.

Fixpoint eval (ρ : env) (e : expr) : option value :=
  match e with
  | ECol c => get c (e_row ρ)
  | ETrue => Some (VBool true)
  | EInt z => Some (VNum (inject_Z z))
  | EDec q => Some (VNum q)
  | EStr s => Some (VStr s)
  | EEq a b => x ← eval ρ a; y ← eval ρ b; sql_eq x y
  | ELt a b => x ← eval ρ a; y ← eval ρ b; sql_lt x y
  | EGe a b => x ← eval ρ a; y ← eval ρ b; sql_ge x y
  | EAnd a b => x ← eval ρ a; y ← eval ρ b; sql_and x y
  | EIsNotNull a => x ← eval ρ a; Some (VBool (negb (is_null x)))
  | ECase c t e =>
      x ← eval ρ c;
      match x with
      | VBool true => eval ρ t
      | VBool false | VNull => eval ρ e
      | _ => None
      end
  | ECoalesce a b =>
      x ← eval ρ a; if is_null x then eval ρ b else Some x
  | EToVarchar a => x ← eval ρ a; Some (to_varchar x)
  | ERandom seed => Some (VNum (inject_Z (to_int64 (e_draw ρ seed))))
  | ECurrentDate => Some (VTime (inject_Z (e_today ρ)))
  | EDateAddDay n d =>
      x ← eval ρ d;
      match x with
      | VTime t => Some (VTime (t + inject_Z n))
      | VNull => Some VNull
      | _ => None
      end
  | EDate a =>
      x ← eval ρ a;
      match x with
      | VTime t => Some (VTime (inject_Z (Qfloor t)))
      | VNull => Some VNull
      | _ => None
      end
  end.

Definition eval_item (ρ : env) (it : select_item) : option (string * value) :=
  v ← eval ρ it.1; Some (item_name it, v).

(** The SELECT list of one row. *)
Definition project (ρ : env) (items : list select_item) : option row :=
  mapM (eval_item ρ) items.

(** WHERE keeps the rows on which the predicate is TRUE (not FALSE, not
    NULL). *)
Definition keeps (ρ : env) (w : expr) : option bool :=
  x ← eval ρ w;
  match x with
  | VBool b => Some b
  | VNull => Some false
  | _ => None
  end.

(** [SELECT items FROM t WHERE w]: [rng seed i] is the generator's value
    for the row at position [i] of the scan. *)
Fixpoint select_from_where (rng : Z -> nat -> Z) (today : Z)
    (items : list select_item) (w : expr) (i : nat) (t : table)
    : option table :=
  match t with
  | [] => Some []
  | r :: t' =>
      let ρ := {| e_row := r; e_draw := fun seed => rng seed i; e_today := today |} in
      k ← keeps ρ w;
      rest ← select_from_where rng today items w (S i) t';
      if (k : bool) then out ← project ρ items; Some (out :: rest)
      else Some rest
  end.

(** [SELECT *, item FROM t]: the rows of [t], each with one more
    column. *)
Definition select_star_and (today : Z) (it : select_item) (t : table)
    : option table :=
  mapM (fun r =>
          let ρ := {| e_row := r; e_draw := fun _ => 0; e_today := today |} in
          c ← eval_item ρ it; Some (r ++ [c])) t.

(** [WITH cleaned_data AS (SELECT items FROM source WHERE w)
     SELECT *, extra FROM cleaned_data] and [SELECT items FROM source
    WHERE w], run against the tables of the warehouse. *)
Record cte_query : Type := {
  cte_select : list select_item;
  cte_from : string;
  cte_where : expr;
  outer_extra : select_item
}.

Record plain_query : Type := {
  q_select : list select_item;
  q_from : string;
  q_where : expr
}.

Definition run_cte (db : gmap string table) (rng : Z -> nat -> Z) (today : Z)
    (q : cte_query) : option table :=
  t ← db !! cte_from q;
  cleaned_data ← select_from_where rng today (cte_select q) (cte_where q) 0%nat t;
  select_star_and today (outer_extra q) cleaned_data.

Definition run_plain (db : gmap string table) (rng : Z -> nat -> Z) (today : Z)
    (q : plain_query) : option table :=
  t ← db !! q_from q;
  select_from_where rng today (q_select q) (q_where q) 0%nat t.

(** What one execution of a query finds in the warehouse: the tables in
    the order in which it scans them, the values its generator yields,
    and the current date.  Two executions of the same text need not find
    the same: RANDOM is drawn again whether or not a seed is given, a
    scan has no order of its own, the tables change and the date moves
    on. *)
Record execution : Type := {
  x_tables : gmap string table;
  x_generator : Z -> nat -> Z;
  x_today : Z
}.

Definition execute_cte (x : execution) (q : cte_query) : option table :=
  run_cte (x_tables x) (x_generator x) (x_today x) q.

Definition execute_plain (x : execution) (q : plain_query) : option table :=
  run_plain (x_tables x) (x_generator x) (x_today x) q.

End Eval.

(** The text of an expression, as the f-strings of the extractors write
    it. *)
Section Render.
Context {platform : Platform}.

Fixpoint render (e : expr) : string :=
  match e with
  | ECol c => c
  | ETrue => "TRUE"
  | EInt z => pretty z
  | EDec q => py_str_float q
  | EStr s => "'" +:+ s +:+ "'"
  | EEq a b => render a +:+ " = " +:+ render b
  | ELt a b => render a +:+ " < " +:+ render b
  | EGe a b => render a +:+ " >= " +:+ render b
  | EAnd a b => render a +:+ " AND " +:+ render b
  | EIsNotNull a => render a +:+ " IS NOT NULL"
  | ECase c t e =>
      "CASE WHEN " +:+ render c +:+ " THEN " +:+ render t
        +:+ " ELSE " +:+ render e +:+ " END"
  | ECoalesce a b => "COALESCE(" +:+ render a +:+ ", " +:+ render b +:+ ")"
  | EToVarchar a => "TO_VARCHAR(" +:+ render a +:+ ")"
  | ERandom seed => "RANDOM(" +:+ pretty seed +:+ ")"
  | ECurrentDate => "CURRENT_DATE()"
  | EDateAddDay n d => "DATEADD(day, " +:+ pretty n +:+ ", " +:+ render d +:+ ")"
  | EDate a => "DATE(" +:+ render a +:+ ")"
  end.

Definition render_item (it : select_item) : string :=
  match it with
  | (e, Some a) => render e +:+ " AS " +:+ a
  | (e, None) => render e
  end.

End Render.

End Sql.

(** ** Spark: the frame operations the Glue jobs call *)

Module Spark.

(** [df.filter(col(c) == s)] *)
Definition column_is (c s : string) (r : Sql.row) : bool :=
  match Sql.get c r with
  | Some (Sql.VStr s') => bool_decide (s' = s)
  | _ => false
  end.

Definition filter_eq (c s : string) (t : Sql.table) : Sql.table :=
  filter (fun r => column_is c s r = true) t.

(** [df.drop(c)] *)
Definition drop (c : string) (t : Sql.table) : Sql.table :=
  (fun r => filter (fun kv => kv.1 ≠ c) r) <$> t.

(** Spark resolves a name against the columns of a frame without regard
    to case ([spark.sql.caseSensitive] is false unless it is set, and
    the jobs do not set it).  Names are compared letter by letter; the
    letters a to z are the ones the names of the jobs can differ in. *)
Definition upper_ascii (a : ascii) : ascii :=
  let n := nat_of_ascii a in
  if (97 <=? n)%nat && (n <=? 122)%nat then ascii_of_nat (n - 32) else a.

Fixpoint upper (s : string) : string :=
  match s with
  | EmptyString => EmptyString
  | String a s' => String (upper_ascii a) (upper s')
  end.

(** The column a name refers to: the one column whose name is the same
    up to case.  No such column, or more than one (an ambiguous
    reference), fails the analysis. *)
Definition resolve (c : string) (r : Sql.row) : option Sql.value :=
  match filter (fun kv : string * Sql.value => upper kv.1 = upper c) r with
  | [kv] => Some kv.2
  | _ => None
  end.

(** [df.select(cols)]; a column that does not resolve fails the job, and
    a column that resolves is named as it was asked for. *)
Definition select (cols : list string) (t : Sql.table) : option Sql.table :=
  mapM (fun r => mapM (fun c => v ← resolve c r; Some (c, v)) cols) t.

(** A frame is held as a sequence of partitions, each a sequence of
    rows. *)
Definition frame (A : Type) : Type := list (list A).

Definition collect {A : Type} (df : frame A) : list A := concat df.

Definition wrap64 (z : Z) : Z := (z + 2 ^ 63) mod 2 ^ 64 - 2 ^ 63.

(** [monotonically_increasing_id()]: the partition index in the upper
    bits, the position of the record within its partition in the lower
    33 bits, as a signed 64-bit integer. *)
Definition monotonically_increasing_id (partition record : nat) : Z :=
  wrap64 (Z.shiftl (Z.of_nat partition) 33 + Z.of_nat record).

(** [df.withColumn(name, monotonically_increasing_id())] *)
Definition with_id {A : Type} (df : frame A) : frame (A * Z) :=
  imap (fun p part => imap (fun j r => (r, monotonically_increasing_id p j)) part) df.

(** The rows of partition [p], numbered as [with_id] numbers them. *)
Definition tag {A : Type} (p : nat) (part : list A) : list (A * Z) :=
  imap (fun j r => (r, monotonically_increasing_id p j)) part.

(** A frame within the bounds the numbering is documented for: fewer
    than a billion partitions (here at most 2^30) of at most 2^33
    records each. *)
Definition numberable {A : Type} (df : frame A) : Prop :=
  (Z.of_nat (length df) ≤ 2 ^ 30)%Z
  ∧ Forall (fun part => (Z.of_nat (length part) ≤ 2 ^ 33)%Z) df.

(** [left.join(right, on=key, how="inner").drop(key)]: every pair of a
    left and a right row with the same key. *)
Definition join_inner {A B : Type} (left : list (A * Z)) (right : list (B * Z))
    : list (A * B) :=
  l ← left;
  r ← right;
  if decide (l.2 = r.2) then [(l.1, r.1)] else [].

End Spark.

(** ** glue_scripts/extract_training_data.py *)

Module ExtractTrainingData.

Definition TARGET : string := "IPQS_DEVICE_FP_FRAUD_SCORE".

Definition BOOLEAN_FEATURES : list string :=
  [ "IP_API_HOSTING"; "IP_API_MOBILE"; "IP_API_PROXY" ].

Definition CATEGORICAL_FEATURES : list string :=
  [ "IP_API_CITY"; "IP_API_COUNTRY"; "IP_API_COUNTRY_CODE"; "IP_API_ORG"; "IP_API_REGION";
    "IP_API_STATUS"; "IP_API_TIMEZONE"; "BROWSERNAME"; "BROWSERVERSION"; "DEVICECATEGORY";
    "DEVICETYPE"; "OPERATINGSYSTEM"; "OPERATINGSYSTEMVERSION"; "PROPERTY_NAME"; "PUBLISHER_NAME";
    "UTM_CONTENT"; "UTM_TERM"; "UTM_MEDIUM"; "UTM_SOURCE"; "VISITOR_TYPE"; "DOMAIN"; "STATE";
    "EMAIL_VERIFICATION_RESPONSE" ].

Definition NUMERIC_FEATURES : list string :=
  [ "IP_API_LATITUDE"; "IP_API_LONGITUDE"; "VISIT_COUNT_FORM_COMPLETED_MEASURE";
    "VISIT_COUNT_FORM_STARTED_MEASURE"; "VISIT_COUNT_VISIT_TO_PAGE_1_MEASURE";
    "VISIT_COUNT_PAGE_1_TO_PAGE_2_MEASURE"; "VISIT_COUNT_PAGE_2_TO_PAGE_3_MEASURE";
    "SECONDS_SPENT_FORM_MEASURE"; "SECONDS_SPENT_FORM_COMPLETE_MEASURE";
    "SECONDS_SPENT_PAGE_1_TO_2_MEASURE"; "SECONDS_SPENT_PAGE_2_TO_3_MEASURE";
    "SECONDS_SPENT_VISIT_TO_PAGE_1_MEASURE"; "SECONDS_SPENT_ZAN_PRIMARY_MEASURE";
    "SECONDS_SPENT_ZAN_PRIMARY_COMPLETE_MEASURE"; "SECONDS_SPENT_ZAN_PRIMARY_INCOMPLETE_MEASURE";
    "VISIT_COUNT_ZAN_COMPLETED_LESS_THAN_7_SECONDS_MEASURE";
    "VISIT_COUNT_ZAN_PRIMARY_COMPLETE_MEASURE"; "VISIT_COUNT_ZAN_PRIMARY_LOAD_MEASURE";
    "VISIT_COUNT_ZAN_SPENT_MORE_THAN_5_MINS_MEASURE"; "LTV_PIXEL_CAMPAIGN_CLICKS_MEASURE";
    "LTV_PIXEL_CAMPAIGN_IMPRESSIONS_MEASURE"; "LTV_PIXEL_PURCHASE_COUNT_MEASURE";
    "LTV_PIXEL_REVENUE_MEASURE"; "LTV_PIXEL_ADVERTISER_COST_MEASURE";
    "FICTITIOUS_CHARACTERS_NAME_MEASURE"; "FLAGGED_ADDRESS_MEASURE"; "FLAGGED_NAME_MEASURE";
    "FNLN_EMAIL_STRING_MEASURE"; "IPQS_FLAGGED_LOCATION_MEASURE"; "MISSING_ADDRESS_NUMBER_MEASURE";
    "MISSING_STREET_TYPE_MEASURE"; "VISITS_WITH_PII_COMPLETE_VISITS"; "RECYCLED_IP_ADDRESS_MEASURE";
    "SINGLE_LETTER_STRING_NAME_MEASURE"; "THREE_LETTER_STRING_NAME_MEASURE";
    "TWO_LETTER_STRING_NAME_MEASURE"; "THREE_LETTER_STRING_LEFT_RIGHT_NAME_MEASURE";
    "VULGAR_WORDS_NAME_MEASURE"; "VISIT_COUNT_ZAN_PRIMARY_INCOMPLETE_MEASURE";
    "POSITION_1_ANSWERS_MEASURE"; "CAMPAIGN_CLICKS_MEASURE"; "CAMPAIGN_CONVERSIONS_MEASURE";
    "CAMPAIGN_IMPRESSIONS_MEASURE"; "CPA_CLICKS_MEASURE"; "CPA_CONVERSIONS_MEASURE";
    "CPA_IMPRESSIONS_MEASURE"; "CPA_REVENUE_MEASURE"; "CPC_CONVERSIONS_MEASURE";
    "CPC_IMPRESSIONS_MEASURE"; "CPC_REVENUE_MEASURE"; "CPL_CONVERSIONS_MEASURE";
    "CPL_IMPRESSIONS_MEASURE"; "CPL_REVENUE_MEASURE"; "TOTAL_GROSS_REVENUE_MEASURE";
    "LAST_POSITION_ANSWERS_MEASURE"; "TOTAL_NET_REVENUE_MEASURE"; "PREPING_SCORE_1_PRIMARY_VISITS";
    "PREPING_SCORE_2_PRIMARY_VISITS"; "PREPING_SCORE_3_PRIMARY_VISITS";
    "PREPING_SCORE_4_PRIMARY_VISITS"; "PREPING_SCORE_5_PRIMARY_VISITS";
    "PRIMARY_GROSS_REVENUE_MEASURE"; "QUESTIONS_ANSWERED_MEASURE"; "QUESTIONS_IMPRESSED_MEASURE";
    "QUESTIONS_IMPRESSED_FOR_POSITION_RATE_MEASURE";
    "ZAN_SECONDARY_END_OF_PLACEMENT_VISITS_MEASURE"; "QUESTIONS_ANSWERED_FOR_POSITION_RATE_MEASURE";
    "ZAN_SECONDARY_PLACEMENT_VISITS_MEASURE"; "SECONDARY_NET_REVENUE_MEASURE" ].

Section Job.
Context {platform : Platform}.

Definition default_test_size : Q := 20 # 100.
Definition default_random_seed : Z := 42.

(** The expression each loop appends for a column:
    [COALESCE(CASE WHEN c = TRUE THEN 1 ELSE 0 END, 0) AS c],
    [COALESCE(TO_VARCHAR(c), 'MISSING') AS c], [COALESCE(c, 0) AS c]. *)
Definition part (ty : coltype) (col_name : string) : Sql.select_item :=
  match ty with
  | Boolean =>
      (Sql.ECoalesce
         (Sql.ECase (Sql.EEq (Sql.ECol col_name) Sql.ETrue) (Sql.EInt 1) (Sql.EInt 0))
         (Sql.EInt 0), Some col_name)
  | Categorical =>
      (Sql.ECoalesce (Sql.EToVarchar (Sql.ECol col_name)) (Sql.EStr "MISSING"),
       Some col_name)
  | Numeric => (Sql.ECoalesce (Sql.ECol col_name) (Sql.EInt 0), Some col_name)
  end.

(** The text the f-string of each loop writes for a column. *)
Definition part_sql (ty : coltype) (col_name : string) : string :=
  match ty with
  | Boolean =>
      "COALESCE(CASE WHEN " +:+ col_name +:+ " = TRUE THEN 1 ELSE 0 END, 0) AS "
        +:+ col_name
  | Categorical => "COALESCE(TO_VARCHAR(" +:+ col_name +:+ "), 'MISSING') AS " +:+ col_name
  | Numeric => "COALESCE(" +:+ col_name +:+ ", 0) AS " +:+ col_name
  end.

(** The three loops that fill [select_parts], then the target. *)
Definition select_parts : list Sql.select_item :=
  (part Boolean <$> BOOLEAN_FEATURES)
  ++ (part Categorical <$> CATEGORICAL_FEATURES)
  ++ (part Numeric <$> NUMERIC_FEATURES)
  ++ [(Sql.ECol TARGET, None)].

(** The query; [days_limit] is a number of days, [test_size] the value
    of the decimal literal the f-string writes for it. *)
Definition build_preprocessing_sql (source_table : string) (days_limit : nat)
    (test_size : Q) (random_seed : Z) : Sql.cte_query :=
  {| Sql.cte_select := select_parts ++ [(Sql.ERandom random_seed, Some "split_key")];
     Sql.cte_from := source_table;
     Sql.cte_where :=
       Sql.EAnd (Sql.EIsNotNull (Sql.ECol TARGET))
         (Sql.EGe (Sql.ECol "CREATED_AT")
            (Sql.EDateAddDay (- Z.of_nat days_limit) Sql.ECurrentDate));
     Sql.outer_extra :=
       (Sql.ECase (Sql.ELt (Sql.ECol "split_key") (Sql.EDec test_size))
          (Sql.EStr "TEST") (Sql.EStr "TRAIN"), Some "DATA_SPLIT") |}.

(** What [main] prints and writes: the three counts, and the rows under
    [train/] and under [test/]. *)
Record output : Type := {
  total_count : nat;
  train_count : nat;
  test_count : nat;
  train : Sql.table;
  test : Sql.table
}.

(** [spark.read ... .load()] fetches nothing: [df] stands for the query,
    and each action on it, or on a frame derived from it, sends the
    query to the warehouse again.  The job runs five actions, three
    counts and two writes, and nothing is cached between them; [run k]
    is what the execution of action [k] finds. *)
Definition main (run : nat -> Sql.execution) (source_table : string)
    (days_limit : nat) : option output :=
  let query :=
    build_preprocessing_sql source_table days_limit default_test_size
      default_random_seed in
  let df := fun k : nat => Sql.execute_cte (run k) query in
  counted ← df 0%nat;
  let total_count := length counted in
  counted_train ← df 1%nat;
  let train_count := length (Spark.filter_eq "DATA_SPLIT" "TRAIN" counted_train) in
  counted_test ← df 2%nat;
  let test_count := length (Spark.filter_eq "DATA_SPLIT" "TEST" counted_test) in
  let df := fun k : nat => Spark.drop "split_key" <$> df k in
  written_train ← df 3%nat;
  written_test ← df 4%nat;
  Some {| total_count := total_count;
          train_count := train_count;
          test_count := test_count;
          train := Spark.drop "DATA_SPLIT"
                     (Spark.filter_eq "DATA_SPLIT" "TRAIN" written_train);
          test := Spark.drop "DATA_SPLIT"
                    (Spark.filter_eq "DATA_SPLIT" "TEST" written_test) |}.

End Job.

End ExtractTrainingData.

(** ** glue_scripts/extract_inference_data.py *)

Module ExtractInferenceData.

Definition TARGET : string := "IPQS_DEVICE_FP_FRAUD_SCORE".

Definition BOOLEAN_FEATURES : list string :=
  [ "IP_API_HOSTING"; "IP_API_MOBILE"; "IP_API_PROXY" ].

Definition CATEGORICAL_FEATURES : list string :=
  [ "IP_API_CITY"; "IP_API_COUNTRY"; "IP_API_COUNTRY_CODE"; "IP_API_ORG"; "IP_API_REGION";
    "IP_API_STATUS"; "IP_API_TIMEZONE"; "BROWSERNAME"; "BROWSERVERSION"; "DEVICECATEGORY";
    "DEVICETYPE"; "OPERATINGSYSTEM"; "OPERATINGSYSTEMVERSION"; "PROPERTY_NAME"; "PUBLISHER_NAME";
    "UTM_CONTENT"; "UTM_TERM"; "UTM_MEDIUM"; "UTM_SOURCE"; "VISITOR_TYPE"; "DOMAIN"; "STATE";
    "EMAIL_VERIFICATION_RESPONSE" ].

Definition NUMERIC_FEATURES : list string :=
  [ "IP_API_LATITUDE"; "IP_API_LONGITUDE"; "VISIT_COUNT_FORM_COMPLETED_MEASURE";
    "VISIT_COUNT_FORM_STARTED_MEASURE"; "VISIT_COUNT_VISIT_TO_PAGE_1_MEASURE";
    "VISIT_COUNT_PAGE_1_TO_PAGE_2_MEASURE"; "VISIT_COUNT_PAGE_2_TO_PAGE_3_MEASURE";
    "SECONDS_SPENT_FORM_MEASURE"; "SECONDS_SPENT_FORM_COMPLETE_MEASURE";
    "SECONDS_SPENT_PAGE_1_TO_2_MEASURE"; "SECONDS_SPENT_PAGE_2_TO_3_MEASURE";
    "SECONDS_SPENT_VISIT_TO_PAGE_1_MEASURE"; "SECONDS_SPENT_ZAN_PRIMARY_MEASURE";
    "SECONDS_SPENT_ZAN_PRIMARY_COMPLETE_MEASURE"; "SECONDS_SPENT_ZAN_PRIMARY_INCOMPLETE_MEASURE";
    "VISIT_COUNT_ZAN_COMPLETED_LESS_THAN_7_SECONDS_MEASURE";
    "VISIT_COUNT_ZAN_PRIMARY_COMPLETE_MEASURE"; "VISIT_COUNT_ZAN_PRIMARY_LOAD_MEASURE";
    "VISIT_COUNT_ZAN_SPENT_MORE_THAN_5_MINS_MEASURE"; "LTV_PIXEL_CAMPAIGN_CLICKS_MEASURE";
    "LTV_PIXEL_CAMPAIGN_IMPRESSIONS_MEASURE"; "LTV_PIXEL_PURCHASE_COUNT_MEASURE";
    "LTV_PIXEL_REVENUE_MEASURE"; "LTV_PIXEL_ADVERTISER_COST_MEASURE";
    "FICTITIOUS_CHARACTERS_NAME_MEASURE"; "FLAGGED_ADDRESS_MEASURE"; "FLAGGED_NAME_MEASURE";
    "FNLN_EMAIL_STRING_MEASURE"; "IPQS_FLAGGED_LOCATION_MEASURE"; "MISSING_ADDRESS_NUMBER_MEASURE";
    "MISSING_STREET_TYPE_MEASURE"; "VISITS_WITH_PII_COMPLETE_VISITS"; "RECYCLED_IP_ADDRESS_MEASURE";
    "SINGLE_LETTER_STRING_NAME_MEASURE"; "THREE_LETTER_STRING_NAME_MEASURE";
    "TWO_LETTER_STRING_NAME_MEASURE"; "THREE_LETTER_STRING_LEFT_RIGHT_NAME_MEASURE";
    "VULGAR_WORDS_NAME_MEASURE"; "VISIT_COUNT_ZAN_PRIMARY_INCOMPLETE_MEASURE";
    "POSITION_1_ANSWERS_MEASURE"; "CAMPAIGN_CLICKS_MEASURE"; "CAMPAIGN_CONVERSIONS_MEASURE";
    "CAMPAIGN_IMPRESSIONS_MEASURE"; "CPA_CLICKS_MEASURE"; "CPA_CONVERSIONS_MEASURE";
    "CPA_IMPRESSIONS_MEASURE"; "CPA_REVENUE_MEASURE"; "CPC_CONVERSIONS_MEASURE";
    "CPC_IMPRESSIONS_MEASURE"; "CPC_REVENUE_MEASURE"; "CPL_CONVERSIONS_MEASURE";
    "CPL_IMPRESSIONS_MEASURE"; "CPL_REVENUE_MEASURE"; "TOTAL_GROSS_REVENUE_MEASURE";
    "LAST_POSITION_ANSWERS_MEASURE"; "TOTAL_NET_REVENUE_MEASURE"; "PREPING_SCORE_1_PRIMARY_VISITS";
    "PREPING_SCORE_2_PRIMARY_VISITS"; "PREPING_SCORE_3_PRIMARY_VISITS";
    "PREPING_SCORE_4_PRIMARY_VISITS"; "PREPING_SCORE_5_PRIMARY_VISITS";
    "PRIMARY_GROSS_REVENUE_MEASURE"; "QUESTIONS_ANSWERED_MEASURE"; "QUESTIONS_IMPRESSED_MEASURE";
    "QUESTIONS_IMPRESSED_FOR_POSITION_RATE_MEASURE";
    "ZAN_SECONDARY_END_OF_PLACEMENT_VISITS_MEASURE"; "QUESTIONS_ANSWERED_FOR_POSITION_RATE_MEASURE";
    "ZAN_SECONDARY_PLACEMENT_VISITS_MEASURE"; "SECONDARY_NET_REVENUE_MEASURE" ].

Section Job.
Context {platform : Platform}.

(** The expression each loop appends for a column, as in the training
    extractor. *)
Definition part (ty : coltype) (col_name : string) : Sql.select_item :=
  match ty with
  | Boolean =>
      (Sql.ECoalesce
         (Sql.ECase (Sql.EEq (Sql.ECol col_name) Sql.ETrue) (Sql.EInt 1) (Sql.EInt 0))
         (Sql.EInt 0), Some col_name)
  | Categorical =>
      (Sql.ECoalesce (Sql.EToVarchar (Sql.ECol col_name)) (Sql.EStr "MISSING"),
       Some col_name)
  | Numeric => (Sql.ECoalesce (Sql.ECol col_name) (Sql.EInt 0), Some col_name)
  end.

(** The text the f-string of each loop writes for a column. *)
Definition part_sql (ty : coltype) (col_name : string) : string :=
  match ty with
  | Boolean =>
      "COALESCE(CASE WHEN " +:+ col_name +:+ " = TRUE THEN 1 ELSE 0 END, 0) AS "
        +:+ col_name
  | Categorical => "COALESCE(TO_VARCHAR(" +:+ col_name +:+ "), 'MISSING') AS " +:+ col_name
  | Numeric => "COALESCE(" +:+ col_name +:+ ", 0) AS " +:+ col_name
  end.

(** The identifier first, then the three loops. *)
Definition select_parts (id_column : string) : list Sql.select_item :=
  [(Sql.ECol id_column, None)]
  ++ (part Boolean <$> BOOLEAN_FEATURES)
  ++ (part Categorical <$> CATEGORICAL_FEATURES)
  ++ (part Numeric <$> NUMERIC_FEATURES).

Definition build_inference_sql (source_table id_column : string) : Sql.plain_query :=
  {| Sql.q_select := select_parts id_column;
     Sql.q_from := source_table;
     Sql.q_where :=
       Sql.EEq (Sql.EDate (Sql.ECol "CREATED_AT"))
         (Sql.EDateAddDay (-1) Sql.ECurrentDate) |}.

(** What [main] writes: nothing when no record was found, else the
    identifiers, the feature columns and the complete rows. *)
Record output : Type := {
  ids : Sql.table;
  features : Sql.table;
  complete : Sql.table
}.

(** As in the training extractor, [df] stands for the query and each
    action sends it again: the count, then the three writes, in this
    order; [run k] is what the execution of action [k] finds. *)
Definition main (run : nat -> Sql.execution) (source_table id_column : string)
    : option (option output) :=
  let query := build_inference_sql source_table id_column in
  let df := fun k : nat => Sql.execute_plain (run k) query in
  counted ← df 0%nat;
  let record_count := length counted in
  if decide (record_count = 0%nat) then Some None
  else
    written_ids ← df 1%nat;
    ids ← Spark.select [id_column] written_ids;
    let feature_cols := BOOLEAN_FEATURES ++ CATEGORICAL_FEATURES ++ NUMERIC_FEATURES in
    written_features ← df 2%nat;
    features ← Spark.select feature_cols written_features;
    written_complete ← df 3%nat;
    Some (Some {| ids := ids; features := features; complete := written_complete |}).

End Job.

End ExtractInferenceData.

(** ** pandas: frames with ordered, labelled columns *)

Module Pandas.

Inductive cell : Type :=
| CNone
| CNaN
| CBool (b : bool)
| CInt (z : Z)
| CFloat (q : Q)
| CStr (s : string).

#[global] Instance Q_eq_dec : EqDecision Q.
Proof. solve_decision. Defined.

#[global] Instance cell_eq_dec : EqDecision cell.
Proof. solve_decision. Defined.

(** A frame with a default index [0 .. nrows-1]: its columns, in order,
    each a label and the values of the rows. *)
Record DataFrame (A : Type) : Type := {
  nrows : nat;
  cols : list (string * list A)
}.
Arguments nrows {A} _.
Arguments cols {A} _.
Arguments Build_DataFrame {A} _ _.

(** [df.columns.tolist()] *)
Definition columns {A : Type} (df : DataFrame A) : list string := (cols df).*1.

(** [df[names]] with a list of labels: the columns carrying each label,
    in the order of [names]; KeyError when a label is carried by none. *)
Definition getitem_list {A : Type} (df : DataFrame A) (names : list string)
    : result (DataFrame A) :=
  match filter (fun c => c ∉ columns df) names with
  | [] =>
      ok {| nrows := nrows df;
            cols := c ← names; filter (fun col => col.1 = c) (cols df) |}
  | missing => raise (KeyError missing)
  end.

(** [df[label].values] for a label carried by one column. *)
Definition getitem_values {A : Type} (df : DataFrame A) (label : string)
    : option (list A) :=
  snd <$> (snd <$> list_find (fun col => col.1 = label) (cols df)).

(** [df.reset_index(drop=True)]: the index is already the default one. *)
Definition reset_index {A : Type} (df : DataFrame A) : DataFrame A := df.

Definition pad (n : nat) (l : list cell) : list cell :=
  l ++ replicate (n - length l) CNaN.

(** [pd.concat(dfs, axis=1)] of frames with default indexes: the columns
    side by side; a shorter frame is filled with NaN. *)
Definition concat_axis1 (dfs : list (DataFrame cell)) : DataFrame cell :=
  let n := foldr (fun df => Nat.max (nrows df)) 0%nat dfs in
  {| nrows := n;
     cols := df ← dfs; (fun c : string * list cell => (c.1, pad n c.2)) <$> cols df |}.

(** [pd.DataFrame(array, columns=names, index=index)] of an array held
    column by column. *)
Definition DataFrame_of_array (n : nat) (array : list (list cell))
    (names : list string) : result (DataFrame cell) :=
  if decide (length names = length array)
  then ok {| nrows := n; cols := zip names array |}
  else raise (ValueError "Shape of passed values does not match the columns").

(** A frame as pandas holds it: every column has one value per row. *)
Definition well_formed {A : Type} (df : DataFrame A) : Prop :=
  Forall (fun c => length c.2 = nrows df) (cols df).

(** The labels of several frames, each once, in the order of first
    appearance. *)
Definition union_labels {A : Type} (dfs : list (DataFrame A)) : list string :=
  foldl (fun seen c => if decide (c ∈ seen) then seen else seen ++ [c]) []
    (df ← dfs; columns df).

(** The values a frame contributes to a column of the concatenation:
    its own, or NaN for every row when it has no such column. *)
Definition column_or_nan (df : DataFrame cell) (label : string) : list cell :=
  match getitem_values df label with
  | Some values => values
  | None => replicate (nrows df) CNaN
  end.

(** [pd.concat(dfs, ignore_index=True)]: the rows one frame after the
    other.  Frames whose labels are distinct are aligned by label, under
    the union of the labels; frames that all carry the same labels in
    the same order are stacked column by column; other frames cannot be
    aligned. *)
Definition concat_rows (dfs : list (DataFrame cell)) : result (DataFrame cell) :=
  match dfs with
  | [] => raise (ValueError "No objects to concatenate")
  | first :: _ =>
      if decide (Forall (fun df => NoDup (columns df)) dfs) then
        ok {| nrows := sum_list (nrows <$> dfs);
              cols := (fun c => (c, df ← dfs; column_or_nan df c)) <$> union_labels dfs |}
      else if decide (Forall (fun df => columns df = columns first) dfs) then
        ok {| nrows := sum_list (nrows <$> dfs);
              cols := imap (fun i c => (c, df ← dfs; default [] (snd <$> cols df !! i)))
                        (columns first) |}
      else raise (InvalidIndexError "Reindexing only valid with uniquely valued Index objects")
  end.

Section Str.
Context {platform : Platform}.

(** [str(x)] of a scalar. *)
Definition py_str (c : cell) : string :=
  match c with
  | CNone => "None"
  | CNaN => "nan"
  | CBool true => "True"
  | CBool false => "False"
  | CInt z => pretty z
  | CFloat q => py_str_float q
  | CStr s => s
  end.

(** [df.astype(str)] *)
Definition astype_str (df : DataFrame cell) : DataFrame string :=
  {| nrows := nrows df; cols := (fun c : string * list cell => (c.1, py_str <$> c.2)) <$> cols df |}.

End Str.

End Pandas.

(** ** scikit-learn: [OrdinalEncoder] *)

Module Sklearn.
Import Pandas.

(** A fitted encoder: the categories of each column, the labels of the
    columns seen in [fit], and the code of an unknown value. *)
Record OrdinalEncoder : Type := {
  categories_ : list (list string);
  feature_names_in_ : list string;
  unknown_value : Z
}.

(** The categories of a column are its distinct values in ascending
    order ([sorted(set(values))]). *)
Definition unique (values : list string) : list string :=
  merge_sort String.le (remove_dups values).

(** Input validation: every column must hold one sample at least. *)
Definition check_X (X : DataFrame string) : result unit :=
  if decide (cols X ≠ [] ∧ nrows X = 0%nat)
  then raise (ValueError "Found array with 0 sample(s) while a minimum of 1 is required")
  else ok ().

(** [OrdinalEncoder(handle_unknown='use_encoded_value',
    unknown_value=unknown).fit(X)] *)
Definition fit (unknown : Z) (X : DataFrame string) : result OrdinalEncoder :=
  _ ← check_X X;
  let categories := (fun c : string * list string => unique c.2) <$> cols X in
  if decide (Exists (fun cats => (0 ≤ unknown < Z.of_nat (length cats))%Z) categories)
  then raise (ValueError "The used value for unknown_value is one of the values already used for encoding the seen categories")
  else ok {| categories_ := categories;
             feature_names_in_ := columns X;
             unknown_value := unknown |}.

(** The code of a value: its position among the categories, or the code
    of an unknown value. *)
Definition encode_value (unknown : Z) (categories : list string) (s : string) : Z :=
  match list_find (fun c => c = s) categories with
  | Some (i, _) => Z.of_nat i
  | None => unknown
  end.

(** The string of a code: none for the code of an unknown value and for
    a code that is not the position of a category. *)
Definition decode_value (unknown : Z) (categories : list string) (code : Z)
    : option string :=
  if decide (code = unknown) then None
  else if decide (0 ≤ code)%Z then categories !! Z.to_nat code
  else None.

(** The codes of the columns of a frame, each under the categories at
    its position. *)
Definition codes_of (unknown : Z) (categories : list (list string))
    (X : DataFrame string) : list (list Z) :=
  zip_with (fun categories (c : string * list string) =>
              encode_value unknown categories <$> c.2) categories (cols X).

(** The codes leave the encoder as float64. *)
Definition as_float64 (codes : list (list Z)) : list (list cell) :=
  (fun column : list Z => (fun z => CFloat (inject_Z z)) <$> column) <$> codes.

Section Transform.
Context {platform : Platform}.

(** [enc.transform(X)]: the codes, column by column, of a frame that
    has the columns seen in [fit]. *)
Definition transform (enc : OrdinalEncoder) (X : DataFrame string)
    : result (list (list Z)) :=
  if decide (sklearn_rejects_renamed_columns = true ∧ columns X ≠ feature_names_in_ enc)
  then raise (ValueError "The feature names should match those that were passed during fit")
  else if decide (length (cols X) ≠ length (categories_ enc))
  then raise (ValueError "X has a different number of features than OrdinalEncoder is expecting")
  else
    _ ← check_X X;
    ok (zip_with (fun categories (c : string * list string) =>
                    encode_value (unknown_value enc) categories <$> c.2)
          (categories_ enc) (cols X)).

Definition fit_transform (unknown : Z) (X : DataFrame string)
    : result (OrdinalEncoder * list (list Z)) :=
  enc ← fit unknown X;
  codes ← transform enc X;
  ok (enc, codes).

(** [inverse_transform] of one column of codes. *)
Definition inverse_transform_column (enc : OrdinalEncoder) (i : nat) (codes : list Z)
    : list (option string) :=
  match categories_ enc !! i with
  | Some categories => decode_value (unknown_value enc) categories <$> codes
  | None => []
  end.

End Transform.

End Sklearn.

(** ** XGBoost: a trained booster is opaque *)

Module Xgboost.
Import Pandas.

(** [model.predict(xgb.DMatrix(X, feature_names=names))]: the scores of
    the rows of [X], or an error. *)
Record Booster : Type := {
  predict : DataFrame cell -> list string -> result (list Q)
}.

End Xgboost.

(** ** The model directory *)

Inductive file : Type :=
| FBooster (b : Xgboost.Booster)
| FPickle (e : Sklearn.OrdinalEncoder)
| FJson (names : list string)
| FOther (text : string).

(** [os.path.join(dir, name)] for a relative [name]. *)
Definition ends_with_slash (s : string) : bool :=
  match String.rev s with
  | String a _ => bool_decide (a = "/"%char)
  | EmptyString => false
  end.

Definition os_path_join (dir name : string) : string :=
  if decide (dir = "") then name
  else if ends_with_slash dir then dir +:+ name
  else dir +:+ "/" +:+ name.

Definition newline : string := String "010"%char "".

(** ** JSON values, and the parsers of the serving container *)

#[local] Unset Elimination Schemes.
Inductive json : Type :=
| JNull
| JBool (b : bool)
| JNum (q : Q)
| JString (s : string)
| JArray (items : list json)
| JObject (members : list (string * json)).
#[local] Set Elimination Schemes.

(** [pd.read_csv(io.StringIO(body), header=None, names=names)],
    [json.loads(body)] and [pd.DataFrame(records)]. *)
Class Parsers : Type := {
  pd_read_csv : string -> list string -> result (Pandas.DataFrame Pandas.cell);
  json_loads : string -> result json;
  pd_DataFrame : list json -> result (Pandas.DataFrame Pandas.cell)
}.

(** ** sagemaker/training_script.py *)

Module TrainingScript.
Import Pandas Sklearn Xgboost.

Definition TARGET : string := "IPQS_DEVICE_FP_FRAUD_SCORE".

Definition BOOLEAN_FEATURES : list string :=
  [ "IP_API_HOSTING"; "IP_API_MOBILE"; "IP_API_PROXY" ].

Definition CATEGORICAL_FEATURES : list string :=
  [ "IP_API_CITY"; "IP_API_COUNTRY"; "IP_API_COUNTRY_CODE"; "IP_API_ORG"; "IP_API_REGION";
    "IP_API_STATUS"; "IP_API_TIMEZONE"; "BROWSERNAME"; "BROWSERVERSION"; "DEVICECATEGORY";
    "DEVICETYPE"; "OPERATINGSYSTEM"; "OPERATINGSYSTEMVERSION"; "PROPERTY_NAME"; "PUBLISHER_NAME";
    "UTM_CONTENT"; "UTM_TERM"; "UTM_MEDIUM"; "UTM_SOURCE"; "VISITOR_TYPE"; "DOMAIN"; "STATE";
    "EMAIL_VERIFICATION_RESPONSE" ].

Definition NUMERIC_FEATURES : list string :=
  [ "IP_API_LATITUDE"; "IP_API_LONGITUDE"; "VISIT_COUNT_FORM_COMPLETED_MEASURE";
    "VISIT_COUNT_FORM_STARTED_MEASURE"; "VISIT_COUNT_VISIT_TO_PAGE_1_MEASURE";
    "VISIT_COUNT_PAGE_1_TO_PAGE_2_MEASURE"; "VISIT_COUNT_PAGE_2_TO_PAGE_3_MEASURE";
    "SECONDS_SPENT_FORM_MEASURE"; "SECONDS_SPENT_FORM_COMPLETE_MEASURE";
    "SECONDS_SPENT_PAGE_1_TO_2_MEASURE"; "SECONDS_SPENT_PAGE_2_TO_3_MEASURE";
    "SECONDS_SPENT_VISIT_TO_PAGE_1_MEASURE"; "SECONDS_SPENT_ZAN_PRIMARY_MEASURE";
    "SECONDS_SPENT_ZAN_PRIMARY_COMPLETE_MEASURE"; "SECONDS_SPENT_ZAN_PRIMARY_INCOMPLETE_MEASURE";
    "VISIT_COUNT_ZAN_COMPLETED_LESS_THAN_7_SECONDS_MEASURE";
    "VISIT_COUNT_ZAN_PRIMARY_COMPLETE_MEASURE"; "VISIT_COUNT_ZAN_PRIMARY_LOAD_MEASURE";
    "VISIT_COUNT_ZAN_SPENT_MORE_THAN_5_MINS_MEASURE"; "LTV_PIXEL_CAMPAIGN_CLICKS_MEASURE";
    "LTV_PIXEL_CAMPAIGN_IMPRESSIONS_MEASURE"; "LTV_PIXEL_PURCHASE_COUNT_MEASURE";
    "LTV_PIXEL_REVENUE_MEASURE"; "LTV_PIXEL_ADVERTISER_COST_MEASURE";
    "FICTITIOUS_CHARACTERS_NAME_MEASURE"; "FLAGGED_ADDRESS_MEASURE"; "FLAGGED_NAME_MEASURE";
    "FNLN_EMAIL_STRING_MEASURE"; "IPQS_FLAGGED_LOCATION_MEASURE"; "MISSING_ADDRESS_NUMBER_MEASURE";
    "MISSING_STREET_TYPE_MEASURE"; "VISITS_WITH_PII_COMPLETE_VISITS"; "RECYCLED_IP_ADDRESS_MEASURE";
    "SINGLE_LETTER_STRING_NAME_MEASURE"; "THREE_LETTER_STRING_NAME_MEASURE";
    "TWO_LETTER_STRING_NAME_MEASURE"; "THREE_LETTER_STRING_LEFT_RIGHT_NAME_MEASURE";
    "VULGAR_WORDS_NAME_MEASURE"; "VISIT_COUNT_ZAN_PRIMARY_INCOMPLETE_MEASURE";
    "POSITION_1_ANSWERS_MEASURE"; "CAMPAIGN_CLICKS_MEASURE"; "CAMPAIGN_CONVERSIONS_MEASURE";
    "CAMPAIGN_IMPRESSIONS_MEASURE"; "CPA_CLICKS_MEASURE"; "CPA_CONVERSIONS_MEASURE";
    "CPA_IMPRESSIONS_MEASURE"; "CPA_REVENUE_MEASURE"; "CPC_CONVERSIONS_MEASURE";
    "CPC_IMPRESSIONS_MEASURE"; "CPC_REVENUE_MEASURE"; "CPL_CONVERSIONS_MEASURE";
    "CPL_IMPRESSIONS_MEASURE"; "CPL_REVENUE_MEASURE"; "TOTAL_GROSS_REVENUE_MEASURE";
    "LAST_POSITION_ANSWERS_MEASURE"; "TOTAL_NET_REVENUE_MEASURE"; "PREPING_SCORE_1_PRIMARY_VISITS";
    "PREPING_SCORE_2_PRIMARY_VISITS"; "PREPING_SCORE_3_PRIMARY_VISITS";
    "PREPING_SCORE_4_PRIMARY_VISITS"; "PREPING_SCORE_5_PRIMARY_VISITS";
    "PRIMARY_GROSS_REVENUE_MEASURE"; "QUESTIONS_ANSWERED_MEASURE"; "QUESTIONS_IMPRESSED_MEASURE";
    "QUESTIONS_IMPRESSED_FOR_POSITION_RATE_MEASURE";
    "ZAN_SECONDARY_END_OF_PLACEMENT_VISITS_MEASURE"; "QUESTIONS_ANSWERED_FOR_POSITION_RATE_MEASURE";
    "ZAN_SECONDARY_PLACEMENT_VISITS_MEASURE"; "SECONDARY_NET_REVENUE_MEASURE" ].

(** A file below [data_dir]: its name, and what [pd.read_parquet] or
    [pd.read_csv] returns for it. *)
Record data_file : Type := {
  file_name : string;
  read : result (DataFrame cell)
}.

(** [data_dir] as pathlib scans it: the files directly in it, then the
    files of its subdirectories. *)
Record directory : Type := {
  dir_name : string;
  top : list data_file;
  nested : list data_file
}.

(** A name matches [*suffix]. *)
Definition ends_with (suffix name : string) : bool :=
  String.prefix (String.rev suffix) (String.rev name).

(** [data_path.glob("*" + suffix)] and [data_path.glob("**/*" + suffix)]:
    the second pattern also matches the files directly in the
    directory. *)
Definition glob (suffix : string) (d : directory) : list data_file :=
  filter (fun f => ends_with suffix (file_name f) = true) (top d).

Definition glob_recursive (suffix : string) (d : directory) : list data_file :=
  filter (fun f => ends_with suffix (file_name f) = true) (top d ++ nested d).

Definition load_data (data_dir : directory) : result (DataFrame cell) :=
  let parquet_files := glob ".parquet" data_dir ++ glob_recursive ".parquet" data_dir in
  let csv_files := glob ".csv" data_dir ++ glob_recursive ".csv" data_dir in
  match parquet_files, csv_files with
  | _ :: _, _ => dfs ← mapM read parquet_files; concat_rows dfs
  | [], _ :: _ => dfs ← mapM read csv_files; concat_rows dfs
  | [], [] =>
      raise (ValueError ("No parquet or CSV files found in " +:+ dir_name data_dir))
  end.

Section Script.
Context {platform : Platform}.

Definition prepare_features (df : DataFrame cell) (encoder : option OrdinalEncoder)
    (fit : bool) : result (DataFrame cell * option (list cell) * OrdinalEncoder) :=
  let available_cols := columns df in
  let bool_cols := filter (fun c => c ∈ available_cols) BOOLEAN_FEATURES in
  let cat_cols := filter (fun c => c ∈ available_cols) CATEGORICAL_FEATURES in
  let num_cols := filter (fun c => c ∈ available_cols) NUMERIC_FEATURES in
  categorical ← getitem_list df cat_cols;
  fitted ←
    (if fit then fit_transform (-1) (astype_str categorical)
     else
       match encoder with
       | Some enc =>
           cat_encoded ← transform enc (astype_str categorical); ok (enc, cat_encoded)
       | None => raise (AttributeError "'NoneType' object has no attribute 'transform'")
       end);
  let encoder := fitted.1 in
  let cat_encoded := fitted.2 in
  cat_encoded_df ←
    DataFrame_of_array (nrows df) (as_float64 cat_encoded)
      ((fun c => c +:+ "_ENCODED") <$> cat_cols);
  booleans ← getitem_list df bool_cols;
  numerics ← getitem_list df num_cols;
  let X :=
    concat_axis1
      [reset_index booleans; reset_index cat_encoded_df; reset_index numerics] in
  let y := if decide (TARGET ∈ columns df) then getitem_values df TARGET else None in
  ok (X, y, encoder).

Definition save_model (model : Booster) (encoder : OrdinalEncoder)
    (feature_names : list string) (model_dir : string) (fs : gmap string file)
    : gmap string file :=
  let model_path := os_path_join model_dir "xgboost-model" in
  let fs := <[model_path := FBooster model]> fs in
  let encoder_path := os_path_join model_dir "encoder.pkl" in
  let fs := <[encoder_path := FPickle encoder]> fs in
  let features_path := os_path_join model_dir "feature_names.json" in
  <[features_path := FJson feature_names]> fs.

(** [main], for the frames [load_data] returns; [train_model] and the
    text of the metrics are XGBoost's. *)
Definition main
    (train_model : DataFrame cell -> option (list cell) ->
                   DataFrame cell -> option (list cell) -> result Booster)
    (metrics : Booster -> string)
    (train_df val_df : DataFrame cell) (model_dir : string) (fs : gmap string file)
    : result (gmap string file) :=
  train ← prepare_features train_df None true;
  let X_train := train.1.1 in
  let y_train := train.1.2 in
  let encoder := train.2 in
  val ← prepare_features val_df (Some encoder) false;
  let X_val := val.1.1 in
  let y_val := val.1.2 in
  model ← train_model X_train y_train X_val y_val;
  let fs := save_model model encoder (columns X_train) model_dir fs in
  let metrics_path := os_path_join model_dir "metrics.json" in
  ok (<[metrics_path := FOther (metrics model)]> fs).

End Script.

End TrainingScript.

(** ** sagemaker/inference.py *)

Module Inference.
Import Pandas Sklearn Xgboost.

Definition BOOLEAN_FEATURES : list string :=
  [ "IP_API_HOSTING"; "IP_API_MOBILE"; "IP_API_PROXY" ].

Definition CATEGORICAL_FEATURES : list string :=
  [ "IP_API_CITY"; "IP_API_COUNTRY"; "IP_API_COUNTRY_CODE"; "IP_API_ORG"; "IP_API_REGION";
    "IP_API_STATUS"; "IP_API_TIMEZONE"; "BROWSERNAME"; "BROWSERVERSION"; "DEVICECATEGORY";
    "DEVICETYPE"; "OPERATINGSYSTEM"; "OPERATINGSYSTEMVERSION"; "PROPERTY_NAME"; "PUBLISHER_NAME";
    "UTM_CONTENT"; "UTM_TERM"; "UTM_MEDIUM"; "UTM_SOURCE"; "VISITOR_TYPE"; "DOMAIN"; "STATE";
    "EMAIL_VERIFICATION_RESPONSE" ].

Definition NUMERIC_FEATURES : list string :=
  [ "IP_API_LATITUDE"; "IP_API_LONGITUDE"; "VISIT_COUNT_FORM_COMPLETED_MEASURE";
    "VISIT_COUNT_FORM_STARTED_MEASURE"; "VISIT_COUNT_VISIT_TO_PAGE_1_MEASURE";
    "VISIT_COUNT_PAGE_1_TO_PAGE_2_MEASURE"; "VISIT_COUNT_PAGE_2_TO_PAGE_3_MEASURE";
    "SECONDS_SPENT_FORM_MEASURE"; "SECONDS_SPENT_FORM_COMPLETE_MEASURE";
    "SECONDS_SPENT_PAGE_1_TO_2_MEASURE"; "SECONDS_SPENT_PAGE_2_TO_3_MEASURE";
    "SECONDS_SPENT_VISIT_TO_PAGE_1_MEASURE"; "SECONDS_SPENT_ZAN_PRIMARY_MEASURE";
    "SECONDS_SPENT_ZAN_PRIMARY_COMPLETE_MEASURE"; "SECONDS_SPENT_ZAN_PRIMARY_INCOMPLETE_MEASURE";
    "VISIT_COUNT_ZAN_COMPLETED_LESS_THAN_7_SECONDS_MEASURE";
    "VISIT_COUNT_ZAN_PRIMARY_COMPLETE_MEASURE"; "VISIT_COUNT_ZAN_PRIMARY_LOAD_MEASURE";
    "VISIT_COUNT_ZAN_SPENT_MORE_THAN_5_MINS_MEASURE"; "LTV_PIXEL_CAMPAIGN_CLICKS_MEASURE";
    "LTV_PIXEL_CAMPAIGN_IMPRESSIONS_MEASURE"; "LTV_PIXEL_PURCHASE_COUNT_MEASURE";
    "LTV_PIXEL_REVENUE_MEASURE"; "LTV_PIXEL_ADVERTISER_COST_MEASURE";
    "FICTITIOUS_CHARACTERS_NAME_MEASURE"; "FLAGGED_ADDRESS_MEASURE"; "FLAGGED_NAME_MEASURE";
    "FNLN_EMAIL_STRING_MEASURE"; "IPQS_FLAGGED_LOCATION_MEASURE"; "MISSING_ADDRESS_NUMBER_MEASURE";
    "MISSING_STREET_TYPE_MEASURE"; "VISITS_WITH_PII_COMPLETE_VISITS"; "RECYCLED_IP_ADDRESS_MEASURE";
    "SINGLE_LETTER_STRING_NAME_MEASURE"; "THREE_LETTER_STRING_NAME_MEASURE";
    "TWO_LETTER_STRING_NAME_MEASURE"; "THREE_LETTER_STRING_LEFT_RIGHT_NAME_MEASURE";
    "VULGAR_WORDS_NAME_MEASURE"; "VISIT_COUNT_ZAN_PRIMARY_INCOMPLETE_MEASURE";
    "POSITION_1_ANSWERS_MEASURE"; "CAMPAIGN_CLICKS_MEASURE"; "CAMPAIGN_CONVERSIONS_MEASURE";
    "CAMPAIGN_IMPRESSIONS_MEASURE"; "CPA_CLICKS_MEASURE"; "CPA_CONVERSIONS_MEASURE";
    "CPA_IMPRESSIONS_MEASURE"; "CPA_REVENUE_MEASURE"; "CPC_CONVERSIONS_MEASURE";
    "CPC_IMPRESSIONS_MEASURE"; "CPC_REVENUE_MEASURE"; "CPL_CONVERSIONS_MEASURE";
    "CPL_IMPRESSIONS_MEASURE"; "CPL_REVENUE_MEASURE"; "TOTAL_GROSS_REVENUE_MEASURE";
    "LAST_POSITION_ANSWERS_MEASURE"; "TOTAL_NET_REVENUE_MEASURE"; "PREPING_SCORE_1_PRIMARY_VISITS";
    "PREPING_SCORE_2_PRIMARY_VISITS"; "PREPING_SCORE_3_PRIMARY_VISITS";
    "PREPING_SCORE_4_PRIMARY_VISITS"; "PREPING_SCORE_5_PRIMARY_VISITS";
    "PRIMARY_GROSS_REVENUE_MEASURE"; "QUESTIONS_ANSWERED_MEASURE"; "QUESTIONS_IMPRESSED_MEASURE";
    "QUESTIONS_IMPRESSED_FOR_POSITION_RATE_MEASURE";
    "ZAN_SECONDARY_END_OF_PLACEMENT_VISITS_MEASURE"; "QUESTIONS_ANSWERED_FOR_POSITION_RATE_MEASURE";
    "ZAN_SECONDARY_PLACEMENT_VISITS_MEASURE"; "SECONDARY_NET_REVENUE_MEASURE" ].

Definition ALL_RAW_FEATURES : list string :=
  BOOLEAN_FEATURES ++ CATEGORICAL_FEATURES ++ NUMERIC_FEATURES.

(** The module-level variables [model], [encoder], [feature_names]. *)
Record globals : Type := {
  model : option Booster;
  encoder : option OrdinalEncoder;
  feature_names : option (list string)
}.

Definition initial : globals :=
  {| model := None; encoder := None; feature_names := None |}.

Definition model_fn (model_dir : string) (fs : gmap string file)
    : result (globals * Booster) :=
  let model_path := os_path_join model_dir "xgboost-model" in
  model ←
    match fs !! model_path with
    | Some (FBooster b) => ok b
    | Some _ => raise (ValueError "XGBoostError")
    | None => raise (FileNotFoundError model_path)
    end;
  let encoder_path := os_path_join model_dir "encoder.pkl" in
  encoder ←
    match fs !! encoder_path with
    | Some (FPickle e) => ok e
    | Some _ => raise (UnpicklingError encoder_path)
    | None => raise (FileNotFoundError encoder_path)
    end;
  let features_path := os_path_join model_dir "feature_names.json" in
  feature_names ←
    match fs !! features_path with
    | Some (FJson names) => ok names
    | Some _ => raise (ValueError "JSONDecodeError")
    | None => raise (FileNotFoundError features_path)
    end;
  ok ({| model := Some model; encoder := Some encoder;
         feature_names := Some feature_names |}, model).

Section Script.
Context {platform : Platform} {parsers : Parsers}.

Definition input_fn (request_body request_content_type : string)
    : result (DataFrame cell) :=
  if decide (request_content_type = "text/csv") then
    pd_read_csv request_body ALL_RAW_FEATURES
  else if decide (request_content_type = "application/json") then
    data ← json_loads request_body;
    match data with
    | JArray items => pd_DataFrame items
    | _ => pd_DataFrame [data]
    end
  else raise (ValueError ("Unsupported content type: " +:+ request_content_type)).

(** [predict_fn] up to [X = X[feature_names]]: the frame handed to the
    booster. *)
Definition predict_fn_features (g : globals) (input_data : DataFrame cell)
    : result (DataFrame cell) :=
  let available_cols := columns input_data in
  let bool_cols := filter (fun c => c ∈ available_cols) BOOLEAN_FEATURES in
  let cat_cols := filter (fun c => c ∈ available_cols) CATEGORICAL_FEATURES in
  let num_cols := filter (fun c => c ∈ available_cols) NUMERIC_FEATURES in
  enc ←
    match encoder g with
    | Some enc => ok enc
    | None => raise (AttributeError "'NoneType' object has no attribute 'transform'")
    end;
  categorical ← getitem_list input_data cat_cols;
  cat_encoded ← transform enc (astype_str categorical);
  cat_encoded_df ←
    DataFrame_of_array (nrows input_data) (as_float64 cat_encoded)
      ((fun c => c +:+ "_ENCODED") <$> cat_cols);
  booleans ← getitem_list input_data bool_cols;
  numerics ← getitem_list input_data num_cols;
  let X :=
    concat_axis1
      [reset_index booleans; reset_index cat_encoded_df; reset_index numerics] in
  match feature_names g with
  | Some names => getitem_list X names
  | None => raise (KeyError [])
  end.

Definition predict_fn (g : globals) (input_data : DataFrame cell) (model : Booster)
    : result (list Q) :=
  X ← predict_fn_features g input_data;
  match feature_names g with
  | Some names => predict model X names
  | None => raise (KeyError [])
  end.

Definition output_fn (prediction : list Q) (accept : string) : result string :=
  if decide (accept = "text/csv" ∨ accept = "*/*") then
    ok (String.concat newline (np_str_float32 <$> prediction))
  else if decide (accept = "application/json") then
    ok ("[" +:+ String.concat ", " (py_str_float <$> prediction) +:+ "]")
  else raise (ValueError ("Unsupported accept type: " +:+ accept)).

End Script.

End Inference.

(** ** glue_scripts/load_scores_to_snowflake.py *)

Module LoadScores.

(** A row of the target table. *)
Record scored (A B : Type) : Type := {
  id_row : A;
  PREDICTED_FRAUD_SCORE : B;
  MODEL_VERSION : string;
  SCORE_DATE : string
}.
Arguments Build_scored {A B} _ _ _ _.
Arguments id_row {A B} _.
Arguments PREDICTED_FRAUD_SCORE {A B} _.

(** The join of [main]: both frames get a [_row_idx] column from
    [monotonically_increasing_id()] and are joined on it. *)
Definition join_ids_predictions {A B : Type} (ids_df : Spark.frame A)
    (predictions_df : Spark.frame B) : list (A * B) :=
  let ids_df := Spark.with_id ids_df in
  let predictions_df := Spark.with_id predictions_df in
  Spark.join_inner (Spark.collect ids_df) (Spark.collect predictions_df).

Definition main {A B : Type} (ids_df : Spark.frame A) (predictions_df : Spark.frame B)
    (model_version yesterday : string) : list (scored A B) :=
  (fun r => {| id_row := r.1; PREDICTED_FRAUD_SCORE := r.2;
               MODEL_VERSION := model_version; SCORE_DATE := yesterday |})
    <$> join_ids_predictions ids_df predictions_df.

End LoadScores.

(** ** The feature contract each script declares *)

Module Contract.

Record t : Type := {
  target : option string;
  boolean : list string;
  categorical : list string;
  numeric : list string
}.

Definition training_extractor : t :=
  {| target := Some ExtractTrainingData.TARGET;
     boolean := ExtractTrainingData.BOOLEAN_FEATURES;
     categorical := ExtractTrainingData.CATEGORICAL_FEATURES;
     numeric := ExtractTrainingData.NUMERIC_FEATURES |}.

Definition inference_extractor : t :=
  {| target := Some ExtractInferenceData.TARGET;
     boolean := ExtractInferenceData.BOOLEAN_FEATURES;
     categorical := ExtractInferenceData.CATEGORICAL_FEATURES;
     numeric := ExtractInferenceData.NUMERIC_FEATURES |}.

Definition trainer : t :=
  {| target := Some TrainingScript.TARGET;
     boolean := TrainingScript.BOOLEAN_FEATURES;
     categorical := TrainingScript.CATEGORICAL_FEATURES;
     numeric := TrainingScript.NUMERIC_FEATURES |}.

(** sagemaker/inference.py declares the three lists and no target. *)
Definition predictor : t :=
  {| target := None;
     boolean := Inference.BOOLEAN_FEATURES;
     categorical := Inference.CATEGORICAL_FEATURES;
     numeric := Inference.NUMERIC_FEATURES |}.

Definition declared (c : t) : list (string * coltype) :=
  ((fun n => (n, Boolean)) <$> boolean c)
  ++ ((fun n => (n, Categorical)) <$> categorical c)
  ++ ((fun n => (n, Numeric)) <$> numeric c).

(** The name a raw column has in the feature vector. *)
Definition encoded (column : string) : string := column +:+ "_ENCODED".

Definition feature_name (ty : coltype) (column : string) : string :=
  match ty with
  | Categorical => encoded column
  | Boolean | Numeric => column
  end.

(** The features a frame has a column for, in the order of the
    contract. *)
Definition available {A : Type} (df : Pandas.DataFrame A) (features : list string)
    : list string :=
  filter (fun c => c ∈ Pandas.columns df) features.

End Contract.

(** ** Definitions that follow the words of the specification *)

Module Spec.
Import Contract.

(** The null-filling rule table: boolean to 1 when true and 0 otherwise;
    categorical to its text, or "MISSING" when null; numeric to its
    value, or 0 when null. *)
Section RuleTable.
Context {platform : Platform}.


End RuleTable.

(** The raw values a column of a declared type holds. *)
Definition has_type (ty : coltype) (v : Sql.value) : Prop :=
  match ty, v with
  | Boolean, (Sql.VNull | Sql.VBool _) => True
  | Categorical, _ => True
  | Numeric, (Sql.VNull | Sql.VNum _) => True
  | _, _ => False
  end.

#[global] Instance has_type_dec (ty : coltype) (v : Sql.value) : Decision (has_type ty v).
Proof. destruct ty, v; apply _. Defined.

(** A warehouse row that holds, for every column of the contract, a
    value of the declared type. *)
Definition column_typed (r : Sql.row) (c : string) (ty : coltype) : Prop :=
  ∃ v, Sql.get c r = Some v ∧ has_type ty v.

#[global] Instance column_typed_dec (r : Sql.row) (c : string) (ty : coltype) :
  Decision (column_typed r c ty).
Proof.
  unfold column_typed. destruct (Sql.get c r) as [v|].
  - destruct (decide (has_type ty v)) as [Hty|Hty].
    + left. by exists v.
    + right. intros (v' & [= <-] & ?). done.
  - right. intros (v' & [=] & _).
Defined.


(** Strictly before, in the order of strings. *)
Definition string_lt (a b : string) : Prop := String.le a b ∧ a ≠ b.

(** The rank of a string among the distinct values of a series: the
    number of distinct values strictly before it. *)
Definition rank (seen : list string) (s : string) : Z :=
  Z.of_nat (length (filter (fun t => string_lt t s) (remove_dups seen))).

(** The distinct values of a series in the order of their first
    occurrence, and the code that order would give. *)
Definition first_seen (values : list string) : list string :=
  reverse (remove_dups (reverse values)).

Definition first_seen_code (seen : list string) (s : string) : Z :=
  Sklearn.encode_value (-1) (first_seen seen) s.

(** Pairing two files row by row. *)
Definition by_position {A B : Type} (ids : list A) (scores : list B) : list (A * B) :=
  zip ids scores.

End Spec.

(** ** A platform and inputs for the closed examples *)

Module Sample.
Import Pandas.

(** Numbers print as their integer part; scikit-learn is a current
    one. *)
Definition platform : Platform :=
  {| varchar_of_number := fun q => pretty (Qfloor q);
     varchar_of_time := fun q => pretty (Qfloor q);
     py_str_float := fun q => pretty (Qfloor q);
     np_str_float32 := fun q => pretty (Qfloor q);
     sklearn_rejects_renamed_columns := true |}.

(** Parsers that accept nothing. *)
Definition parsers : Parsers :=
  {| pd_read_csv := fun _ _ => raise (ValueError "ParserError");
     json_loads := fun _ => raise (ValueError "JSONDecodeError");
     pd_DataFrame := fun _ => raise (ValueError "DataFrame constructor not properly called") |}.

(** A frame of [n] rows holding [value] under every label. *)
Definition constant_frame (labels : list string) (n : nat) (value : cell)
    : DataFrame cell :=
  {| nrows := n; cols := (fun c => (c, replicate n value)) <$> labels |}.


Definition request_frame : DataFrame cell :=
  constant_frame Inference.ALL_RAW_FEATURES 1 (CInt 1).

Definition short_frame : DataFrame cell :=
  constant_frame (filter (fun c => c ≠ "IP_API_CITY") Inference.ALL_RAW_FEATURES) 1
    (CInt 1).

(** A frame whose columns arrive numeric first, then categorical, then
    boolean. *)
Definition scrambled_frame : DataFrame cell :=
  {| nrows := 1;
     cols := [("IP_API_LATITUDE", [CFloat (1 # 2)]); ("IP_API_CITY", [CStr "Paris"]);
              ("IP_API_HOSTING", [CInt 1])] |}.

(** The state of a serving process after [model_fn]: an encoder fitted
    on [train_frame] and the feature names of the full contract. *)
Definition loaded : Inference.globals :=
  {| Inference.model := None;
     Inference.encoder :=
       Some {| Sklearn.categories_ := replicate 23 ["1"];
               Sklearn.feature_names_in_ := Inference.CATEGORICAL_FEATURES;
               Sklearn.unknown_value := -1 |};
     Inference.feature_names :=
       Some (Inference.BOOLEAN_FEATURES
             ++ (Contract.encoded <$> Inference.CATEGORICAL_FEATURES)
             ++ Inference.NUMERIC_FEATURES) |}.

(** One categorical column, at fit time and at prediction time. *)
Definition fit_frame : DataFrame cell :=
  {| nrows := 3;
     cols := [("IP_API_COUNTRY_CODE", [CStr "US"; CStr "CA"; CStr "US"])] |}.

Definition apply_frame : DataFrame cell :=
  {| nrows := 3;
     cols := [("IP_API_COUNTRY_CODE", [CStr "US"; CStr "CA"; CStr "MX"])] |}.

(** A warehouse row with every column of the contract null, then with
    some columns set. *)
Definition null_row : Sql.row :=
  (fun c => (c, Sql.VNull))
    <$> (ExtractTrainingData.BOOLEAN_FEATURES ++ ExtractTrainingData.CATEGORICAL_FEATURES
         ++ ExtractTrainingData.NUMERIC_FEATURES).

Definition scenario_row : Sql.row :=
  [("IP_API_HOSTING", Sql.VBool true); ("IP_API_CITY", Sql.VNull);
   ("IP_API_LATITUDE", Sql.VNull); (ExtractTrainingData.TARGET, Sql.VNum 10);
   ("CREATED_AT", Sql.VTime 100); ("ID", Sql.VStr "r1")]
  ++ null_row.

(** A source table of two eligible rows, and a generator that yields
    1570543588041465562 for the first and -3581185414942383166 for the
    second. *)
Definition source : gmap string Sql.table :=
  {[ "SOURCE" := [scenario_row; scenario_row] ]}.

Definition generator (seed : Z) (i : nat) : Z :=
  match i with
  | O => 1570543588041465562
  | _ => -3581185414942383166
  end.

(** The warehouse as an execution finds it on day [today]: the source
    table and the generator above. *)
Definition warehouse (today : Z) : Sql.execution :=
  {| Sql.x_tables := source; Sql.x_generator := generator; Sql.x_today := today |}.

(** Two records told apart by their identifier, and a warehouse whose
    executions hand out the two draws in the order of the scan, which
    from the fifth action of a job on is the other way round. *)
Definition record_of (id : string) : Sql.row :=
  [("IP_API_HOSTING", Sql.VBool true); ("IP_API_CITY", Sql.VStr id);
   ("IP_API_LATITUDE", Sql.VNull); (ExtractTrainingData.TARGET, Sql.VNum 10);
   ("CREATED_AT", Sql.VTime 100); ("ID", Sql.VStr id)]
  ++ null_row.

Definition rescanned (k : nat) : Sql.execution :=
  {| Sql.x_tables :=
       {[ "SOURCE" := if (k <? 4)%nat then [record_of "r1"; record_of "r2"]
                      else [record_of "r2"; record_of "r1"] ]};
     Sql.x_generator := generator;
     Sql.x_today := 100 |}.

(** An identifiers file read as two partitions and a predictions file of
    as many rows read as one. *)
Definition ids_df : Spark.frame string := [["a"; "b"]; ["c"]].
Definition predictions_df : Spark.frame Q := [[1 # 2; 1 # 4; 3 # 4]].

(** A labelled frame of two rows, with an identifier besides the
    columns of the contract; the same rows without the identifier and
    the label, in another order of columns. *)
Definition labelled_frame : DataFrame cell :=
  {| nrows := 2;
     cols := [("ID", [CStr "r1"; CStr "r2"]);
              (TrainingScript.TARGET, [CFloat 10; CFloat 90]);
              ("IP_API_LATITUDE", [CFloat (1 # 2); CFloat 0]);
              ("IP_API_COUNTRY_CODE", [CStr "US"; CStr "CA"]);
              ("IP_API_HOSTING", [CInt 1; CInt 0])] |}.

Definition bare_frame : DataFrame cell :=
  {| nrows := 2;
     cols := [("IP_API_HOSTING", [CInt 1; CInt 0]);
              ("IP_API_COUNTRY_CODE", [CStr "US"; CStr "CA"]);
              ("IP_API_LATITUDE", [CFloat (1 # 2); CFloat 0])] |}.

(** A frame that has a categorical column and no row. *)
Definition empty_frame : DataFrame cell :=
  {| nrows := 0; cols := [("IP_API_CITY", [])] |}.

(** Channel directories as the training job finds them: one that holds
    no data file, one that holds one part file written by Spark, and one
    that holds a part file and a CSV file. *)
Definition empty_dir : TrainingScript.directory :=
  {| TrainingScript.dir_name := "/opt/ml/input/data/train";
     TrainingScript.top :=
       [{| TrainingScript.file_name := "_SUCCESS";
           TrainingScript.read := raise (ValueError "ParserError") |}];
     TrainingScript.nested := [] |}.

Definition part_file : TrainingScript.data_file :=
  {| TrainingScript.file_name := "part-00000.snappy.parquet";
     TrainingScript.read := ok labelled_frame |}.

Definition train_dir : TrainingScript.directory :=
  {| TrainingScript.dir_name := "/opt/ml/input/data/train";
     TrainingScript.top := [part_file];
     TrainingScript.nested := [] |}.

Definition mixed_dir : TrainingScript.directory :=
  {| TrainingScript.dir_name := "/opt/ml/input/data/train";
     TrainingScript.top :=
       [part_file;
        {| TrainingScript.file_name := "notes.csv";
           TrainingScript.read := raise (ValueError "ParserError") |}];
     TrainingScript.nested := [] |}.

(** A training run: a trainer that returns a booster scoring nothing,
    and the text of its metrics. *)
Definition booster : Xgboost.Booster := {| Xgboost.predict := fun _ _ => ok [] |}.

Definition train_model (X_train : DataFrame cell) (y_train : option (list cell))
    (X_val : DataFrame cell) (y_val : option (list cell)) : result Xgboost.Booster :=
  ok booster.

Definition metrics (model : Xgboost.Booster) : string := "{}".

(** A predictions file of three rows read as two partitions, as the
    identifiers file is. *)
Definition predictions_split : Spark.frame Q := [[1 # 2; 1 # 4]; [3 # 4]].

End Sample.

(** ** Notions the further properties are stated with *)

Module Shape.

(** A cleaned value: 0 or 1 for a boolean column, a string for a
    categorical column, anything but NULL for a numeric column. *)
Definition filled (ty : coltype) (v : Sql.value) : Prop :=
  match ty with
  | Boolean => v = Sql.VNum 0 ∨ v = Sql.VNum 1
  | Categorical => ∃ s, v = Sql.VStr s
  | Numeric => v ≠ Sql.VNull
  end.

(** The columns of a frame under given labels, and the frame the
    trainer and the predictor assemble from a frame and the codes of its
    categorical columns: the boolean columns it has, the codes under the
    encoded names, the numeric columns it has. *)
Definition selected {A : Type} (df : Pandas.DataFrame A) (names : list string)
    : Pandas.DataFrame A :=
  {| Pandas.nrows := Pandas.nrows df;
     Pandas.cols :=
       c ← names; filter (fun col : string * list A => col.1 = c) (Pandas.cols df) |}.

Definition assembled (df : Pandas.DataFrame Pandas.cell) (B C N : list string)
    (codes : list (list Z)) : Pandas.DataFrame Pandas.cell :=
  Pandas.concat_axis1
    [Pandas.reset_index (selected df (Contract.available df B));
     Pandas.reset_index
       {| Pandas.nrows := Pandas.nrows df;
          Pandas.cols :=
            zip (Contract.encoded <$> Contract.available df C) (Sklearn.as_float64 codes) |};
     Pandas.reset_index (selected df (Contract.available df N))].

(** Pairing two frames partition by partition, row by row. *)
Definition by_partition {A B : Type} (ids : Spark.frame A) (scores : Spark.frame B)
    : list (A * B) :=
  concat (zip_with zip ids scores).

(** [body.split(sep)] for a separator of one character, and whether a
    string holds a character. *)
Fixpoint split_on (sep : ascii) (s : string) : list string :=
  match s with
  | EmptyString => [EmptyString]
  | String a s' =>
      if decide (a = sep) then EmptyString :: split_on sep s'
      else
        match split_on sep s' with
        | line :: rest => String a line :: rest
        | [] => [String a EmptyString]
        end
  end.

Fixpoint has_char (a : ascii) (s : string) : bool :=
  match s with
  | EmptyString => false
  | String b s' => bool_decide (b = a) || has_char a s'
  end.

End Shape.

(** * Properties *)

Import Pandas Sklearn Xgboost.

(** ** The feature contract across the scripts *)

(** C8, as stated: the target column name and the three ordered column
    lists are identical across all four scripts.  The serving script
    declares no target column, so the four contracts are not all
    equal. *)
Lemma contracts_not_all_identical :
  ¬ (Contract.training_extractor = Contract.inference_extractor
     ∧ Contract.inference_extractor = Contract.trainer
     ∧ Contract.trainer = Contract.predictor).
Proof.
  intros (_ & _ & E). apply (f_equal Contract.target) in E. discriminate E.
Qed.

(** C8, amended: the ordered boolean, categorical and numeric column
    lists are element for element identical in the four scripts; the
    target column name is identical in the three scripts that declare one
    (both extractors and the training script); the serving script
    declares none. *)
Theorem feature_lists_identical :
  Contract.boolean Contract.training_extractor = Contract.boolean Contract.inference_extractor
  ∧ Contract.boolean Contract.inference_extractor = Contract.boolean Contract.trainer
  ∧ Contract.boolean Contract.trainer = Contract.boolean Contract.predictor
  ∧ Contract.categorical Contract.training_extractor
    = Contract.categorical Contract.inference_extractor
  ∧ Contract.categorical Contract.inference_extractor = Contract.categorical Contract.trainer
  ∧ Contract.categorical Contract.trainer = Contract.categorical Contract.predictor
  ∧ Contract.numeric Contract.training_extractor = Contract.numeric Contract.inference_extractor
  ∧ Contract.numeric Contract.inference_extractor = Contract.numeric Contract.trainer
  ∧ Contract.numeric Contract.trainer = Contract.numeric Contract.predictor
  ∧ Contract.target Contract.training_extractor = Contract.target Contract.inference_extractor
  ∧ Contract.target Contract.inference_extractor = Contract.target Contract.trainer
  ∧ Contract.target Contract.trainer = Some "IPQS_DEVICE_FP_FRAUD_SCORE"
  ∧ Contract.target Contract.predictor = None
  ∧ Inference.ALL_RAW_FEATURES
    = Contract.boolean Contract.trainer ++ Contract.categorical Contract.trainer
      ++ Contract.numeric Contract.trainer.
Proof. repeat split; reflexivity. Qed.

(** ** The ordinal encoder *)

Lemma filter_none {A : Type} (P : A → Prop) `{!∀ x, Decision (P x)} (l : list A) :
  Forall (fun x => ¬ P x) l → filter P l = [].
Proof.
  induction 1 as [|x l Hx _ IH]; [done|]. by rewrite filter_cons_False.
Qed.

Lemma unique_sorted (values : list string) : StronglySorted String.le (unique values).
Proof. apply (StronglySorted_merge_sort String.le). Qed.

Lemma unique_permutation (values : list string) : unique values ≡ₚ remove_dups values.
Proof. apply merge_sort_Permutation. Qed.

Lemma elem_of_unique (values : list string) (s : string) : s ∈ unique values ↔ s ∈ values.
Proof. rewrite unique_permutation. apply elem_of_remove_dups. Qed.

Lemma unique_NoDup (values : list string) : NoDup (unique values).
Proof. rewrite unique_permutation. apply NoDup_remove_dups. Qed.

Lemma encode_value_unseen (u : Z) (cats : list string) (s : string) :
  s ∉ cats → encode_value u cats s = u.
Proof.
  intros Hs. unfold encode_value.
  destruct (list_find _ cats) as [[i c]|] eqn:E; [|done].
  apply list_find_Some in E as (Hi & -> & _).
  exfalso. apply Hs. by eapply list_elem_of_lookup_2.
Qed.

Lemma encode_value_seen (u : Z) (cats : list string) (s : string) :
  s ∈ cats → ∃ i : nat, cats !! i = Some s ∧ encode_value u cats s = Z.of_nat i.
Proof.
  intros Hs. unfold encode_value.
  destruct (list_find _ cats) as [[i c]|] eqn:E.
  - apply list_find_Some in E as (Hi & -> & _). eauto.
  - apply list_find_None in E. rewrite Forall_forall in E. by destruct (E s).
Qed.

(** In a sorted list of categories the code of a category is the number
    of categories strictly before it. *)
Lemma encode_value_sorted (u : Z) (cats : list string) (s : string) :
  StronglySorted String.le cats → s ∈ cats →
  encode_value u cats s = Z.of_nat (length (filter (fun t => Spec.string_lt t s) cats)).
Proof.
  unfold encode_value. intros Hsorted.
  induction Hsorted as [|c cats Hsorted IH Hall]; intros Hs.
  - by apply elem_of_nil in Hs.
  - destruct (decide (c = s)) as [->|Hc].
    + rewrite filter_cons_False by (by intros [_ ?]).
      rewrite filter_none.
      * cbn. by rewrite decide_True.
      * eapply Forall_impl; [exact Hall|]. intros t Hst [Hts Hne].
        apply Hne. by apply (anti_symm String.le).
    + apply elem_of_cons in Hs as [->|Hs]; [done|].
      rewrite filter_cons_True.
      2:{ split; [|done]. rewrite Forall_forall in Hall. by apply Hall. }
      specialize (IH Hs). cbn. rewrite decide_False by done.
      destruct (list_find _ cats) as [[i x]|] eqn:E; cbn in *; [lia|].
      apply list_find_None in E. rewrite Forall_forall in E. by destruct (E s).
Qed.

Lemma encode_unique (seen : list string) (s : string) :
  encode_value (-1) (unique seen) s
  = if decide (s ∈ seen) then Spec.rank seen s else -1.
Proof.
  case_decide as Hs.
  - unfold Spec.rank. rewrite encode_value_sorted.
    + by rewrite unique_permutation.
    + apply unique_sorted.
    + by apply elem_of_unique.
  - apply encode_value_unseen. by rewrite elem_of_unique.
Qed.

Lemma decode_encode (cats : list string) (s : string) :
  s ∈ cats → decode_value (-1) cats (encode_value (-1) cats s) = Some s.
Proof.
  intros Hs. destruct (encode_value_seen (-1) cats s Hs) as (i & Hi & ->).
  unfold decode_value. rewrite decide_False by lia. rewrite decide_True by lia.
  by rewrite Nat2Z.id.
Qed.

Section EncoderFrames.
Context {platform : Platform}.

Lemma check_X_ok (X : DataFrame string) : (0 < nrows X)%nat → check_X X = ok ().
Proof. intros Hn. unfold check_X. rewrite decide_False; [done|]. lia. Qed.

Lemma fit_ok (X : DataFrame string) :
  (0 < nrows X)%nat →
  fit (-1) X
  = ok {| categories_ := (fun c : string * list string => unique c.2) <$> cols X;
          feature_names_in_ := columns X;
          unknown_value := -1 |}.
Proof.
  intros Hn. unfold fit. rewrite check_X_ok by done. cbn.
  rewrite decide_False; [done|].
  rewrite Exists_exists. intros (cats & _ & ?). lia.
Qed.

Lemma transform_ok (enc : OrdinalEncoder) (X : DataFrame string) :
  columns X = feature_names_in_ enc →
  length (cols X) = length (categories_ enc) →
  (0 < nrows X)%nat →
  transform enc X
  = ok (zip_with (fun categories (c : string * list string) =>
                    encode_value (unknown_value enc) categories <$> c.2)
          (categories_ enc) (cols X)).
Proof.
  intros Hnames Hlen Hn. unfold transform.
  rewrite decide_False by (by intros [_ ?]).
  rewrite decide_False by (by intros ?).
  by rewrite check_X_ok.
Qed.

End EncoderFrames.

(** C2, as stated: fitting on US, CA, US and applying to US, CA, MX
    yields the codes 0, 1, -1 of the order of first occurrence.  The
    trainer fits on the first frame, the predictor applies the persisted
    encoder to the second, and the codes are 1, 0, -1. *)
Lemma codes_not_by_first_occurrence :
  (Spec.first_seen_code ["US"; "CA"; "US"] <$> ["US"; "CA"; "MX"]) = [0; 1; -1]
  ∧ ∃ X enc X',
      TrainingScript.prepare_features (platform := Sample.platform) Sample.fit_frame None true
      = ok (X, None, enc)
      ∧ Inference.predict_fn_features (platform := Sample.platform)
          {| Inference.model := None; Inference.encoder := Some enc;
             Inference.feature_names := Some (columns X) |} Sample.apply_frame
        = ok X'
      ∧ cols X' = [("IP_API_COUNTRY_CODE_ENCODED", [CFloat 1; CFloat 0; CFloat (-1)])]
      ∧ cols X' ≠ [("IP_API_COUNTRY_CODE_ENCODED", [CFloat 0; CFloat 1; CFloat (-1)])].
Proof.
  split; [by vm_compute|].
  eexists _, _, _. split; [by vm_compute|]. split; [by vm_compute|].
  split; [done|]. intros E. discriminate E.
Qed.

(** C2, amended: for every frame of string columns, fit gives each
    distinct string of a column the code that is its rank in the
    ascending order of the distinct strings of that column (not the
    order of first occurrence); apply maps every string seen in fit to
    that code and every other string to -1; fitting on US, CA, US and
    applying to US, CA, MX yields 1, 0, -1. *)
Theorem encoder_codes_are_ranks {platform : Platform} (X : DataFrame string) :
  (0 < nrows X)%nat →
  ∃ enc,
    fit (-1) X = ok enc
    ∧ (∀ X' : DataFrame string,
         columns X' = columns X → (0 < nrows X')%nat →
         ∃ codes,
           transform enc X' = ok codes
           ∧ length codes = length (cols X')
           ∧ ∀ (i : nat) (name name' : string) (seen values : list string),
               cols X !! i = Some (name, seen) →
               cols X' !! i = Some (name', values) →
               codes !! i
               = Some ((fun s => if decide (s ∈ seen) then Spec.rank seen s else -1)
                         <$> values))
    ∧ (Spec.rank ["US"; "CA"; "US"] <$> ["US"; "CA"]) = [1; 0]
    ∧ (encode_value (-1) (unique ["US"; "CA"; "US"]) <$> ["US"; "CA"; "MX"]) = [1; 0; -1].
Proof.
  intros Hn. eexists. split; [by apply fit_ok|].
  split; [|split; by vm_compute].
  intros X' Hcols Hn'.
  assert (length (cols X') = length (cols X)) as Hlen.
  { pose proof (f_equal length Hcols) as E. unfold columns in E.
    by rewrite !length_fmap in E. }
  eexists. split.
  { apply transform_ok; cbn; [done| |done]. by rewrite length_fmap. }
  cbn. split.
  { rewrite length_zip_with, length_fmap. lia. }
  intros i name name' seen values Hi Hi'.
  rewrite lookup_zip_with, list_lookup_fmap, Hi, Hi'. cbn. f_equal.
  apply list_fmap_ext. intros _ s _. apply encode_unique.
Qed.

Lemma encoder_codes_are_ranks_witness :
  ∃ enc,
    fit (-1) (astype_str (platform := Sample.platform) Sample.fit_frame) = ok enc
    ∧ ∃ codes, transform (platform := Sample.platform) enc
                 (astype_str (platform := Sample.platform) Sample.apply_frame) = ok codes
               ∧ codes = [[1; 0; -1]].
Proof.
  destruct (encoder_codes_are_ranks (platform := Sample.platform)
              (astype_str (platform := Sample.platform) Sample.fit_frame))
    as (enc & Hfit & Happly & _).
  { cbn. lia. }
  exists enc. split; [exact Hfit|].
  destruct (Happly (astype_str (platform := Sample.platform) Sample.apply_frame))
    as (codes & Hcodes & Hlen & Hcol).
  { reflexivity. }
  { cbn. lia. }
  exists codes. split; [exact Hcodes|].
  specialize (Hcol 0%nat _ _ _ _ eq_refl eq_refl).
  destruct codes as [|c [|? ?]]; try discriminate Hlen.
  cbn in Hcol. injection Hcol as ->. by vm_compute.
Defined.

(** ** Frames: selecting and assembling columns *)

Import Contract.

Section Frames.
Context {A : Type}.
Implicit Types (df X : DataFrame A) (names : list string) (l : list (string * list A)).

(** The columns of [l] that carry the label [c]. *)
Lemma labelled_fst l (c : string) (col : string * list A) :
  col ∈ filter (fun col => col.1 = c) l → col.1 = c.
Proof. by intros [? _]%list_elem_of_filter. Qed.

Lemma labelled_unique l (c : string) :
  NoDup l.*1 → c ∈ l.*1 → (filter (fun col : string * list A => col.1 = c) l).*1 = [c].
Proof.
  induction l as [|[k v] l IH]; intros Hnd Hc.
  - by apply elem_of_nil in Hc.
  - rewrite fmap_cons in Hnd, Hc. cbn [fst] in Hnd, Hc.
    apply NoDup_cons in Hnd as [Hk Hnd].
    destruct (decide (k = c)) as [->|Hne].
    + rewrite filter_cons_True by done. cbn. f_equal.
      rewrite filter_none; [done|].
      apply Forall_forall. intros [k' v'] Hin ?. cbn in *. subst k'.
      apply Hk. by apply (list_elem_of_fmap_2 fst) in Hin.
    + rewrite filter_cons_False by done.
      apply elem_of_cons in Hc as [->|Hc]; [done|]. by apply IH.
Qed.

Lemma select_columns l names :
  NoDup l.*1 → (∀ c, c ∈ names → c ∈ l.*1) →
  (c ← names; filter (fun col : string * list A => col.1 = c) l).*1 = names.
Proof.
  intros Hnd. induction names as [|c names IH]; intros Hall; [done|].
  rewrite bind_cons, fmap_app, labelled_unique; [|done|apply Hall; left].
  cbn. f_equal. apply IH. intros c' ?. apply Hall. by right.
Qed.

Lemma getitem_list_ok df names :
  (∀ c, c ∈ names → c ∈ columns df) →
  getitem_list df names
  = ok {| nrows := nrows df;
          cols := c ← names; filter (fun col : string * list A => col.1 = c) (cols df) |}.
Proof.
  intros Hall. unfold getitem_list. rewrite filter_none; [done|].
  apply Forall_forall. intros c Hc Hn. by apply Hn, Hall.
Qed.

Lemma getitem_list_raises df names (c : string) :
  c ∈ names → c ∉ columns df → raises (getitem_list df names).
Proof.
  intros Hc Hn. unfold getitem_list.
  destruct (filter _ names) as [|m ms] eqn:E; [|done].
  exfalso. eapply (filter_nil_not_elem_of _ _ c); [exact E|exact Hn|exact Hc].
Qed.

Lemma getitem_list_inv df names X :
  getitem_list df names = ok X →
  (∀ c, c ∈ names → c ∈ columns df)
  ∧ X = {| nrows := nrows df;
           cols := c ← names; filter (fun col : string * list A => col.1 = c) (cols df) |}.
Proof.
  unfold getitem_list. destruct (filter _ names) as [|m ms] eqn:E; [|done].
  intros [= <-]. split; [|done].
  intros c Hc. destruct (decide (c ∈ columns df)) as [|Hn]; [done|].
  exfalso. eapply (filter_nil_not_elem_of _ _ c); [exact E|exact Hn|exact Hc].
Qed.


Lemma getitem_list_available df (features : list string) :
  getitem_list df (filter (fun c => c ∈ columns df) features)
  = ok {| nrows := nrows df;
          cols := c ← filter (fun c => c ∈ columns df) features;
                  filter (fun col : string * list A => col.1 = c) (cols df) |}.
Proof. apply getitem_list_ok. by intros c [? _]%list_elem_of_filter. Qed.

(** Selecting the same labels again changes nothing. *)
Lemma labelled_select l names (c : string) :
  NoDup names → c ∈ names →
  filter (fun col : string * list A => col.1 = c)
    (c' ← names; filter (fun col : string * list A => col.1 = c') l)
  = filter (fun col : string * list A => col.1 = c) l.
Proof.
  induction names as [|c' names IH]; intros Hnd Hc.
  - by apply elem_of_nil in Hc.
  - apply NoDup_cons in Hnd as [Hc' Hnd].
    rewrite bind_cons, filter_app.
    destruct (decide (c' = c)) as [->|Hne].
    + rewrite list_filter_filter.
      rewrite (filter_none _ (_ ≫= _)).
      * rewrite app_nil_r. apply list_filter_iff.
        intros col. split; [by intros [? _]|by intros ?].
      * apply Forall_forall. intros col Hin ?.
        apply list_elem_of_bind in Hin as (c'' & Hin & Hc'').
        apply labelled_fst in Hin. congruence.
    + rewrite (filter_none _ (filter _ l)).
      * cbn. apply elem_of_cons in Hc as [->|Hc]; [done|]. by apply IH.
      * apply Forall_forall. intros col Hin%labelled_fst ?. congruence.
Qed.

Lemma getitem_list_idempotent df names X :
  NoDup names → getitem_list df names = ok X → getitem_list X names = ok X.
Proof.
  intros Hnd [Hall ->]%getitem_list_inv.
  rewrite getitem_list_ok.
  - cbn. f_equal. f_equal.
    apply Forall_bind_ext, Forall_forall. intros c Hc. by apply labelled_select.
  - intros c Hc. cbn.
    apply list_elem_of_fmap. specialize (Hall c Hc).
    apply list_elem_of_fmap in Hall as (col & -> & Hcol).
    exists col. split; [done|].
    apply list_elem_of_bind. exists col.1. split; [|done].
    by apply list_elem_of_filter.
Qed.
End Frames.

Lemma columns_concat_axis1 (a b c : DataFrame cell) :
  columns (concat_axis1 [a; b; c]) = columns a ++ columns b ++ columns c.
Proof.
  unfold columns, concat_axis1. cbn [cols].
  rewrite !bind_cons, app_nil_r, !fmap_app.
  by rewrite <-!list_fmap_compose.
Qed.

Lemma DataFrame_of_array_ok (n : nat) (array : list (list cell)) (names : list string) :
  length names = length array →
  DataFrame_of_array n array names = ok {| nrows := n; cols := zip names array |}.
Proof. intros Hlen. unfold DataFrame_of_array. by rewrite decide_True. Qed.

Section Assembly.
Context {platform : Platform}.

Lemma columns_astype_str (df : DataFrame cell) : columns (astype_str df) = columns df.
Proof. unfold columns, astype_str. cbn [cols]. by rewrite <-list_fmap_compose. Qed.

Lemma fit_transform_ok (X : DataFrame string) :
  (0 < nrows X)%nat →
  ∃ enc codes,
    fit_transform (-1) X = ok (enc, codes)
    ∧ feature_names_in_ enc = columns X
    ∧ length (categories_ enc) = length (cols X)
    ∧ length codes = length (cols X).
Proof.
  intros Hn. unfold fit_transform. rewrite fit_ok by done. cbn.
  rewrite transform_ok; cbn; [|done|by rewrite length_fmap|done].
  eexists _, _. split; [done|]. cbn.
  rewrite length_zip_with, !length_fmap. repeat split; lia.
Qed.

Lemma columns_available (df : DataFrame cell) (features : list string) :
  NoDup (columns df) →
  columns {| nrows := nrows df;
             cols := c ← available df features;
                     filter (fun col : string * list cell => col.1 = c) (cols df) |}
  = available df features.
Proof.
  intros Hnd. apply select_columns; [done|].
  by intros c [? _]%list_elem_of_filter.
Qed.

Lemma length_columns {A : Type} (df : DataFrame A) : length (columns df) = length (cols df).
Proof. apply length_fmap. Qed.

Lemma length_as_float64 (codes : list (list Z)) : length (as_float64 codes) = length codes.
Proof. apply length_fmap. Qed.

Lemma prepare_features_fit (df : DataFrame cell) :
  NoDup (columns df) → (0 < nrows df)%nat →
  ∃ X y enc,
    TrainingScript.prepare_features df None true = ok (X, y, enc)
    ∧ columns X
      = available df TrainingScript.BOOLEAN_FEATURES
        ++ (encoded <$> available df TrainingScript.CATEGORICAL_FEATURES)
        ++ available df TrainingScript.NUMERIC_FEATURES
    ∧ feature_names_in_ enc = available df TrainingScript.CATEGORICAL_FEATURES
    ∧ length (categories_ enc) = length (available df TrainingScript.CATEGORICAL_FEATURES).
Proof.
  intros Hnd Hn. unfold TrainingScript.prepare_features.
  rewrite !getitem_list_available. cbn [mbind result_bind ok].
  fold (available df TrainingScript.BOOLEAN_FEATURES).
  fold (available df TrainingScript.CATEGORICAL_FEATURES).
  fold (available df TrainingScript.NUMERIC_FEATURES).
  pose proof (columns_available df TrainingScript.BOOLEAN_FEATURES Hnd) as Hb.
  pose proof (columns_available df TrainingScript.CATEGORICAL_FEATURES Hnd) as Hc.
  pose proof (columns_available df TrainingScript.NUMERIC_FEATURES Hnd) as Hm.
  set (booleans := {| nrows := nrows df; cols := available df TrainingScript.BOOLEAN_FEATURES ≫= _ |}) in *.
  set (categorical := {| nrows := nrows df; cols := available df TrainingScript.CATEGORICAL_FEATURES ≫= _ |}) in *.
  set (numerics := {| nrows := nrows df; cols := available df TrainingScript.NUMERIC_FEATURES ≫= _ |}) in *.
  destruct (fit_transform_ok (astype_str categorical))
    as (enc & codes & -> & Hnames & Hcats & Hcodes); [done|].
  rewrite columns_astype_str, Hc in Hnames.
  rewrite <-length_columns, columns_astype_str, Hc in Hcats, Hcodes.
  cbn [mbind result_bind ok fst snd].
  rewrite DataFrame_of_array_ok by (by rewrite length_fmap, length_as_float64).
  cbn [mbind result_bind ok].
  eexists _, _, _. split; [reflexivity|]. split; [|done].
  rewrite columns_concat_axis1. unfold reset_index. rewrite Hb, Hm.
  do 2 f_equal. unfold columns. cbn [cols].
  apply fst_zip. rewrite length_fmap, length_as_float64. lia.
Qed.

Lemma columns_select_subset {A : Type} (l : list (string * list A)) (names : list string)
    (f : string) :
  f ∈ (c ← names; filter (fun col : string * list A => col.1 = c) l).*1 → f ∈ names.
Proof.
  intros (col & -> & Hin)%list_elem_of_fmap.
  apply list_elem_of_bind in Hin as (c & Hin & Hc).
  apply labelled_fst in Hin. by subst c.
Qed.

(** The frame [predict_fn] assembles before it reorders. *)
Lemma predict_fn_features_inv (g : Inference.globals) (input_data X : DataFrame cell) :
  Inference.predict_fn_features g input_data = ok X →
  ∃ enc names X0,
    Inference.encoder g = Some enc
    ∧ Inference.feature_names g = Some names
    ∧ (∀ f, f ∈ columns X0 →
            f ∈ available input_data Inference.BOOLEAN_FEATURES
            ∨ f ∈ encoded <$> available input_data Inference.CATEGORICAL_FEATURES
            ∨ f ∈ available input_data Inference.NUMERIC_FEATURES)
    ∧ (NoDup (columns input_data) →
       columns X0
       = available input_data Inference.BOOLEAN_FEATURES
         ++ (encoded <$> available input_data Inference.CATEGORICAL_FEATURES)
         ++ available input_data Inference.NUMERIC_FEATURES)
    ∧ getitem_list X0 names = ok X.
Proof.
  unfold Inference.predict_fn_features.
  destruct (Inference.encoder g) as [enc|]; [|done].
  rewrite !getitem_list_available. cbn [mbind result_bind ok].
  fold (available input_data Inference.BOOLEAN_FEATURES).
  fold (available input_data Inference.CATEGORICAL_FEATURES).
  fold (available input_data Inference.NUMERIC_FEATURES).
  destruct (transform enc _) as [|codes]; [done|]. cbn [mbind result_bind].
  unfold DataFrame_of_array. case_decide as Hlen; [|done]. cbn [mbind result_bind ok].
  destruct (Inference.feature_names g) as [names|]; [|done].
  intros HX. eexists enc, names, _. do 2 (split; [done|]).
  split; [|split; [|exact HX]].
  - rewrite columns_concat_axis1. unfold reset_index.
    intros f [Hf|[Hf|Hf]%elem_of_app]%elem_of_app.
    + left. by eapply columns_select_subset.
    + right; left. unfold columns in Hf. cbn [cols] in Hf.
      rewrite fst_zip in Hf; [done|]. apply Nat.eq_le_incl, Hlen.
    + right; right. by eapply columns_select_subset.
  - intros Hnd. rewrite columns_concat_axis1. unfold reset_index.
    rewrite !columns_available by done. do 2 f_equal.
    unfold columns. cbn [cols]. apply fst_zip, Nat.eq_le_incl, Hlen.
Qed.

End Assembly.

(** ** Assembling and ordering the feature vector *)

Ltac by_computation := apply (bool_decide_unpack _); vm_compute; exact I.

(** Facts about the declared names. *)

Lemma string_length_app (a b : string) :
  String.length (a +:+ b) = (String.length a + String.length b)%nat.
Proof.
  induction a as [|x a IH]; [done|].
  change (String x a +:+ b) with (String x (a +:+ b)). cbn. by rewrite IH.
Qed.

#[local] Instance encoded_inj : Inj (=) (=) encoded.
Proof.
  unfold encoded. intros a. induction a as [|x a IH]; intros [|y b] E.
  - done.
  - apply (f_equal String.length) in E. rewrite !string_length_app in E.
    cbn in E. lia.
  - apply (f_equal String.length) in E. rewrite !string_length_app in E.
    cbn in E. lia.
  - change (String x (a +:+ "_ENCODED") = String y (b +:+ "_ENCODED")) in E.
    injection E as -> E. f_equal. by apply IH.
Qed.


Lemma feature_vector_NoDup :
  NoDup (Inference.BOOLEAN_FEATURES ++ (encoded <$> Inference.CATEGORICAL_FEATURES)
         ++ Inference.NUMERIC_FEATURES).
Proof. by_computation. Qed.

Lemma plain_names_not_encoded :
  Forall (fun c => c ∉ encoded <$> Inference.CATEGORICAL_FEATURES)
    (Inference.BOOLEAN_FEATURES ++ Inference.NUMERIC_FEATURES).
Proof. by_computation. Qed.

Lemma encoded_names_not_plain :
  Forall (fun c => encoded c ∉ Inference.BOOLEAN_FEATURES ++ Inference.NUMERIC_FEATURES)
    Inference.CATEGORICAL_FEATURES.
Proof. by_computation. Qed.

Lemma available_sublist {A : Type} (df : DataFrame A) (features : list string) :
  available df features `sublist_of` features.
Proof. apply sublist_filter. Qed.

Lemma assembled_NoDup {A : Type} (df : DataFrame A) :
  NoDup (available df Inference.BOOLEAN_FEATURES
         ++ (encoded <$> available df Inference.CATEGORICAL_FEATURES)
         ++ available df Inference.NUMERIC_FEATURES).
Proof.
  eapply sublist_NoDup; [apply feature_vector_NoDup|].
  repeat apply sublist_app; try apply available_sublist.
  apply fmap_sublist, available_sublist.
Qed.

Lemma available_ext {A B : Type} (df : DataFrame A) (df' : DataFrame B)
    (features : list string) :
  (∀ c, c ∈ features → c ∈ columns df ↔ c ∈ columns df') →
  available df features = available df' features.
Proof.
  intros Hiff. unfold available. induction features as [|c features IH]; [done|].
  rewrite !filter_cons. rewrite IH by (intros; apply Hiff; by right).
  specialize (Hiff c ltac:(by left)).
  destruct (decide (c ∈ columns df)), (decide (c ∈ columns df')); try done; exfalso; tauto.
Qed.


(** ** The frame the trainer and the predictor assemble *)

Import Shape.

Section Values.
Context {A : Type}.
Implicit Types (l : list (string * list A)) (names : list string).

Lemma getitem_values_elem (df : DataFrame A) (c : string) (vs : list A) :
  getitem_values df c = Some vs → (c, vs) ∈ cols df.
Proof.
  unfold getitem_values.
  destruct (list_find _ (cols df)) as [[i [k x]]|] eqn:E; [|done].
  cbn. intros [= <-]. apply list_find_Some in E as (Hi & Hk & _). cbn in Hk. subst k.
  by eapply list_elem_of_lookup_2.
Qed.

Lemma getitem_values_unique (df : DataFrame A) (c : string) (vs : list A) :
  (c, vs) ∈ cols df → (∀ vs', (c, vs') ∈ cols df → vs' = vs) →
  getitem_values df c = Some vs.
Proof.
  intros Hin Hall. unfold getitem_values.
  destruct (list_find _ (cols df)) as [[i [k x]]|] eqn:E.
  - cbn. apply list_find_Some in E as (Hi & Hk & _). cbn in Hk. subst k.
    f_equal. apply Hall. by eapply list_elem_of_lookup_2.
  - apply list_find_None in E. rewrite Forall_forall in E. by destruct (E _ Hin).
Qed.

Lemma NoDup_fst_functional l (c : string) (vs vs' : list A) :
  NoDup l.*1 → (c, vs) ∈ l → (c, vs') ∈ l → vs' = vs.
Proof.
  intros Hnd H1 H2.
  apply list_elem_of_lookup in H1 as [i Hi]. apply list_elem_of_lookup in H2 as [j Hj].
  assert (i = j) as ->.
  { eapply NoDup_lookup; [exact Hnd|by rewrite list_lookup_fmap, Hi|by rewrite list_lookup_fmap, Hj]. }
  congruence.
Qed.

Lemma getitem_values_NoDup (df : DataFrame A) (c : string) (vs : list A) :
  NoDup (columns df) → (c, vs) ∈ cols df → getitem_values df c = Some vs.
Proof.
  intros Hnd Hin. apply getitem_values_unique; [done|].
  intros vs' Hin'. by eapply NoDup_fst_functional.
Qed.

Lemma labelled_singleton l (c : string) (vs : list A) :
  NoDup l.*1 → (c, vs) ∈ l →
  filter (fun col : string * list A => col.1 = c) l = [(c, vs)].
Proof.
  intros Hnd Hin.
  assert ((filter (fun col : string * list A => col.1 = c) l).*1 = [c]) as Hone.
  { apply labelled_unique; [done|]. by apply (list_elem_of_fmap_2 fst) in Hin. }
  destruct (filter _ l) as [|[k x] [|? ?]] eqn:E; try done.
  injection Hone as ->. f_equal. f_equal.
  eapply NoDup_fst_functional; [exact Hnd|exact Hin|].
  assert ((c, x) ∈ filter (fun col : string * list A => col.1 = c) l) as Hx
    by (rewrite E; by left).
  by apply list_elem_of_filter in Hx as [_ ?].
Qed.

(** The i-th selected column is the column of the i-th label. *)
Lemma select_lookup l names (i : nat) (c : string) (vs : list A) :
  NoDup l.*1 → (∀ c, c ∈ names → c ∈ l.*1) →
  names !! i = Some c → (c, vs) ∈ l →
  (c' ← names; filter (fun col : string * list A => col.1 = c') l) !! i = Some (c, vs).
Proof.
  intros Hnd. revert i. induction names as [|c0 names IH]; intros i Hall Hi Hin; [done|].
  assert (c0 ∈ l.*1) as Hc0 by (apply Hall; by left).
  apply list_elem_of_fmap in Hc0 as ([k x] & E & Hx). cbn in E. subst k.
  rewrite bind_cons, (labelled_singleton l c0 x) by done.
  destruct i as [|i]; cbn in Hi |- *.
  - injection Hi as ->. do 2 f_equal. by eapply NoDup_fst_functional.
  - apply IH; [|done..]. intros c' Hc'. apply Hall. by right.
Qed.

Lemma select_elem l names (c : string) (vs : list A) :
  c ∈ names → (c, vs) ∈ l →
  (c, vs) ∈ (c' ← names; filter (fun col : string * list A => col.1 = c') l).
Proof.
  intros Hc Hin. apply list_elem_of_bind. exists c. split; [|done].
  by apply list_elem_of_filter.
Qed.

Lemma select_elem_inv l names (col : string * list A) :
  col ∈ (c' ← names; filter (fun col : string * list A => col.1 = c') l) →
  col.1 ∈ names ∧ col ∈ l.
Proof.
  intros (c & Hin & Hc)%list_elem_of_bind.
  apply list_elem_of_filter in Hin as [<- ?]. done.
Qed.
End Values.

Lemma pad_full (n : nat) (l : list cell) : length l = n → pad n l = l.
Proof. intros <-. unfold pad. by rewrite Nat.sub_diag, app_nil_r. Qed.

Lemma concat_axis1_same_height (a b c : DataFrame cell) (n : nat) :
  nrows a = n → nrows b = n → nrows c = n →
  concat_axis1 [a; b; c]
  = {| nrows := n;
       cols := (fun col : string * list cell => (col.1, pad n col.2))
                 <$> (cols a ++ cols b ++ cols c) |}.
Proof.
  intros Ha Hb Hc. unfold concat_axis1. cbn [foldr]. rewrite Ha, Hb, Hc.
  rewrite Nat.max_0_r, !Nat.max_id. f_equal.
  cbn [cols]. rewrite !bind_cons. change (mbind _ (@nil (DataFrame cell))) with (@nil (string * list cell)). by rewrite app_nil_r, !fmap_app.
Qed.

Lemma concat_axis1_elem (a b c : DataFrame cell) (n : nat) (label : string)
    (values : list cell) :
  nrows a = n → nrows b = n → nrows c = n → length values = n →
  (label, values) ∈ cols a ++ cols b ++ cols c →
  (label, values) ∈ cols (concat_axis1 [a; b; c]).
Proof.
  intros Ha Hb Hc Hlen Hin. rewrite (concat_axis1_same_height a b c n) by done.
  cbn [cols]. apply list_elem_of_fmap. exists (label, values). split; [|done].
  cbn [fst snd]. by rewrite pad_full.
Qed.

Lemma well_formed_elem {A : Type} (df : DataFrame A) (c : string) (vs : list A) :
  well_formed df → (c, vs) ∈ cols df → length vs = nrows df.
Proof. unfold well_formed. rewrite Forall_forall. intros Hwf Hin. by apply (Hwf _ Hin). Qed.


Section Assembled.
Context {platform : Platform}.

Lemma astype_str_lookup (df : DataFrame cell) (i : nat) (c : string) (values : list cell) :
  cols df !! i = Some (c, values) →
  cols (astype_str df) !! i = Some (c, py_str <$> values).
Proof. intros Hi. unfold astype_str. cbn [cols]. by rewrite list_lookup_fmap, Hi. Qed.

Lemma columns_selected (df : DataFrame cell) (features : list string) :
  NoDup (columns df) → columns (selected df (available df features)) = available df features.
Proof. apply columns_available. Qed.

Lemma length_categorical (df : DataFrame cell) (C : list string) :
  NoDup (columns df) →
  length (cols (astype_str (selected df (available df C)))) = length (available df C).
Proof.
  intros Hnd. by rewrite <-length_columns, columns_astype_str, columns_selected.
Qed.

Lemma categorical_lookup (df : DataFrame cell) (C : list string) (i : nat) (c : string)
    (values : list cell) :
  NoDup (columns df) → available df C !! i = Some c → (c, values) ∈ cols df →
  cols (astype_str (selected df (available df C))) !! i = Some (c, py_str <$> values).
Proof.
  intros Hnd Hi Hin. apply astype_str_lookup. cbn [cols selected].
  apply select_lookup; [done| |done..]. by intros c' [? _]%list_elem_of_filter.
Qed.

Lemma assembled_nrows (df : DataFrame cell) (B C N : list string) (codes : list (list Z)) :
  nrows (assembled df B C N codes) = nrows df.
Proof. unfold assembled. by rewrite (concat_axis1_same_height _ _ _ (nrows df)). Qed.

Lemma assembled_columns (df : DataFrame cell) (B C N : list string)
    (codes : list (list Z)) :
  NoDup (columns df) → length codes = length (available df C) →
  columns (assembled df B C N codes)
  = available df B ++ (encoded <$> available df C) ++ available df N.
Proof.
  intros Hnd Hlen. unfold assembled, reset_index. rewrite columns_concat_axis1.
  rewrite !columns_selected by done. do 2 f_equal.
  unfold columns. cbn [cols]. apply fst_zip.
  rewrite length_fmap, length_as_float64. lia.
Qed.

Lemma length_codes_of (df : DataFrame cell) (C : list string) (enc : OrdinalEncoder) :
  NoDup (columns df) → length (categories_ enc) = length (available df C) →
  length (codes_of (unknown_value enc) (categories_ enc)
            (astype_str (selected df (available df C))))
  = length (available df C).
Proof.
  intros Hnd Hlen. unfold codes_of. rewrite length_zip_with, length_categorical by done. lia.
Qed.

(** A boolean or numeric column of the input is a column of the
    assembled frame. *)
Lemma assembled_plain (df : DataFrame cell) (B C N : list string) (codes : list (list Z))
    (c : string) (values : list cell) :
  well_formed df → c ∈ B ++ N → (c, values) ∈ cols df →
  (c, values) ∈ cols (assembled df B C N codes).
Proof.
  intros Hwf Hc Hin. unfold assembled, reset_index.
  apply (concat_axis1_elem _ _ _ (nrows df)); [done..|by apply (well_formed_elem df c)|].
  assert (c ∈ columns df) as Hcol by (by apply (list_elem_of_fmap_2 fst) in Hin).
  cbn [cols selected]. rewrite !elem_of_app.
  apply elem_of_app in Hc as [Hc|Hc]; [left|right; right].
  all: apply select_elem; [|done]; by apply list_elem_of_filter.
Qed.

(** The assembled frame holds, for the i-th categorical column of the
    input, the codes of its values under the i-th categories of the
    encoder. *)
Lemma assembled_encoded (df : DataFrame cell) (B C N : list string)
    (enc : OrdinalEncoder) (i : nat) (c : string) (categories : list string)
    (values : list cell) :
  NoDup (columns df) → well_formed df →
  available df C !! i = Some c →
  categories_ enc !! i = Some categories →
  (c, values) ∈ cols df →
  (encoded c,
   (fun v => CFloat (inject_Z (encode_value (unknown_value enc) categories (py_str v))))
     <$> values)
  ∈ cols (assembled df B C N
            (codes_of (unknown_value enc) (categories_ enc)
               (astype_str (selected df (available df C))))).
Proof.
  intros Hnd Hwf Hi Hcats Hin.
  pose proof (categorical_lookup df C i c values Hnd Hi Hin) as Hcol.
  set (codes := codes_of _ _ _).
  assert (codes !! i
          = Some (encode_value (unknown_value enc) categories <$> (py_str <$> values)))
    as Hcode.
  { unfold codes, codes_of. apply lookup_zip_with_Some.
    by exists categories, (c, py_str <$> values). }
  unfold assembled, reset_index.
  apply (concat_axis1_elem _ _ _ (nrows df)); [done..| |].
  - by rewrite length_fmap, (well_formed_elem df c).
  - cbn [cols]. rewrite !elem_of_app. right; left.
    apply (list_elem_of_lookup_2 _ i). apply lookup_zip_with_Some.
    eexists _, _. split; [done|]. split.
    + by rewrite list_lookup_fmap, Hi.
    + unfold as_float64. rewrite list_lookup_fmap, Hcode. cbn. f_equal.
      by rewrite <-!list_fmap_compose.
Qed.

(** The categories a fit on a frame keeps for its i-th categorical
    column. *)
Lemma fitted_categories (df : DataFrame cell) (C : list string) (i : nat) (c : string)
    (seen : list cell) :
  NoDup (columns df) → available df C !! i = Some c → (c, seen) ∈ cols df →
  ((fun c : string * list string => unique c.2)
     <$> cols (astype_str (selected df (available df C)))) !! i
  = Some (unique (py_str <$> seen)).
Proof.
  intros Hnd Hi Hin.
  by rewrite list_lookup_fmap, (categorical_lookup df C i c seen).
Qed.

(** [prepare_features] in fit mode, and with an encoder fitted on as
    many categorical columns under the same names. *)
Lemma prepare_features_fit_eq (df : DataFrame cell) :
  NoDup (columns df) → (0 < nrows df)%nat →
  let categorical :=
    astype_str (selected df (available df TrainingScript.CATEGORICAL_FEATURES)) in
  let enc :=
    {| categories_ := (fun c : string * list string => unique c.2) <$> cols categorical;
       feature_names_in_ := available df TrainingScript.CATEGORICAL_FEATURES;
       unknown_value := -1 |} in
  TrainingScript.prepare_features df None true
  = ok (assembled df TrainingScript.BOOLEAN_FEATURES TrainingScript.CATEGORICAL_FEATURES
          TrainingScript.NUMERIC_FEATURES
          (codes_of (unknown_value enc) (categories_ enc) categorical),
        (if decide (TrainingScript.TARGET ∈ columns df)
         then getitem_values df TrainingScript.TARGET else None),
        enc).
Proof.
  intros Hnd Hn categorical enc. unfold TrainingScript.prepare_features.
  rewrite !getitem_list_available. cbn [mbind result_bind ok].
  fold (available df TrainingScript.BOOLEAN_FEATURES).
  fold (available df TrainingScript.CATEGORICAL_FEATURES).
  fold (available df TrainingScript.NUMERIC_FEATURES).
  fold (selected df (available df TrainingScript.BOOLEAN_FEATURES)).
  fold (selected df (available df TrainingScript.CATEGORICAL_FEATURES)).
  fold (selected df (available df TrainingScript.NUMERIC_FEATURES)).
  fold categorical.
  assert (columns categorical = available df TrainingScript.CATEGORICAL_FEATURES) as Hnames.
  { unfold categorical. by rewrite columns_astype_str, columns_selected. }
  unfold fit_transform. rewrite fit_ok by done. cbn [mbind result_bind ok].
  rewrite transform_ok;
    [|done|by cbn [categories_]; rewrite length_fmap|done].
  cbn [mbind result_bind ok fst snd categories_ unknown_value].
  rewrite DataFrame_of_array_ok.
  2:{ rewrite length_fmap, length_as_float64, length_zip_with, length_fmap.
      unfold categorical. rewrite length_categorical by done. lia. }
  cbn [mbind result_bind ok]. by rewrite Hnames.
Qed.

Lemma prepare_features_apply_eq (df : DataFrame cell) (enc : OrdinalEncoder) :
  NoDup (columns df) → (0 < nrows df)%nat →
  feature_names_in_ enc = available df TrainingScript.CATEGORICAL_FEATURES →
  length (categories_ enc) = length (available df TrainingScript.CATEGORICAL_FEATURES) →
  TrainingScript.prepare_features df (Some enc) false
  = ok (assembled df TrainingScript.BOOLEAN_FEATURES TrainingScript.CATEGORICAL_FEATURES
          TrainingScript.NUMERIC_FEATURES
          (codes_of (unknown_value enc) (categories_ enc)
             (astype_str (selected df (available df TrainingScript.CATEGORICAL_FEATURES)))),
        (if decide (TrainingScript.TARGET ∈ columns df)
         then getitem_values df TrainingScript.TARGET else None),
        enc).
Proof.
  intros Hnd Hn Hfit Hcats. unfold TrainingScript.prepare_features.
  rewrite !getitem_list_available. cbn [mbind result_bind ok].
  fold (available df TrainingScript.BOOLEAN_FEATURES).
  fold (available df TrainingScript.CATEGORICAL_FEATURES).
  fold (available df TrainingScript.NUMERIC_FEATURES).
  fold (selected df (available df TrainingScript.BOOLEAN_FEATURES)).
  fold (selected df (available df TrainingScript.CATEGORICAL_FEATURES)).
  fold (selected df (available df TrainingScript.NUMERIC_FEATURES)).
  set (categorical := astype_str _).
  assert (columns categorical = available df TrainingScript.CATEGORICAL_FEATURES) as Hnames.
  { unfold categorical. by rewrite columns_astype_str, columns_selected. }
  assert (length (cols categorical) = length (categories_ enc)) as Hlen.
  { by rewrite <-length_columns, Hnames. }
  rewrite transform_ok; [|by rewrite Hnames|done|done].
  cbn [mbind result_bind ok fst snd].
  rewrite DataFrame_of_array_ok; [done|].
  rewrite length_fmap, length_as_float64, length_zip_with. lia.
Qed.

Lemma getitem_values_absent {A : Type} (df : DataFrame A) (c : string) :
  (if decide (c ∈ columns df) then getitem_values df c else None) = getitem_values df c.
Proof.
  case_decide as Hc; [done|]. unfold getitem_values.
  destruct (list_find _ (cols df)) as [[i [k x]]|] eqn:E; [|done].
  apply list_find_Some in E as (Hi & Hk & _). cbn in Hk. subst k.
  destruct Hc. apply (list_elem_of_fmap_2 fst (cols df) (c, x)).
  by eapply list_elem_of_lookup_2.
Qed.


Lemma transform_inv (enc : OrdinalEncoder) (X : DataFrame string) (codes : list (list Z)) :
  transform enc X = ok codes →
  codes = codes_of (unknown_value enc) (categories_ enc) X
  ∧ length (cols X) = length (categories_ enc).
Proof.
  unfold transform. case_decide; [done|]. case_decide as Hlen; [done|].
  destruct (check_X X); [done|]. cbn. intros [= <-]. split; [done|].
  by destruct (decide (length (cols X) = length (categories_ enc))).
Qed.

(** [getitem_list] keeps the values of the labels it selects. *)
Lemma getitem_list_values {A : Type} (X0 X : DataFrame A) (names : list string)
    (f : string) (values : list A) :
  NoDup (columns X0) → getitem_list X0 names = ok X → f ∈ names →
  (f, values) ∈ cols X0 → getitem_values X f = Some values.
Proof.
  intros Hnd [_ ->]%getitem_list_inv Hf Hin.
  apply getitem_values_unique; cbn [cols].
  - by apply select_elem.
  - intros vs' [_ Hin']%select_elem_inv. by eapply NoDup_fst_functional.
Qed.

Lemma getitem_list_nrows {A : Type} (X0 X : DataFrame A) (names : list string) :
  getitem_list X0 names = ok X → nrows X = nrows X0.
Proof. by intros [_ ->]%getitem_list_inv. Qed.

(** The frame [predict_fn] reorders is the assembled frame of the
    input under the loaded encoder. *)
Lemma predict_fn_features_codes (g : Inference.globals) (input_data X : DataFrame cell) :
  Inference.predict_fn_features g input_data = ok X →
  ∃ enc names,
    Inference.encoder g = Some enc
    ∧ Inference.feature_names g = Some names
    ∧ length (cols (astype_str
                      (selected input_data
                         (available input_data Inference.CATEGORICAL_FEATURES))))
      = length (categories_ enc)
    ∧ getitem_list
        (assembled input_data Inference.BOOLEAN_FEATURES Inference.CATEGORICAL_FEATURES
           Inference.NUMERIC_FEATURES
           (codes_of (unknown_value enc) (categories_ enc)
              (astype_str
                 (selected input_data
                    (available input_data Inference.CATEGORICAL_FEATURES))))) names
      = ok X.
Proof.
  unfold Inference.predict_fn_features.
  destruct (Inference.encoder g) as [enc|]; [|done].
  rewrite !getitem_list_available. cbn [mbind result_bind ok].
  fold (available input_data Inference.BOOLEAN_FEATURES).
  fold (available input_data Inference.CATEGORICAL_FEATURES).
  fold (available input_data Inference.NUMERIC_FEATURES).
  destruct (transform enc _) as [|codes] eqn:Htr; [done|]. cbn [mbind result_bind].
  apply transform_inv in Htr as [-> Hlen].
  unfold DataFrame_of_array. case_decide; [|done]. cbn [mbind result_bind ok].
  destruct (Inference.feature_names g) as [names|]; [|done].
  intros HX. by exists enc, names.
Qed.
End Assembled.

Section Labelled.
Context {A : Type}.

Lemma elem_of_columns_labelled (df : DataFrame A) (c : string) :
  c ∈ columns df ↔ filter (fun col : string * list A => col.1 = c) (cols df) ≠ [].
Proof.
  split.
  - intros ([k x] & -> & Hin)%list_elem_of_fmap E.
    eapply (filter_nil_not_elem_of _ _ (k, x)); [exact E| |exact Hin]. done.
  - intros Hne. destruct (filter _ (cols df)) as [|[k x] l] eqn:E; [done|].
    assert ((k, x) ∈ filter (fun col : string * list A => col.1 = c) (cols df)) as Hin
      by (rewrite E; left).
    apply list_elem_of_filter in Hin as [<- Hin]. by apply (list_elem_of_fmap_2 fst) in Hin.
Qed.

Lemma same_labelled_available (df df' : DataFrame A) (features : list string) :
  (∀ c, c ∈ features →
        filter (fun col : string * list A => col.1 = c) (cols df')
        = filter (fun col : string * list A => col.1 = c) (cols df)) →
  available df' features = available df features.
Proof.
  intros Hsame. apply available_ext. intros c Hc.
  by rewrite !elem_of_columns_labelled, (Hsame c Hc).
Qed.

Lemma same_labelled_select (df df' : DataFrame A) (features names : list string) :
  (∀ c, c ∈ features →
        filter (fun col : string * list A => col.1 = c) (cols df')
        = filter (fun col : string * list A => col.1 = c) (cols df)) →
  names ⊆ features →
  (c ← names; filter (fun col : string * list A => col.1 = c) (cols df'))
  = (c ← names; filter (fun col : string * list A => col.1 = c) (cols df)).
Proof.
  intros Hsame Hsub. apply Forall_bind_ext, Forall_forall. intros c Hc.
  by apply Hsame, Hsub.
Qed.
End Labelled.

(** ** The same columns in another order *)

Section Reordered.
Context {A : Type}.



End Reordered.

Section SameColumns.
Context {platform : Platform}.

End SameColumns.

Section Order.
Context {platform : Platform}.



End Order.


(** A frame with one numeric, one categorical and one boolean column, in
    that order, is assembled as boolean, encoded categorical, numeric. *)
Lemma scrambled_frame_order {platform : Platform} :
  ∃ X y enc,
    TrainingScript.prepare_features Sample.scrambled_frame None true = ok (X, y, enc)
    ∧ columns X = ["IP_API_HOSTING"; "IP_API_CITY_ENCODED"; "IP_API_LATITUDE"].
Proof.
  destruct (prepare_features_fit Sample.scrambled_frame) as (X & y & enc & Hok & Hcols & _).
  - by_computation.
  - cbn. lia.
  - exists X, y, enc. split; [done|]. rewrite Hcols. by vm_compute.
Qed.

Section Reindex.
Context {platform : Platform}.

Lemma select_self {A : Type} (l : list (string * list A)) :
  NoDup l.*1 → (c ← l.*1; filter (fun col : string * list A => col.1 = c) l) = l.
Proof.
  induction l as [|[k v] l IH]; intros Hnd; [done|].
  rewrite fmap_cons in Hnd. cbn [fst] in Hnd. apply NoDup_cons in Hnd as [Hk Hnd].
  rewrite fmap_cons, bind_cons. cbn [fst].
  rewrite (filter_cons_True _ (k, v) l) by done.
  rewrite filter_none.
  2:{ apply Forall_forall. intros [k' v'] Hin ?. cbn in *. subst k'.
      apply Hk. by apply (list_elem_of_fmap_2 fst) in Hin. }
  cbn [app]. f_equal. rewrite <-(IH Hnd) at 2.
  apply Forall_bind_ext, Forall_forall. intros c Hc.
  rewrite filter_cons_False; [done|]. cbn [fst]. by intros ->.
Qed.

Lemma getitem_list_ordered {A : Type} (X : DataFrame A) :
  NoDup (columns X) → getitem_list X (columns X) = ok X.
Proof.
  intros Hnd. rewrite getitem_list_ok by done.
  unfold columns. rewrite select_self by done. by destruct X.
Qed.

Lemma persisted_names_NoDup (df : DataFrame cell) :
  NoDup (columns df) → (0 < nrows df)%nat →
  ∃ X y enc,
    TrainingScript.prepare_features df None true = ok (X, y, enc) ∧ NoDup (columns X).
Proof.
  intros Hnd Hn.
  destruct (prepare_features_fit df Hnd Hn) as (X & y & enc & Hok & Hcols & _).
  exists X, y, enc. split; [done|]. rewrite Hcols. apply (assembled_NoDup df).
Qed.

(** C5: reordering a frame that already has the persisted feature names
    as its columns returns the frame itself, and reordering twice equals
    reordering once; the names the trainer persists are distinct. *)
Theorem reindex_is_idempotent :
  (∀ (X : DataFrame cell) (names : list string),
     NoDup names → columns X = names → getitem_list X names = ok X)
  ∧ (∀ (X X1 : DataFrame cell) (names : list string),
       NoDup names → getitem_list X names = ok X1 → getitem_list X1 names = ok X1)
  ∧ (∀ (g : Inference.globals) (input_data X : DataFrame cell) (names : list string),
       Inference.feature_names g = Some names → NoDup names →
       Inference.predict_fn_features g input_data = ok X →
       getitem_list X names = ok X)
  ∧ (∀ df : DataFrame cell,
       NoDup (columns df) → (0 < nrows df)%nat →
       ∃ X y enc,
         TrainingScript.prepare_features df None true = ok (X, y, enc)
         ∧ NoDup (columns X)).
Proof.
  split; [|split; [|split]]; [| | |apply persisted_names_NoDup].
  - intros X names Hnd <-. by apply getitem_list_ordered.
  - intros X X1 names. apply getitem_list_idempotent.
  - intros g input_data X names Hnames Hnd HX.
    apply predict_fn_features_inv in HX as (? & names' & X0 & _ & Hn' & _ & _ & HX).
    rewrite Hnames in Hn'. injection Hn' as <-.
    by eapply getitem_list_idempotent.
Qed.
End Reindex.

Lemma reindex_is_idempotent_witness :
  getitem_list Sample.request_frame Inference.ALL_RAW_FEATURES = ok Sample.request_frame.
Proof.
  destruct (reindex_is_idempotent (platform := Sample.platform)) as (Hordered & _).
  apply Hordered; [by_computation|reflexivity].
Defined.

Section Missing.
Context {platform : Platform}.

(** A persisted feature name that the assembled frame does not carry is
    fatal. *)
Lemma unassembled_name_is_fatal (g : Inference.globals) (input_data : DataFrame cell)
    (names : list string) (f : string) :
  Inference.feature_names g = Some names →
  f ∈ names →
  f ∉ available input_data Inference.BOOLEAN_FEATURES
      ++ (encoded <$> available input_data Inference.CATEGORICAL_FEATURES)
      ++ available input_data Inference.NUMERIC_FEATURES →
  raises (Inference.predict_fn_features g input_data).
Proof.
  intros Hnames Hf Hout.
  destruct (Inference.predict_fn_features g input_data) as [e|X] eqn:HX; [done|].
  exfalso.
  apply predict_fn_features_inv in HX as (? & names' & X0 & _ & Hn' & Hsub & _ & HX).
  rewrite Hnames in Hn'. injection Hn' as <-.
  apply getitem_list_inv in HX as [Hall _].
  apply Hout. rewrite !elem_of_app. by apply Hsub, Hall.
Qed.

(** The feature name of a column of the contract is assembled only from
    that column of the input. *)
Lemma assembled_from_column (input_data : DataFrame cell) (ty : coltype) (c : string) :
  (c, ty) ∈ declared predictor →
  feature_name ty c
  ∈ available input_data Inference.BOOLEAN_FEATURES
    ++ (encoded <$> available input_data Inference.CATEGORICAL_FEATURES)
    ++ available input_data Inference.NUMERIC_FEATURES →
  c ∈ columns input_data.
Proof.
  intros Hdecl Hsub.
  assert (∀ features d, d ∈ available input_data features →
                        d ∈ features ∧ d ∈ columns input_data) as Hav.
  { intros features d [? ?]%list_elem_of_filter. done. }
  pose proof plain_names_not_encoded as Hplain.
  pose proof encoded_names_not_plain as Henc.
  rewrite Forall_forall in Hplain, Henc.
  unfold declared, predictor in Hdecl. cbn [boolean categorical numeric] in Hdecl.
  rewrite !elem_of_app, !list_elem_of_fmap in Hdecl.
  rewrite !elem_of_app in Hsub.
  destruct Hdecl as [(d & [= -> ->] & Hd)|[(d & [= -> ->] & Hd)|(d & [= -> ->] & Hd)]];
    cbn [feature_name] in Hsub.
  - destruct Hsub as [Hs|[Hs|Hs]].
    + by apply Hav in Hs as [_ ?].
    + exfalso. apply (Hplain d); [rewrite elem_of_app; auto|].
      apply list_elem_of_fmap in Hs as (d' & -> & [? _]%Hav).
      by apply list_elem_of_fmap_2.
    + by apply Hav in Hs as [_ ?].
  - destruct Hsub as [Hs|[Hs|Hs]].
    + exfalso. apply Hav in Hs as [? _]. apply (Henc d Hd). rewrite elem_of_app; auto.
    + apply (list_elem_of_fmap_inj_2 encoded) in Hs. by apply Hav in Hs as [_ ?].
    + exfalso. apply Hav in Hs as [? _]. apply (Henc d Hd). rewrite elem_of_app; auto.
  - destruct Hsub as [Hs|[Hs|Hs]].
    + by apply Hav in Hs as [_ ?].
    + exfalso. apply (Hplain d); [rewrite elem_of_app; auto|].
      apply list_elem_of_fmap in Hs as (d' & -> & [? _]%Hav).
      by apply list_elem_of_fmap_2.
    + by apply Hav in Hs as [_ ?].
Qed.

(** C9: when a column of the contract whose feature name is among the
    persisted feature names is absent from the input, [predict_fn]
    raises and returns no score at all. *)
Theorem missing_column_is_fatal (g : Inference.globals) (input_data : DataFrame cell)
    (model : Booster) (names : list string) (ty : coltype) (c : string) :
  Inference.feature_names g = Some names →
  (c, ty) ∈ declared predictor →
  feature_name ty c ∈ names →
  c ∉ columns input_data →
  raises (Inference.predict_fn g input_data model)
  ∧ ∀ scores, Inference.predict_fn g input_data model ≠ ok scores.
Proof.
  intros Hnames Hdecl Hreq Hmiss.
  assert (raises (Inference.predict_fn_features g input_data)) as Hraises.
  { eapply unassembled_name_is_fatal; [done..|].
    intros Hin. by apply Hmiss, (assembled_from_column input_data ty c). }
  unfold Inference.predict_fn.
  destruct (Inference.predict_fn_features g input_data) as [e|X]; [|done].
  split; [done|]. intros scores. discriminate.
Qed.
End Missing.

Lemma missing_column_is_fatal_witness :
  raises (Inference.predict_fn (platform := Sample.platform) Sample.loaded Sample.short_frame
            {| predict := fun _ _ => ok [] |}).
Proof.
  eapply (missing_column_is_fatal (platform := Sample.platform) _ _ _ _ Categorical "IP_API_CITY").
  - reflexivity.
  - by_computation.
  - by_computation.
  - by_computation.
Defined.

(** ** Persisting and reloading the artifacts *)

#[local] Instance os_path_join_inj (dir : string) : Inj (=) (=) (os_path_join dir).
Proof.
  unfold os_path_join. intros a b. case_decide; [done|].
  destruct (ends_with_slash dir); intros E.
  - by apply (inj (String.app dir)) in E.
  - apply (inj (String.app dir)) in E. by apply (inj (String.app "/")) in E.
Qed.

Ltac distinct_paths :=
  let E := fresh in
  intros E; apply (inj (os_path_join _)) in E; discriminate E.

Lemma save_model_lookup (model : Booster) (enc : OrdinalEncoder) (names : list string)
    (model_dir : string) (fs : gmap string file) :
  let fs' := TrainingScript.save_model model enc names model_dir fs in
  fs' !! os_path_join model_dir "xgboost-model" = Some (FBooster model)
  ∧ fs' !! os_path_join model_dir "encoder.pkl" = Some (FPickle enc)
  ∧ fs' !! os_path_join model_dir "feature_names.json" = Some (FJson names).
Proof.
  unfold TrainingScript.save_model. cbv zeta. repeat split.
  - rewrite lookup_insert_ne by distinct_paths.
    rewrite lookup_insert_ne by distinct_paths. apply lookup_insert_eq.
  - rewrite lookup_insert_ne by distinct_paths. apply lookup_insert_eq.
  - apply lookup_insert_eq.
Qed.

Lemma model_fn_save_model (model : Booster) (enc : OrdinalEncoder) (names : list string)
    (model_dir : string) (fs : gmap string file) :
  Inference.model_fn model_dir (TrainingScript.save_model model enc names model_dir fs)
  = ok ({| Inference.model := Some model; Inference.encoder := Some enc;
           Inference.feature_names := Some names |}, model).
Proof.
  destruct (save_model_lookup model enc names model_dir fs) as (Hm & He & Hf).
  unfold Inference.model_fn. cbv zeta in *. by rewrite Hm, He, Hf.
Qed.

Section RoundTrip.
Context {platform : Platform}.

Lemma model_fn_main
    (train_model : DataFrame cell → option (list cell) →
                   DataFrame cell → option (list cell) → result Booster)
    (metrics : Booster → string) (train_df val_df : DataFrame cell)
    (model_dir : string) (fs fs' : gmap string file) :
  TrainingScript.main train_model metrics train_df val_df model_dir fs = ok fs' →
  ∃ X y enc model,
    TrainingScript.prepare_features train_df None true = ok (X, y, enc)
    ∧ Inference.model_fn model_dir fs'
      = ok ({| Inference.model := Some model; Inference.encoder := Some enc;
               Inference.feature_names := Some (columns X) |}, model).
Proof.
  unfold TrainingScript.main.
  destruct (TrainingScript.prepare_features train_df None true)
    as [|[[X y] enc]]; [done|].
  cbn [mbind result_bind fst snd].
  destruct (TrainingScript.prepare_features val_df (Some enc) false)
    as [|[[X_val y_val] ?]]; [done|].
  cbn [mbind result_bind fst snd].
  destruct (train_model X y X_val y_val) as [|model]; [done|].
  cbn [mbind result_bind ok]. intros [= <-].
  exists X, y, enc, model. split; [done|].
  rewrite <-(model_fn_save_model model enc (columns X) model_dir fs).
  unfold Inference.model_fn.
  by rewrite !(lookup_insert_ne _ (os_path_join model_dir "metrics.json"))
    by distinct_paths.
Qed.

(** C6: decoding the codes a fitted encoder gives to the strings it was
    fitted on gives these strings back; a string that was not seen in
    fit gets the code -1, which decodes to no string; and [model_fn]
    after [save_model] loads the very encoder (and feature names and
    booster) that was saved, so the loaded encoder transforms every
    frame as the saved one does. *)
Theorem encoder_round_trips :
  (∀ X : DataFrame string,
     (0 < nrows X)%nat →
     ∃ enc codes,
       fit_transform (-1) X = ok (enc, codes)
       ∧ ∀ (i : nat) (name : string) (seen : list string),
           cols X !! i = Some (name, seen) →
           ∃ code_column cats,
             codes !! i = Some code_column
             ∧ categories_ enc !! i = Some cats
             ∧ inverse_transform_column enc i code_column = Some <$> seen
             ∧ (∀ s, s ∈ seen →
                     decode_value (unknown_value enc) cats
                       (encode_value (unknown_value enc) cats s) = Some s)
             ∧ (∀ s, s ∉ seen → encode_value (unknown_value enc) cats s = -1)
             ∧ decode_value (unknown_value enc) cats (-1) = None)
  ∧ (∀ (model : Booster) (enc : OrdinalEncoder) (names : list string)
       (model_dir : string) (fs : gmap string file),
       ∃ g,
         Inference.model_fn model_dir
           (TrainingScript.save_model model enc names model_dir fs) = ok (g, model)
         ∧ Inference.encoder g = Some enc
         ∧ Inference.feature_names g = Some names
         ∧ Inference.model g = Some model
         ∧ ∀ enc' X, Inference.encoder g = Some enc' → transform enc' X = transform enc X).
Proof.
  split.
  - intros X Hn. unfold fit_transform. rewrite fit_ok by done.
    cbn [mbind result_bind ok].
    rewrite transform_ok; cbn; [|done|by rewrite length_fmap|done].
    eexists _, _. split; [done|].
    intros i name seen Hi.
    exists (encode_value (-1) (unique seen) <$> seen), (unique seen).
    assert (((fun c : string * list string => unique c.2) <$> cols X) !! i
            = Some (unique seen)) as Hcats.
    { by rewrite list_lookup_fmap, Hi. }
    split; [by rewrite lookup_zip_with, Hcats, Hi|].
    split; [done|]. split; [|split; [|split]].
    + unfold inverse_transform_column. cbn. rewrite Hcats.
      rewrite <-list_fmap_compose. apply list_fmap_ext. intros j s Hs. cbn.
      apply decode_encode, elem_of_unique. by eapply list_elem_of_lookup_2.
    + intros s Hs. by apply decode_encode, elem_of_unique.
    + intros s Hs. apply encode_value_unseen. by rewrite elem_of_unique.
    + done.
  - intros model enc names model_dir fs. eexists.
    split; [apply model_fn_save_model|]. cbn. repeat split.
    by intros enc' X [= <-].
Qed.

End RoundTrip.

Lemma encoder_round_trips_witness :
  ∃ enc codes,
    fit_transform (platform := Sample.platform) (-1) (astype_str (platform := Sample.platform) Sample.fit_frame)
    = ok (enc, codes)
    ∧ inverse_transform_column enc 0 (default [] (codes !! 0%nat))
      = [Some "US"; Some "CA"; Some "US"].
Proof.
  destruct (proj1 (encoder_round_trips (platform := Sample.platform))
              (astype_str (platform := Sample.platform) Sample.fit_frame))
    as (enc & codes & Hfit & Hcols).
  { cbn. lia. }
  exists enc, codes. split; [exact Hfit|].
  destruct (Hcols 0%nat _ _ eq_refl) as (code_column & cats & -> & _ & Hinv & _).
  exact Hinv.
Defined.


(** ** Content types of the serving container *)

Section ContentTypes.
Context {platform : Platform} {parsers : Parsers}.

(** C10: [input_fn] raises for every content type other than text/csv
    and application/json; [output_fn] raises for every accept type other
    than these two and */*, which it treats like text/csv; for a CSV
    accept the output is the scores joined by newlines, one per line, and
    for a JSON accept it is a JSON array of the scores. *)
Theorem content_and_accept_types :
  (∀ request_body request_content_type : string,
     request_content_type ≠ "text/csv" →
     request_content_type ≠ "application/json" →
     Inference.input_fn request_body request_content_type
     = raise (ValueError ("Unsupported content type: " +:+ request_content_type)))
  ∧ (∀ (prediction : list Q) (accept : string),
       accept ≠ "text/csv" → accept ≠ "application/json" → accept ≠ "*/*" →
       Inference.output_fn prediction accept
       = raise (ValueError ("Unsupported accept type: " +:+ accept)))
  ∧ (∀ (prediction : list Q) (accept : string),
       raises (Inference.output_fn prediction accept) ↔
       accept ≠ "text/csv" ∧ accept ≠ "application/json" ∧ accept ≠ "*/*")
  ∧ (∀ prediction : list Q,
       Inference.output_fn prediction "text/csv"
       = ok (String.concat newline (np_str_float32 <$> prediction)))
  ∧ (∀ prediction : list Q,
       Inference.output_fn prediction "*/*" = Inference.output_fn prediction "text/csv")
  ∧ (∀ prediction : list Q,
       Inference.output_fn prediction "application/json"
       = ok ("[" +:+ String.concat ", " (py_str_float <$> prediction) +:+ "]")).
Proof.
  split; [|split; [|split; [|split; [|split]]]].
  - intros body ct Hcsv Hjson. unfold Inference.input_fn.
    by rewrite !decide_False.
  - intros prediction accept Hcsv Hjson Hany. unfold Inference.output_fn.
    rewrite decide_False by (intros [?|?]; done). by rewrite decide_False.
  - intros prediction accept. unfold Inference.output_fn.
    destruct (decide (accept = "text/csv" ∨ accept = "*/*")) as [Hcsv|Hcsv].
    { cbn. split; [done|]. intros (? & ? & ?). by destruct Hcsv. }
    destruct (decide (accept = "application/json")) as [Hjson|Hjson].
    { cbn. split; [done|]. by intros (? & ? & ?). }
    cbn. split; [|done]. intros _. repeat split; [| done |];
      intros ->; apply Hcsv; auto.
  - intros prediction. unfold Inference.output_fn. by rewrite decide_True by auto.
  - intros prediction. unfold Inference.output_fn. by rewrite !decide_True by auto.
  - intros prediction. unfold Inference.output_fn.
    rewrite decide_False by (intros [?|?]; done). by rewrite decide_True.
Qed.

End ContentTypes.

Lemma content_and_accept_types_witness :
  Inference.input_fn (parsers := Sample.parsers) "1,2,3" "text/plain"
  = raise (ValueError "Unsupported content type: text/plain")
  ∧ Inference.output_fn (platform := Sample.platform) [1 # 2] "image/png"
    = raise (ValueError "Unsupported accept type: image/png").
Proof.
  destruct (content_and_accept_types (platform := Sample.platform) (parsers := Sample.parsers))
    as (Hin & Hout & _).
  split; [by apply Hin|by apply Hout].
Defined.

(** ** Cleaning in the warehouse *)

Section Cleaning.
Context {platform : Platform}.
Implicit Types (ρ : Sql.env) (r out : Sql.row) (it : Sql.select_item).

Lemma project_cons ρ it items :
  Sql.project ρ (it :: items)
  = kv ← Sql.eval_item ρ it; rest ← Sql.project ρ items; Some (kv :: rest).
Proof. done. Qed.

Lemma get_project ρ (items : list Sql.select_item) out it :
  Sql.project ρ items = Some out →
  NoDup (Sql.item_name <$> items) →
  it ∈ items →
  Sql.get (Sql.item_name it) out = Sql.eval ρ it.1.
Proof.
  revert out. induction items as [|it' items IH]; intros out Hout Hnd Hin.
  - by apply elem_of_nil in Hin.
  - rewrite project_cons in Hout. unfold Sql.eval_item in Hout.
    destruct (Sql.eval ρ it'.1) as [v|] eqn:Hv; [|done]. cbn in Hout.
    destruct (Sql.project ρ items) as [rest|]; [|done]. cbn in Hout.
    injection Hout as <-.
    rewrite fmap_cons in Hnd. apply NoDup_cons in Hnd as [Hfresh Hnd].
    cbn [Sql.get]. apply elem_of_cons in Hin as [->|Hin].
    + by rewrite decide_True.
    + rewrite decide_False; [by apply IH|].
      intros E. apply Hfresh. rewrite E. by apply list_elem_of_fmap_2.
Qed.



(** The expressions are those the f-strings of the extractors write. *)
Lemma string_app_assoc (a b c : string) : (a +:+ b) +:+ c = a +:+ (b +:+ c).
Proof.
  induction a as [|x a IH]; [done|].
  change (String x ((a +:+ b) +:+ c) = String x (a +:+ (b +:+ c))). by rewrite IH.
Qed.

Lemma render_part (ty : coltype) (c : string) :
  Sql.render_item (ExtractTrainingData.part ty c) = ExtractTrainingData.part_sql ty c.
Proof.
  destruct ty; cbn [Sql.render_item Sql.render ExtractTrainingData.part ExtractTrainingData.part_sql];
    rewrite !string_app_assoc; reflexivity.
Qed.

Lemma select_parts_text :
  Sql.render_item <$> ExtractTrainingData.select_parts
  = (ExtractTrainingData.part_sql Boolean <$> ExtractTrainingData.BOOLEAN_FEATURES)
    ++ (ExtractTrainingData.part_sql Categorical <$> ExtractTrainingData.CATEGORICAL_FEATURES)
    ++ (ExtractTrainingData.part_sql Numeric <$> ExtractTrainingData.NUMERIC_FEATURES)
    ++ [ExtractTrainingData.TARGET].
Proof. by vm_compute. Qed.

Lemma inference_select_parts_text (id_column : string) :
  Sql.render_item <$> ExtractInferenceData.select_parts id_column
  = [id_column]
    ++ (ExtractInferenceData.part_sql Boolean <$> ExtractInferenceData.BOOLEAN_FEATURES)
    ++ (ExtractInferenceData.part_sql Categorical
          <$> ExtractInferenceData.CATEGORICAL_FEATURES)
    ++ (ExtractInferenceData.part_sql Numeric <$> ExtractInferenceData.NUMERIC_FEATURES).
Proof. by vm_compute. Qed.

(** The rows a query returns are the SELECT lists of rows of the
    table, each evaluated on its own. *)
Lemma select_from_where_per_row (rng : Z → nat → Z) (today : Z)
    (items : list Sql.select_item) (w : Sql.expr) (i : nat) (t res : Sql.table) :
  Sql.select_from_where rng today items w i t = Some res →
  Forall (fun out =>
            ∃ r j, r ∈ t
                   ∧ Sql.project {| Sql.e_row := r; Sql.e_draw := fun seed => rng seed j;
                                    Sql.e_today := today |} items = Some out) res.
Proof.
  revert i res. induction t as [|r t IH]; intros i res Hres.
  - injection Hres as <-. constructor.
  - cbn in Hres.
    destruct (Sql.keeps _ w) as [k|]; [|done]. cbn in Hres.
    destruct (Sql.select_from_where rng today items w (S i) t) as [rest|] eqn:Hrest;
      [|done]. cbn in Hres.
    assert (Forall (fun out =>
                      ∃ r' j, r' ∈ r :: t
                              ∧ Sql.project {| Sql.e_row := r';
                                               Sql.e_draw := fun seed => rng seed j;
                                               Sql.e_today := today |} items = Some out)
              rest) as Hrest'.
    { eapply Forall_impl; [by eapply IH|]. intros out (r' & j & Hin & Hout).
      exists r', j. split; [by right|done]. }
    destruct k.
    + destruct (Sql.project _ items) as [out|] eqn:Hout; [|done].
      injection Hres as <-. constructor; [|done].
      exists r, i. split; [by left|done].
    + by injection Hres as <-.
Qed.



Lemma declared_part (k : Contract.t) (it : Sql.select_item) :
  it ∈ (ExtractTrainingData.part Boolean <$> boolean k)
       ++ (ExtractTrainingData.part Categorical <$> categorical k)
       ++ (ExtractTrainingData.part Numeric <$> numeric k)
  ↔ ∃ c ty, (c, ty) ∈ declared k ∧ it = ExtractTrainingData.part ty c.
Proof.
  unfold declared. rewrite !elem_of_app, !list_elem_of_fmap. split.
  - intros [(c & -> & Hc)|[(c & -> & Hc)|(c & -> & Hc)]].
    + exists c, Boolean. rewrite !elem_of_app, !list_elem_of_fmap. eauto 10.
    + exists c, Categorical. rewrite !elem_of_app, !list_elem_of_fmap. eauto 10.
    + exists c, Numeric. rewrite !elem_of_app, !list_elem_of_fmap. eauto 10.
  - intros (c & ty & Hd & ->). rewrite !elem_of_app, !list_elem_of_fmap in Hd.
    destruct Hd as [(d & [= -> ->] & Hd)|[(d & [= -> ->] & Hd)|(d & [= -> ->] & Hd)]];
      eauto 10.
Qed.





End Cleaning.



(** ** The train/test split *)

Section Split.
Context {platform : Platform}.

Lemma to_int64_range (z : Z) : (- 2 ^ 63 ≤ Sql.to_int64 z < 2 ^ 63)%Z.
Proof. unfold Sql.to_int64. pose proof (Z.mod_pos_bound (z + 2 ^ 63) (2 ^ 64)). lia. Qed.

(** The draw is a 64-bit integer, so for a test fraction in (0, 1] a row
    is labelled TEST exactly when its draw is not positive. *)
Lemma split_label_by_sign (ρ : Sql.env) (test_size : Q) (draw : Z) :
  (0 < test_size)%Q → (test_size <= 1)%Q →
  Sql.get "split_key" (Sql.e_row ρ) = Some (Sql.VNum (inject_Z draw)) →
  Sql.eval ρ (Sql.ECase (Sql.ELt (Sql.ECol "split_key") (Sql.EDec test_size))
                (Sql.EStr "TEST") (Sql.EStr "TRAIN"))
  = Some (Sql.VStr (if decide (draw ≤ 0)%Z then "TEST" else "TRAIN")).
Proof.
  intros Hpos Hle Hget. cbn. rewrite Hget. cbn. unfold Sql.Qltb.
  case_decide as Hd.
  - assert (Qle_bool test_size (inject_Z draw) = false) as ->; [|done].
    apply not_true_is_false. rewrite Qle_bool_iff. intros Hq.
    assert (inject_Z draw <= inject_Z 0)%Q by (by rewrite <-Zle_Qle).
    apply (Qlt_irrefl 0). eapply Qlt_le_trans; [exact Hpos|]. by eapply Qle_trans.
  - assert (Qle_bool test_size (inject_Z draw) = true) as ->; [|done].
    apply Qle_bool_iff. eapply Qle_trans; [exact Hle|].
    change 1%Q with (inject_Z 1). rewrite <-Zle_Qle. lia.
Qed.
Lemma random_is_int64 (ρ : Sql.env) (seed : Z) :
  ∃ draw : Z,
    Sql.eval ρ (Sql.ERandom seed) = Some (Sql.VNum (inject_Z draw))
    ∧ (- 2 ^ 63 ≤ draw < 2 ^ 63)%Z.
Proof. eexists. split; [done|]. apply to_int64_range. Qed.

(** X13: the WHERE clause of the training query keeps a row exactly
    when its target is not null and it was created no earlier than
    [days_limit] days before the current date; on a row that has a
    target column and a creation time the clause always evaluates. *)
Lemma eligible_iff (ρ : Sql.env) (source_table : string) (days_limit : nat)
    (test_size : Q) (random_seed : Z) (target : Sql.value) (created : Q) :
  Sql.get ExtractTrainingData.TARGET (Sql.e_row ρ) = Some target →
  Sql.get "CREATED_AT" (Sql.e_row ρ) = Some (Sql.VTime created) →
  ∃ kept : bool,
    Sql.keeps ρ (Sql.cte_where
                   (ExtractTrainingData.build_preprocessing_sql source_table days_limit
                      test_size random_seed)) = Some kept
    ∧ (kept = true ↔
       target ≠ Sql.VNull
       ∧ (inject_Z (Sql.e_today ρ) + inject_Z (- Z.of_nat days_limit) <= created)%Q).
Proof.
  intros Ht Hc. unfold Sql.keeps. cbn. rewrite Ht, Hc. cbn.
  destruct target; cbn; eexists; (split; [reflexivity|]); rewrite <-?Qle_bool_iff;
    try (split; [done|by intros [? _]]).
  all: destruct (Qle_bool _ created); split; try done; try (by intros [_ ?]).
Qed.

Lemma project_names (ρ : Sql.env) (items : list Sql.select_item) (out : Sql.row) :
  Sql.project ρ items = Some out → out.*1 = Sql.item_name <$> items.
Proof.
  revert out. induction items as [|it items IH]; intros out Hout.
  - by injection Hout as <-.
  - rewrite project_cons in Hout. unfold Sql.eval_item in Hout.
    destruct (Sql.eval ρ it.1) as [v|]; [|done]. cbn in Hout.
    destruct (Sql.project ρ items) as [rest|]; [|done]. cbn in Hout.
    injection Hout as <-. cbn. f_equal. by apply IH.
Qed.

Lemma select_from_where_names (rng : Z → nat → Z) (today : Z)
    (items : list Sql.select_item) (w : Sql.expr) (i : nat) (t res : Sql.table) :
  Sql.select_from_where rng today items w i t = Some res →
  Forall (fun out : Sql.row => out.*1 = Sql.item_name <$> items) res.
Proof.
  revert i res. induction t as [|r t IH]; intros i res Hres.
  - injection Hres as <-. constructor.
  - cbn in Hres.
    destruct (Sql.keeps _ w) as [k|]; [|done]. cbn in Hres.
    destruct (Sql.select_from_where rng today items w (S i) t) as [rest|] eqn:Hrest;
      [|done]. cbn in Hres.
    destruct k.
    + destruct (Sql.project _ items) as [out|] eqn:Hout; [|done].
      injection Hres as <-. constructor; [by eapply project_names|by eapply IH].
    + injection Hres as <-. by eapply IH.
Qed.

Lemma get_app_fresh (c : string) (r : Sql.row) (v : Sql.value) :
  c ∉ r.*1 → Sql.get c (r ++ [(c, v)]) = Some v.
Proof.
  induction r as [|[k x] r IH]; intros Hc; cbn.
  - by rewrite decide_True.
  - rewrite fmap_cons, not_elem_of_cons in Hc. destruct Hc as [Hne Hc].
    rewrite decide_False by done. by apply IH.
Qed.

Lemma get_drop_other (c d : string) (r : Sql.row) :
  c ≠ d → Sql.get c (filter (fun kv : string * Sql.value => kv.1 ≠ d) r) = Sql.get c r.
Proof.
  intros Hne. induction r as [|[k x] r IH]; [done|].
  destruct (decide (k = d)) as [->|Hk].
  - rewrite filter_cons_False by (cbn; tauto). cbn [Sql.get].
    by rewrite decide_False, IH by done.
  - rewrite filter_cons_True by done. cbn [Sql.get]. by rewrite IH.
Qed.

Lemma cleaned_names_lack_split :
  "DATA_SPLIT" ∉ Sql.item_name <$>
    (ExtractTrainingData.select_parts ++ [(Sql.ERandom 0, Some "split_key")]).
Proof. by_computation. Qed.

(** Every row the query returns carries the label TRAIN or the label
    TEST. *)
Lemma run_cte_labels (db : gmap string Sql.table) (rng : Z → nat → Z) (today : Z)
    (source_table : string) (days_limit : nat) (test_size : Q) (random_seed : Z)
    (df : Sql.table) :
  Sql.run_cte db rng today
    (ExtractTrainingData.build_preprocessing_sql source_table days_limit test_size
       random_seed) = Some df →
  Forall (fun r => Spark.column_is "DATA_SPLIT" "TRAIN" r = true
                   ∨ Spark.column_is "DATA_SPLIT" "TEST" r = true) df.
Proof.
  unfold Sql.run_cte. cbn [Sql.cte_from Sql.cte_select Sql.cte_where Sql.outer_extra
                           ExtractTrainingData.build_preprocessing_sql].
  destruct (db !! source_table) as [t|]; [|done]. cbn [mbind option_bind].
  destruct (Sql.select_from_where _ _ _ _ _ t) as [cleaned|] eqn:Hcleaned; [|done].
  cbn [mbind option_bind]. apply select_from_where_names in Hcleaned.
  unfold Sql.select_star_and. intros Hdf. apply mapM_Some in Hdf.
  induction Hdf as [|r r' cleaned df Hr _ IH]; [constructor|].
  apply Forall_cons in Hcleaned as [Hnames Hcleaned].
  constructor; [|by apply IH].
  unfold Sql.eval_item in Hr. cbn [fst] in Hr.
  destruct (Sql.eval _ _) as [v|] eqn:Hv; [|done]. cbn in Hr. injection Hr as <-.
  assert ("DATA_SPLIT" ∉ r.*1) as Hfresh.
  { rewrite Hnames. rewrite fmap_app. cbn [fmap list_fmap Sql.item_name].
    pose proof cleaned_names_lack_split as Hl. by rewrite fmap_app in Hl. }
  unfold Spark.column_is. rewrite get_app_fresh by done.
  cbn in Hv. destruct (Sql.get "split_key" r) as [x|]; [|done]. cbn in Hv.
  destruct (Sql.sql_lt x _) as [[|[]| | |]|]; cbn in Hv; try done;
    injection Hv as <-; cbn; auto.
Qed.
End Split.

(** The rows labelled TRAIN and the rows labelled TEST are the rows of
    the frame, and no row carries both labels. *)
Lemma train_test_partition (df : Sql.table) :
  Forall (fun r => Spark.column_is "DATA_SPLIT" "TRAIN" r = true
                   ∨ Spark.column_is "DATA_SPLIT" "TEST" r = true) df →
  Spark.filter_eq "DATA_SPLIT" "TRAIN" df ++ Spark.filter_eq "DATA_SPLIT" "TEST" df ≡ₚ df
  ∧ ∀ r, ¬ (Spark.column_is "DATA_SPLIT" "TRAIN" r = true
            ∧ Spark.column_is "DATA_SPLIT" "TEST" r = true).
Proof.
  assert (∀ r, ¬ (Spark.column_is "DATA_SPLIT" "TRAIN" r = true
                  ∧ Spark.column_is "DATA_SPLIT" "TEST" r = true)) as Hexcl.
  { intros r. unfold Spark.column_is.
    destruct (Sql.get _ r) as [[| | |s|]|]; try (intros [? ?]; discriminate).
    intros [H1%bool_decide_eq_true H2%bool_decide_eq_true]. by subst. }
  intros Hall. split; [|done]. unfold Spark.filter_eq.
  induction Hall as [|r df Hr _ IH]; [done|].
  destruct Hr as [Hr|Hr].
  - rewrite filter_cons_True by done. rewrite filter_cons_False.
    + cbn. by rewrite IH.
    + intros Ht. by apply (Hexcl r).
  - rewrite filter_cons_False by (intros Ht; by apply (Hexcl r)).
    rewrite filter_cons_True by done.
    by rewrite <-Permutation_middle, IH.
Qed.

Section Outputs.
Context {platform : Platform}.

Lemma column_is_drop (c s d : string) (r : Sql.row) :
  c ≠ d →
  Spark.column_is c s (filter (fun kv : string * Sql.value => kv.1 ≠ d) r)
  = Spark.column_is c s r.
Proof. intros Hne. unfold Spark.column_is. by rewrite get_drop_other. Qed.

Lemma split_rows_partition (df : Sql.table) :
  Forall (fun r => Spark.column_is "DATA_SPLIT" "TRAIN" r = true
                   ∨ Spark.column_is "DATA_SPLIT" "TEST" r = true) df →
  Spark.drop "DATA_SPLIT"
    (Spark.filter_eq "DATA_SPLIT" "TRAIN" (Spark.drop "split_key" df))
  ++ Spark.drop "DATA_SPLIT"
       (Spark.filter_eq "DATA_SPLIT" "TEST" (Spark.drop "split_key" df))
  ≡ₚ Spark.drop "DATA_SPLIT" (Spark.drop "split_key" df).
Proof.
  intros Hdf.
  destruct (train_test_partition (Spark.drop "split_key" df)) as [Hperm _].
  { unfold Spark.drop. apply Forall_fmap. eapply Forall_impl; [exact Hdf|].
    intros r Hr. cbn. by rewrite !column_is_drop. }
  unfold Spark.drop at 1 2 3. rewrite <-fmap_app. by rewrite Hperm.
Qed.

Lemma written_Permutation (label : string) (df df' : Sql.table) :
  df ≡ₚ df' →
  Spark.drop "DATA_SPLIT" (Spark.filter_eq "DATA_SPLIT" label (Spark.drop "split_key" df))
  ≡ₚ Spark.drop "DATA_SPLIT"
       (Spark.filter_eq "DATA_SPLIT" label (Spark.drop "split_key" df')).
Proof. intros Hperm. unfold Spark.drop, Spark.filter_eq. by rewrite Hperm. Qed.

Lemma length_written (label : string) (df : Sql.table) :
  length (Spark.drop "DATA_SPLIT"
            (Spark.filter_eq "DATA_SPLIT" label (Spark.drop "split_key" df)))
  = length (Spark.filter_eq "DATA_SPLIT" label df).
Proof.
  unfold Spark.drop at 1. rewrite length_fmap. unfold Spark.filter_eq, Spark.drop.
  induction df as [|r df IH]; [done|].
  rewrite fmap_cons, !filter_cons, column_is_drop by done.
  destruct (decide (Spark.column_is "DATA_SPLIT" label r = true)); cbn; by rewrite IH.
Qed.

(** X15: [main] sends its query five times, once for each of the three
    counts and of the two writes, and takes each count and each file
    from the rows of its own execution.  When the two writes find the
    same rows with the same labels, in whatever order, the rows under
    [train/] and under [test/] are, put together, those rows without the
    two split columns: none is lost and none is written twice, and the
    two files have as many rows as the query returned.  When the three
    counts find the same rows, the train and test counts add up to the
    total; and a printed count is the length of the file whose execution
    found the same rows as the count's. *)
Lemma main_partitions (run : nat → Sql.execution) (source_table : string)
    (days_limit : nat) (out : ExtractTrainingData.output) :
  ExtractTrainingData.main run source_table days_limit = Some out →
  let query :=
    ExtractTrainingData.build_preprocessing_sql source_table days_limit
      ExtractTrainingData.default_test_size ExtractTrainingData.default_random_seed in
  ∃ counted counted_train counted_test written_train written_test,
    Sql.execute_cte (run 0%nat) query = Some counted
    ∧ Sql.execute_cte (run 1%nat) query = Some counted_train
    ∧ Sql.execute_cte (run 2%nat) query = Some counted_test
    ∧ Sql.execute_cte (run 3%nat) query = Some written_train
    ∧ Sql.execute_cte (run 4%nat) query = Some written_test
    ∧ ExtractTrainingData.total_count out = length counted
    ∧ ExtractTrainingData.train_count out
      = length (Spark.filter_eq "DATA_SPLIT" "TRAIN" counted_train)
    ∧ ExtractTrainingData.test_count out
      = length (Spark.filter_eq "DATA_SPLIT" "TEST" counted_test)
    ∧ ExtractTrainingData.train out
      = Spark.drop "DATA_SPLIT"
          (Spark.filter_eq "DATA_SPLIT" "TRAIN" (Spark.drop "split_key" written_train))
    ∧ ExtractTrainingData.test out
      = Spark.drop "DATA_SPLIT"
          (Spark.filter_eq "DATA_SPLIT" "TEST" (Spark.drop "split_key" written_test))
    ∧ (written_test ≡ₚ written_train →
       ExtractTrainingData.train out ++ ExtractTrainingData.test out
       ≡ₚ Spark.drop "DATA_SPLIT" (Spark.drop "split_key" written_train)
       ∧ (length (ExtractTrainingData.train out) + length (ExtractTrainingData.test out)
          = length written_train)%nat)
    ∧ (counted_train ≡ₚ counted → counted_test ≡ₚ counted →
       (ExtractTrainingData.train_count out + ExtractTrainingData.test_count out
        = ExtractTrainingData.total_count out)%nat)
    ∧ (written_train ≡ₚ counted_train →
       length (ExtractTrainingData.train out) = ExtractTrainingData.train_count out)
    ∧ (written_test ≡ₚ counted_test →
       length (ExtractTrainingData.test out) = ExtractTrainingData.test_count out).
Proof.
  intros Hmain query. revert Hmain. unfold ExtractTrainingData.main. fold query.
  destruct (Sql.execute_cte (run 0%nat) query) as [d0|] eqn:Hd0; [|done].
  cbn [mbind option_bind].
  destruct (Sql.execute_cte (run 1%nat) query) as [d1|] eqn:Hd1; [|done].
  cbn [mbind option_bind].
  destruct (Sql.execute_cte (run 2%nat) query) as [d2|] eqn:Hd2; [|done].
  cbn [mbind option_bind].
  destruct (Sql.execute_cte (run 3%nat) query) as [d3|] eqn:Hd3; [|done].
  cbn [mbind option_bind fmap option_fmap option_map].
  destruct (Sql.execute_cte (run 4%nat) query) as [d4|] eqn:Hd4; [|done].
  cbn [mbind option_bind fmap option_fmap option_map].
  intros [= <-]. exists d0, d1, d2, d3, d4.
  cbn [ExtractTrainingData.train ExtractTrainingData.test ExtractTrainingData.total_count
       ExtractTrainingData.train_count ExtractTrainingData.test_count].
  do 10 (split; [done|]).
  apply run_cte_labels in Hd0, Hd3.
  split; [|split; [|split]].
  - intros Hperm.
    assert (Spark.drop "DATA_SPLIT"
              (Spark.filter_eq "DATA_SPLIT" "TRAIN" (Spark.drop "split_key" d3))
            ++ Spark.drop "DATA_SPLIT"
                 (Spark.filter_eq "DATA_SPLIT" "TEST" (Spark.drop "split_key" d4))
            ≡ₚ Spark.drop "DATA_SPLIT" (Spark.drop "split_key" d3)) as Hall.
    { rewrite (written_Permutation "TEST" d4 d3 Hperm). by apply split_rows_partition. }
    split; [done|].
    rewrite <-length_app, Hall. unfold Spark.drop. by rewrite !length_fmap.
  - intros Hperm1 Hperm2.
    destruct (train_test_partition d0 Hd0) as [Hall _].
    rewrite <-length_app. unfold Spark.filter_eq in *.
    by rewrite Hperm1, Hperm2, Hall.
  - intros Hperm. rewrite length_written. unfold Spark.filter_eq. by rewrite Hperm.
  - intros Hperm. rewrite length_written. unfold Spark.filter_eq. by rewrite Hperm.
Qed.
End Outputs.

(** C3: the split draws a value in [0,1) for every eligible row and
    labels it TEST exactly when the draw is below the test fraction.
    With the default fraction and seed, on a source of two eligible rows
    for which the generator of the warehouse yields 1570543588041465562
    and -3581185414942383166, these are the draws of the query, outside
    [0,1); the rows are labelled TRAIN and TEST, as they are with a test
    fraction of 0.99, and [main] writes one row under train/ and one
    under test/. *)
Theorem split_key_is_not_a_fraction :
  ∃ r0 r1,
    Sql.run_cte (platform := Sample.platform) Sample.source Sample.generator 100
      (ExtractTrainingData.build_preprocessing_sql "SOURCE" 30
         ExtractTrainingData.default_test_size ExtractTrainingData.default_random_seed)
    = Some [r0; r1]
    ∧ Sql.get "split_key" r0 = Some (Sql.VNum 1570543588041465562)
    ∧ Sql.get "DATA_SPLIT" r0 = Some (Sql.VStr "TRAIN")
    ∧ Sql.get "split_key" r1 = Some (Sql.VNum (-3581185414942383166))
    ∧ Sql.get "DATA_SPLIT" r1 = Some (Sql.VStr "TEST")
    ∧ ¬ (0 <= 1570543588041465562 ∧ 1570543588041465562 < 1)%Q
    ∧ ¬ (0 <= -3581185414942383166 ∧ -3581185414942383166 < 1)%Q
    ∧ Sql.run_cte (platform := Sample.platform) Sample.source Sample.generator 100
        (ExtractTrainingData.build_preprocessing_sql "SOURCE" 30 (99 # 100)
           ExtractTrainingData.default_random_seed)
      = Some [r0; r1]
    ∧ ∃ out,
        ExtractTrainingData.main (platform := Sample.platform)
          (fun _ => Sample.warehouse 100) "SOURCE" 30 = Some out
        ∧ length (ExtractTrainingData.train out) = 1%nat
        ∧ length (ExtractTrainingData.test out) = 1%nat.
Proof.
  eexists _, _. split; [by vm_compute|].
  do 4 (split; [by vm_compute|]).
  split; [intros [_ Hlt]; by vm_compute in Hlt|].
  split; [intros [Hle _]; by vm_compute in Hle|].
  split; [by vm_compute|].
  eexists. split; [by vm_compute|]. by vm_compute.
Qed.

(** ** Joining scores to identifiers *)

Section Join.
Context {A B : Type}.

Lemma join_inner_nil_r (l : list (A * Z)) : Spark.join_inner l (@nil (B * Z)) = [].
Proof. unfold Spark.join_inner. induction l as [|x l IH]; [done|]. by rewrite bind_cons, IH. Qed.

Lemma join_inner_cons_l (x : A * Z) (l : list (A * Z)) (r : list (B * Z)) :
  Spark.join_inner (x :: l) r
  = (y ← r; if decide (x.2 = y.2) then [(x.1, y.1)] else []) ++ Spark.join_inner l r.
Proof. done. Qed.

Lemma join_inner_skip (l : list (A * Z)) (y : B * Z) (r : list (B * Z)) :
  y.2 ∉ l.*2 → Spark.join_inner l (y :: r) = Spark.join_inner l r.
Proof.
  induction l as [|x l IH]; intros Hy; [done|].
  rewrite fmap_cons, not_elem_of_cons in Hy. destruct Hy as [Hne Hy].
  rewrite !join_inner_cons_l, bind_cons, decide_False by done. by rewrite IH.
Qed.

Lemma no_match (x : A * Z) (r : list (B * Z)) :
  x.2 ∉ r.*2 → (y ← r; if decide (x.2 = y.2) then [(x.1, y.1)] else []) = [].
Proof.
  induction r as [|y r IH]; intros Hx; [done|].
  rewrite fmap_cons, not_elem_of_cons in Hx. destruct Hx as [Hne Hx].
  by rewrite bind_cons, decide_False, IH.
Qed.

(** Two frames whose keys count the rows from the same start, with no
    key repeated, are joined row by row. *)
Lemma join_inner_zip (key : nat → Z) (k : nat) (l : list (A * Z)) (r : list (B * Z)) :
  Inj (=) (=) key →
  l.*2 = key <$> seq k (length l) →
  r.*2 = key <$> seq k (length r) →
  Spark.join_inner l r = zip l.*1 r.*1.
Proof.
  intros Hinj. revert k r. induction l as [|x l IH]; intros k r Hl Hr; [done|].
  destruct r as [|y r]; [by rewrite join_inner_nil_r|].
  cbn in Hl, Hr. injection Hl as Hx Hl. injection Hr as Hy Hr.
  rewrite join_inner_cons_l, bind_cons, decide_True by congruence.
  rewrite no_match.
  2:{ rewrite Hr, Hx. intros (j & E & Hj)%list_elem_of_fmap.
      apply Hinj in E. subst j. apply elem_of_seq in Hj. lia. }
  rewrite join_inner_skip.
  2:{ rewrite Hl, Hy. intros (j & E & Hj)%list_elem_of_fmap.
      apply Hinj in E. subst j. apply elem_of_seq in Hj. lia. }
  cbn. f_equal. by apply (IH (S k)).
Qed.
End Join.

Lemma monotonically_increasing_id_first (j : nat) :
  (Z.of_nat j < 2 ^ 63)%Z → Spark.monotonically_increasing_id 0 j = Z.of_nat j.
Proof.
  intros Hj. unfold Spark.monotonically_increasing_id, Spark.wrap64.
  rewrite Z.shiftl_0_l, Z.add_0_l. rewrite Z.mod_small by lia. lia.
Qed.

Lemma with_id_single {A : Type} (rows : list A) :
  (Z.of_nat (length rows) ≤ 2 ^ 63)%Z →
  Spark.collect (Spark.with_id [rows]) = zip rows (Z.of_nat <$> seq 0 (length rows)).
Proof.
  intros Hn. unfold Spark.collect, Spark.with_id. cbn. rewrite app_nil_r.
  apply list_eq. intros i. rewrite list_lookup_imap, lookup_zip_with.
  destruct (rows !! i) as [x|] eqn:Hi; [|done]. cbn.
  apply lookup_lt_Some in Hi as Hlt.
  rewrite list_lookup_fmap, lookup_seq_lt by done. cbn.
  rewrite monotonically_increasing_id_first by lia. done.
Qed.

(** When both files are read as one partition each, the join pairs the
    rows by position. *)
Lemma join_single_partitions {A B : Type} (ids : list A) (predictions : list B) :
  (Z.of_nat (length ids) ≤ 2 ^ 63)%Z → (Z.of_nat (length predictions) ≤ 2 ^ 63)%Z →
  LoadScores.join_ids_predictions [ids] [predictions] = Spec.by_position ids predictions.
Proof.
  intros Hi Hp. unfold LoadScores.join_ids_predictions, Spec.by_position.
  rewrite !with_id_single by done.
  rewrite (join_inner_zip Z.of_nat 0).
  - by rewrite !fst_zip by (rewrite length_fmap, length_seq; lia).
  - apply _.
  - by rewrite snd_zip, length_zip, length_fmap, length_seq, Nat.min_id
      by (rewrite length_fmap, length_seq; lia).
  - by rewrite snd_zip, length_zip, length_fmap, length_seq, Nat.min_id
      by (rewrite length_fmap, length_seq; lia).
Qed.

(** C7: when the identifiers and the predictions have as many rows, the
    join pairs each identifier with the score at its position and loses
    none.  For an identifiers file of three rows read as two partitions
    and a predictions file of three rows read as one, the join has two
    rows and the identifier c is lost. *)
Theorem join_drops_rows_across_partitions :
  length (Spark.collect Sample.ids_df) = length (Spark.collect Sample.predictions_df)
  ∧ Spec.by_position (Spark.collect Sample.ids_df) (Spark.collect Sample.predictions_df)
    = [("a", 1 # 2); ("b", 1 # 4); ("c", 3 # 4)]%Q
  ∧ LoadScores.join_ids_predictions Sample.ids_df Sample.predictions_df
    = [("a", 1 # 2); ("b", 1 # 4)]%Q
  ∧ "c" ∉ (LoadScores.join_ids_predictions Sample.ids_df Sample.predictions_df).*1.
Proof.
  split; [done|]. split; [done|]. split; [by vm_compute|].
  replace (LoadScores.join_ids_predictions Sample.ids_df Sample.predictions_df)
    with [("a", 1 # 2); ("b", 1 # 4)]%Q by (by vm_compute).
  cbn. rewrite !not_elem_of_cons. repeat split; try done. apply not_elem_of_nil.
Qed.

(** * Further properties of the scripts *)

(** A computation whose outcome is checked by evaluation returns a
    value. *)
Lemma result_ok_inv {A : Type} (m : result A) :
  (match m with inr _ => true | inl _ => false end) = true → ∃ a, m = ok a.
Proof. destruct m as [e|a]; [done|]. by exists a. Qed.


(** ** Loading the extracted files *)

Lemma mapM_result_app {A B : Type} (f : A → result B) (l1 l2 : list A) (k1 k2 : list B) :
  mapM f l1 = ok k1 → mapM f l2 = ok k2 → mapM f (l1 ++ l2) = ok (k1 ++ k2).
Proof.
  revert k1. induction l1 as [|x l1 IH]; intros k1 H1 H2.
  - by injection H1 as <-.
  - cbn in H1 |- *. destruct (f x) as [e|y]; [done|]. cbn in H1 |- *.
    destruct (mapM f l1) as [e|k]; [done|]. cbn in H1. injection H1 as <-.
    by rewrite (IH k eq_refl H2).
Qed.

Lemma parquet_is_not_csv (name : string) :
  TrainingScript.ends_with ".parquet" name = true →
  TrainingScript.ends_with ".csv" name = false.
Proof.
  unfold TrainingScript.ends_with.
  change (String.rev ".parquet") with "teuqrap.".
  change (String.rev ".csv") with "vsc.".
  destruct (String.rev name) as [|a x]; [done|].
  cbn [String.prefix]. destruct (ascii_dec "v" a) as [<-|]; [|done].
  by destruct (ascii_dec "t" "v").
Qed.

Lemma glob_recursive_split (suffix : string) (d : TrainingScript.directory) :
  TrainingScript.glob_recursive suffix d
  = TrainingScript.glob suffix d
    ++ filter (fun f => TrainingScript.ends_with suffix (TrainingScript.file_name f) = true)
         (TrainingScript.nested d).
Proof. unfold TrainingScript.glob_recursive, TrainingScript.glob. apply filter_app. Qed.

Lemma concat_rows_distinct (dfs : list (DataFrame cell)) :
  dfs ≠ [] → Forall (fun df => NoDup (columns df)) dfs →
  ∃ df, concat_rows dfs = ok df ∧ nrows df = sum_list (nrows <$> dfs).
Proof.
  intros Hne Hnd. destruct dfs as [|first dfs]; [done|].
  unfold concat_rows. rewrite decide_True by done. by eexists.
Qed.

(** X1: a directory that holds no file whose name ends in .parquet or
    .csv, at its top or below, is refused: [load_data] raises the
    ValueError that names the directory. *)
Theorem load_data_without_files (d : TrainingScript.directory) :
  (∀ f, f ∈ TrainingScript.top d ++ TrainingScript.nested d →
        TrainingScript.ends_with ".parquet" (TrainingScript.file_name f) = false
        ∧ TrainingScript.ends_with ".csv" (TrainingScript.file_name f) = false) →
  TrainingScript.load_data d
  = raise (ValueError ("No parquet or CSV files found in " +:+ TrainingScript.dir_name d)).
Proof.
  intros Hnone. unfold TrainingScript.load_data.
  assert (∀ suffix, (suffix = ".parquet" ∨ suffix = ".csv") →
            TrainingScript.glob suffix d ++ TrainingScript.glob_recursive suffix d = [])
    as Hempty.
  { intros suffix Hs. rewrite glob_recursive_split. unfold TrainingScript.glob.
    rewrite !filter_none; [done|apply Forall_forall..].
    all: intros f Hf; destruct (Hnone f) as [Hp Hc]; [rewrite elem_of_app; auto|].
    all: destruct Hs as [-> | ->]; congruence. }
  by rewrite !Hempty by auto.
Qed.

Lemma load_data_without_files_witness :
  TrainingScript.load_data Sample.empty_dir
  = raise (ValueError "No parquet or CSV files found in /opt/ml/input/data/train").
Proof.
  apply (load_data_without_files Sample.empty_dir).
  apply (proj1 (Forall_forall _ _)). by_computation.
Defined.

(** X2: [load_data] lists the files at the top of the directory twice,
    once for each of its two patterns, so it reads every such file twice:
    when the parquet files read as frames of distinct labels, the frame
    it returns is the concatenation of the top frames, the top frames
    again, and the frames found below, and it has twice the rows of the
    top files plus the rows of the files below. *)
Theorem load_data_reads_top_files_twice (d : TrainingScript.directory)
    (tops nests : list (DataFrame cell)) :
  mapM TrainingScript.read (TrainingScript.glob ".parquet" d) = ok tops →
  mapM TrainingScript.read
    (filter (fun f => TrainingScript.ends_with ".parquet" (TrainingScript.file_name f) = true)
       (TrainingScript.nested d)) = ok nests →
  tops ++ nests ≠ [] →
  Forall (fun df => NoDup (columns df)) (tops ++ nests) →
  ∃ df,
    TrainingScript.load_data d = ok df
    ∧ concat_rows (tops ++ tops ++ nests) = ok df
    ∧ nrows df = (2 * sum_list (nrows <$> tops) + sum_list (nrows <$> nests))%nat.
Proof.
  intros Htops Hnests Hsome Hnd. unfold TrainingScript.load_data.
  rewrite !(glob_recursive_split ".parquet").
  set (files := _ ++ _ ++ _).
  assert (mapM TrainingScript.read files = ok (tops ++ tops ++ nests)) as Hread.
  { by repeat apply mapM_result_app. }
  assert (tops ++ tops ++ nests ≠ []) as Hne.
  { destruct tops; [done|]. done. }
  assert (files ≠ []) as Hfiles.
  { intros E. rewrite E in Hread. by injection Hread as E'. }
  destruct files as [|f files]; [done|]. rewrite Hread. cbn [mbind result_bind].
  destruct (concat_rows_distinct (tops ++ tops ++ nests)) as (df & Hdf & Hrows); [done| |].
  { apply Forall_app in Hnd as [Ht Hn]. by repeat apply Forall_app_2. }
  exists df. split; [done|]. split; [done|].
  rewrite Hrows, !fmap_app, !sum_list_with_app. lia.
Qed.

Lemma load_data_reads_top_files_twice_witness :
  ∃ df, TrainingScript.load_data Sample.train_dir = ok df ∧ nrows df = 4%nat.
Proof.
  destruct (load_data_reads_top_files_twice Sample.train_dir [Sample.labelled_frame] [])
    as (df & Hdf & _ & Hrows).
  - reflexivity.
  - reflexivity.
  - done.
  - by_computation.
  - exists df. split; [exact Hdf|]. rewrite Hrows. reflexivity.
Defined.

Lemma filter_parquet_without_csv (l : list TrainingScript.data_file) :
  filter (fun f => TrainingScript.ends_with ".parquet" (TrainingScript.file_name f) = true)
    (filter (fun f => TrainingScript.ends_with ".csv" (TrainingScript.file_name f) = false) l)
  = filter (fun f => TrainingScript.ends_with ".parquet" (TrainingScript.file_name f) = true) l.
Proof.
  rewrite list_filter_filter. apply list_filter_iff. intros f. split; [by intros [? _]|].
  intros Hp. split; [done|]. by apply parquet_is_not_csv.
Qed.

(** X3: as soon as one parquet file is found, the CSV files of the
    directory are not read: [load_data] returns what it returns for the
    directory without them. *)
Theorem load_data_prefers_parquet (d : TrainingScript.directory) :
  TrainingScript.glob_recursive ".parquet" d ≠ [] →
  TrainingScript.load_data d
  = TrainingScript.load_data
      {| TrainingScript.dir_name := TrainingScript.dir_name d;
         TrainingScript.top :=
           filter (fun f => TrainingScript.ends_with ".csv" (TrainingScript.file_name f) = false)
             (TrainingScript.top d);
         TrainingScript.nested :=
           filter (fun f => TrainingScript.ends_with ".csv" (TrainingScript.file_name f) = false)
             (TrainingScript.nested d) |}.
Proof.
  intros Hsome. unfold TrainingScript.load_data.
  rewrite !glob_recursive_split. unfold TrainingScript.glob.
  cbn [TrainingScript.top TrainingScript.nested TrainingScript.dir_name].
  rewrite !filter_parquet_without_csv.
  rewrite glob_recursive_split in Hsome. unfold TrainingScript.glob in Hsome.
  destruct (filter _ (TrainingScript.top d) ++ filter _ (TrainingScript.top d) ++ _)
    as [|f files] eqn:E; [|done].
  exfalso. apply Hsome. apply app_eq_nil in E as [E1 E2]. by apply app_eq_nil in E2 as [-> ->].
Qed.

Lemma load_data_prefers_parquet_witness :
  TrainingScript.load_data Sample.mixed_dir = TrainingScript.load_data Sample.train_dir.
Proof.
  apply (load_data_prefers_parquet Sample.mixed_dir).
  intros E. discriminate E.
Defined.

(** ** The values of the assembled frame *)


Section Fitted.
Context {platform : Platform}.

(** X4: on a frame of distinct labels with one value per row in every
    column and a row at least, [prepare_features] in fit mode succeeds
    and returns a frame of as many rows in which every boolean and every
    numeric column of the contract that the input has holds the values of
    the input unchanged, and every categorical column appears under its
    encoded name with each value replaced by the rank of its string among
    the distinct strings of the column; the target it returns is the
    target column of the input, or nothing when there is none. *)
Theorem prepare_features_values (df : DataFrame cell) :
  NoDup (columns df) → well_formed df → (0 < nrows df)%nat →
  ∃ X y enc,
    TrainingScript.prepare_features df None true = ok (X, y, enc)
    ∧ nrows X = nrows df
    ∧ y = getitem_values df TrainingScript.TARGET
    ∧ (∀ c values,
         c ∈ TrainingScript.BOOLEAN_FEATURES ++ TrainingScript.NUMERIC_FEATURES →
         getitem_values df c = Some values →
         getitem_values X c = Some values)
    ∧ (∀ c values,
         c ∈ TrainingScript.CATEGORICAL_FEATURES →
         getitem_values df c = Some values →
         getitem_values X (encoded c)
         = Some ((fun v => CFloat (inject_Z (Spec.rank (py_str <$> values) (py_str v))))
                   <$> values)).
Proof.
  intros Hnd Hwf Hn.
  pose proof (prepare_features_fit_eq df Hnd Hn) as Hfit. cbv zeta in Hfit.
  set (enc := {| categories_ := _ |}) in Hfit.
  set (X := assembled _ _ _ _ _) in Hfit.
  assert (NoDup (columns X)) as HndX.
  { unfold X. rewrite assembled_columns; [apply assembled_NoDup|done|].
    apply length_codes_of; [done|]. unfold enc. cbn [categories_].
    by rewrite length_fmap, length_categorical. }
  exists X, (getitem_values df TrainingScript.TARGET), enc.
  split; [by rewrite <-getitem_values_absent|].
  split; [apply assembled_nrows|]. split; [done|]. split.
  - intros c values Hc Hval. apply getitem_values_NoDup; [done|].
    apply assembled_plain; [done..|]. by apply getitem_values_elem.
  - intros c values Hc Hval. apply getitem_values_elem in Hval.
    assert (c ∈ available df TrainingScript.CATEGORICAL_FEATURES) as Hav.
    { apply list_elem_of_filter. split; [|done].
      by apply (list_elem_of_fmap_2 fst) in Hval. }
    apply list_elem_of_lookup in Hav as [i Hi].
    apply getitem_values_NoDup; [done|].
    replace (_ <$> values)
      with ((fun v => CFloat (inject_Z (encode_value (unknown_value enc)
                                          (unique (py_str <$> values)) (py_str v))))
              <$> values).
    + apply (assembled_encoded df _ _ _ enc i); [done..| |done].
      by apply (fitted_categories df _ i c).
    + apply list_fmap_ext. intros _ v Hv%list_elem_of_lookup_2.
      cbn. rewrite encode_unique. rewrite decide_True; [done|].
      by apply list_elem_of_fmap_2.
Qed.
End Fitted.

Lemma prepare_features_values_witness :
  ∃ X y enc,
    TrainingScript.prepare_features (platform := Sample.platform) Sample.labelled_frame
      None true = ok (X, y, enc)
    ∧ y = Some [CFloat 10; CFloat 90]
    ∧ getitem_values X "IP_API_LATITUDE" = Some [CFloat (1 # 2); CFloat 0]
    ∧ getitem_values X "IP_API_COUNTRY_CODE_ENCODED" = Some [CFloat 1; CFloat 0].
Proof.
  destruct (prepare_features_values (platform := Sample.platform) Sample.labelled_frame)
    as (X & y & enc & Hok & _ & Hy & Hplain & Hcodes).
  - by_computation.
  - by_computation.
  - cbn. lia.
  - exists X, y, enc. split; [exact Hok|]. split; [exact Hy|]. split.
    + apply Hplain; [by_computation|reflexivity].
    + apply (Hcodes "IP_API_COUNTRY_CODE" [CStr "US"; CStr "CA"]);
        [by_computation|reflexivity].
Defined.

(** ** Validation and serving use the codes of training *)

Section Applied.
Context {platform : Platform}.

(** X5: when the validation frame has the categorical columns of the
    training frame, [prepare_features] applied to it with the encoder
    fitted on the training frame succeeds, returns that encoder, and
    gives each categorical value the code it has in training: the rank
    of its string among the distinct strings of the training column, or
    -1 when the string does not occur there. *)
Theorem validation_codes_follow_training (train val : DataFrame cell) :
  NoDup (columns train) → well_formed train → (0 < nrows train)%nat →
  NoDup (columns val) → well_formed val → (0 < nrows val)%nat →
  available val TrainingScript.CATEGORICAL_FEATURES
  = available train TrainingScript.CATEGORICAL_FEATURES →
  ∃ X y enc X_val y_val,
    TrainingScript.prepare_features train None true = ok (X, y, enc)
    ∧ TrainingScript.prepare_features val (Some enc) false = ok (X_val, y_val, enc)
    ∧ ∀ c seen values,
        c ∈ TrainingScript.CATEGORICAL_FEATURES →
        getitem_values train c = Some seen →
        getitem_values val c = Some values →
        getitem_values X_val (encoded c)
        = Some ((fun v => CFloat (inject_Z
                            (if decide (py_str v ∈ py_str <$> seen)
                             then Spec.rank (py_str <$> seen) (py_str v) else -1)))
                  <$> values).
Proof.
  intros Hnd Hwf Hn Hnd' Hwf' Hn' Hsame.
  pose proof (prepare_features_fit_eq train Hnd Hn) as Hfit. cbv zeta in Hfit.
  set (enc := {| categories_ := _ |}) in Hfit.
  assert (length (categories_ enc)
          = length (available val TrainingScript.CATEGORICAL_FEATURES)) as Hlen.
  { unfold enc. cbn [categories_]. by rewrite length_fmap, length_categorical, Hsame. }
  pose proof (prepare_features_apply_eq val enc Hnd' Hn' (eq_sym Hsame) Hlen) as Happly.
  eexists _, _, enc, _, _. split; [exact Hfit|]. split; [exact Happly|].
  intros c seen values Hc Hseen Hval.
  apply getitem_values_elem in Hseen, Hval.
  assert (c ∈ available val TrainingScript.CATEGORICAL_FEATURES) as Hav.
  { apply list_elem_of_filter. split; [|done]. by apply (list_elem_of_fmap_2 fst) in Hval. }
  apply list_elem_of_lookup in Hav as [i Hi].
  assert (categories_ enc !! i = Some (unique (py_str <$> seen))) as Hcats.
  { apply (fitted_categories train _ i c); [done| |done]. by rewrite <-Hsame. }
  apply getitem_values_NoDup.
  { rewrite assembled_columns; [apply assembled_NoDup|done|]. by apply length_codes_of. }
  replace (_ <$> values)
    with ((fun v => CFloat (inject_Z (encode_value (unknown_value enc)
                                        (unique (py_str <$> seen)) (py_str v))))
            <$> values).
  { by apply (assembled_encoded val _ _ _ enc i). }
  apply list_fmap_ext. intros _ v _. cbn. by rewrite encode_unique.
Qed.
End Applied.

Lemma validation_codes_follow_training_witness :
  ∃ X y enc X_val y_val,
    TrainingScript.prepare_features (platform := Sample.platform) Sample.fit_frame
      None true = ok (X, y, enc)
    ∧ TrainingScript.prepare_features (platform := Sample.platform) Sample.apply_frame
        (Some enc) false = ok (X_val, y_val, enc)
    ∧ getitem_values X_val "IP_API_COUNTRY_CODE_ENCODED"
      = Some [CFloat 1; CFloat 0; CFloat (-1)].
Proof.
  destruct (validation_codes_follow_training (platform := Sample.platform)
              Sample.fit_frame Sample.apply_frame)
    as (X & y & enc & X_val & y_val & Hfit & Happly & Hcodes).
  - by_computation.
  - by_computation.
  - cbn. lia.
  - by_computation.
  - by_computation.
  - cbn. lia.
  - reflexivity.
  - exists X, y, enc, X_val, y_val. split; [exact Hfit|]. split; [exact Happly|].
    apply (Hcodes "IP_API_COUNTRY_CODE" [CStr "US"; CStr "CA"; CStr "US"]
             [CStr "US"; CStr "CA"; CStr "MX"]); [by_computation|reflexivity..].
Defined.

(** ** What the predictor hands to the booster *)

Section PredictorValues.
Context {platform : Platform}.

(** X9: when [predict_fn] assembles its frame from an input of distinct
    labels with one value per row in every column, the frame has the
    rows of the input; under every persisted name of a boolean or
    numeric column it holds the values of the input unchanged; and under
    the persisted encoded name of the i-th categorical column the input
    has, it holds for each value the code the loaded encoder gives its
    string under its i-th categories: the position of the string among
    them, or the code of an unknown value. *)
Theorem predict_fn_features_values (g : Inference.globals) (input_data X : DataFrame cell) :
  Inference.predict_fn_features g input_data = ok X →
  NoDup (columns input_data) → well_formed input_data →
  ∃ enc names,
    Inference.encoder g = Some enc
    ∧ Inference.feature_names g = Some names
    ∧ nrows X = nrows input_data
    ∧ (∀ c values,
         c ∈ Inference.BOOLEAN_FEATURES ++ Inference.NUMERIC_FEATURES → c ∈ names →
         getitem_values input_data c = Some values →
         getitem_values X c = Some values)
    ∧ (∀ (i : nat) c values,
         available input_data Inference.CATEGORICAL_FEATURES !! i = Some c →
         encoded c ∈ names →
         getitem_values input_data c = Some values →
         ∃ categories,
           categories_ enc !! i = Some categories
           ∧ getitem_values X (encoded c)
             = Some ((fun v => CFloat (inject_Z
                                 (encode_value (unknown_value enc) categories (py_str v))))
                       <$> values)).
Proof.
  intros HX Hnd Hwf.
  apply predict_fn_features_codes in HX as (enc & names & Henc & Hnames & Hlen & HX).
  rewrite length_categorical in Hlen by done.
  set (X0 := assembled _ _ _ _ _) in HX.
  assert (NoDup (columns X0)) as HndX.
  { unfold X0. rewrite assembled_columns; [apply assembled_NoDup|done|].
    by apply length_codes_of. }
  exists enc, names. do 2 (split; [done|]). split; [|split].
  - rewrite (getitem_list_nrows _ _ _ HX). apply assembled_nrows.
  - intros c values Hc Hf Hval.
    apply (getitem_list_values X0 X names); [done..|].
    apply assembled_plain; [done..|]. by apply getitem_values_elem.
  - intros i c values Hi Hf Hval. apply getitem_values_elem in Hval.
    destruct (lookup_lt_is_Some_2 (categories_ enc) i) as [categories Hcats].
    { rewrite <-Hlen. by eapply lookup_lt_Some. }
    exists categories. split; [done|].
    apply (getitem_list_values X0 X names); [done..|].
    by apply (assembled_encoded input_data _ _ _ enc i).
Qed.
End PredictorValues.

Lemma predict_fn_features_values_witness :
  ∃ X,
    Inference.predict_fn_features (platform := Sample.platform) Sample.loaded
      Sample.request_frame = ok X
    ∧ nrows X = 1%nat
    ∧ getitem_values X "IP_API_HOSTING" = Some [CInt 1].
Proof.
  destruct (result_ok_inv (Inference.predict_fn_features (platform := Sample.platform)
                             Sample.loaded Sample.request_frame)) as [X HX].
  { vm_compute. reflexivity. }
  destruct (predict_fn_features_values (platform := Sample.platform) Sample.loaded
              Sample.request_frame X HX)
    as (enc & names & _ & Hnames & Hrows & Hplain & _).
  - by_computation.
  - by_computation.
  - exists X. split; [exact HX|]. split; [exact Hrows|].
    injection Hnames as <-. apply Hplain; [by_computation|by_computation|reflexivity].
Defined.

(** ** The predictor reads the columns of the contract only *)


Section Ignored.
Context {platform : Platform}.

(** X10: [predict_fn] reads nothing but the columns of the contract:
    two inputs of as many rows that carry the same columns under every
    name of the contract get the same answer, whatever other columns
    they have and whatever the order of their columns. *)
Theorem predict_fn_reads_contract_columns_only (g : Inference.globals)
    (input_data input_data' : DataFrame cell) (model : Booster) :
  nrows input_data' = nrows input_data →
  (∀ c, c ∈ Inference.ALL_RAW_FEATURES →
        filter (fun col : string * list cell => col.1 = c) (cols input_data')
        = filter (fun col : string * list cell => col.1 = c) (cols input_data)) →
  Inference.predict_fn g input_data' model = Inference.predict_fn g input_data model.
Proof.
  intros Hrows Hsame.
  assert (∀ features, features ⊆ Inference.ALL_RAW_FEATURES →
            available input_data' features = available input_data features
            ∧ (c ← available input_data features;
               filter (fun col : string * list cell => col.1 = c) (cols input_data'))
              = (c ← available input_data features;
                 filter (fun col : string * list cell => col.1 = c) (cols input_data)))
    as Hpart.
  { intros features Hsub. split.
    - apply same_labelled_available. intros c Hc. by apply Hsame, Hsub.
    - apply (same_labelled_select _ _ Inference.ALL_RAW_FEATURES); [done|].
      intros c [_ ?]%list_elem_of_filter. by apply Hsub. }
  destruct (Hpart Inference.BOOLEAN_FEATURES) as [Hb Hb'].
  { intros c Hc. unfold Inference.ALL_RAW_FEATURES. rewrite !elem_of_app. auto. }
  destruct (Hpart Inference.CATEGORICAL_FEATURES) as [Hc Hc'].
  { intros c ?. unfold Inference.ALL_RAW_FEATURES. rewrite !elem_of_app. auto. }
  destruct (Hpart Inference.NUMERIC_FEATURES) as [Hm Hm'].
  { intros c ?. unfold Inference.ALL_RAW_FEATURES. rewrite !elem_of_app. auto. }
  unfold Inference.predict_fn. f_equal.
  unfold Inference.predict_fn_features.
  rewrite !getitem_list_available.
  fold (available input_data' Inference.BOOLEAN_FEATURES).
  fold (available input_data' Inference.CATEGORICAL_FEATURES).
  fold (available input_data' Inference.NUMERIC_FEATURES).
  fold (available input_data Inference.BOOLEAN_FEATURES).
  fold (available input_data Inference.CATEGORICAL_FEATURES).
  fold (available input_data Inference.NUMERIC_FEATURES).
  by rewrite Hb, Hc, Hm, Hb', Hc', Hm', Hrows.
Qed.
End Ignored.

Lemma predict_fn_reads_contract_columns_only_witness :
  Inference.predict_fn (platform := Sample.platform) Sample.loaded Sample.labelled_frame
    Sample.booster
  = Inference.predict_fn (platform := Sample.platform) Sample.loaded Sample.bare_frame
      Sample.booster.
Proof.
  apply (predict_fn_reads_contract_columns_only (platform := Sample.platform)).
  - reflexivity.
  - apply (proj1 (Forall_forall _ _)). by_computation.
Defined.

(** ** From the training run to the served codes *)

Lemma filter_length_mono {A : Type} (P Q : A → Prop) `{!∀ x, Decision (P x)}
    `{!∀ x, Decision (Q x)} (l : list A) :
  (∀ x, x ∈ l → P x → Q x) → (length (filter P l) ≤ length (filter Q l))%nat.
Proof.
  induction l as [|x l IH]; intros Himp; [done|].
  assert (length (filter P l) ≤ length (filter Q l))%nat as Hle.
  { apply IH. intros y Hy. apply Himp. by right. }
  rewrite !filter_cons.
  destruct (decide (P x)) as [HP|HP], (decide (Q x)) as [HQ|HQ]; cbn; try lia.
  destruct HQ. apply Himp; [by left|done].
Qed.

Lemma filter_subset_same_length {A : Type} (P Q : A → Prop) `{!∀ x, Decision (P x)}
    `{!∀ x, Decision (Q x)} (l : list A) :
  (∀ x, x ∈ l → P x → Q x) → length (filter P l) = length (filter Q l) →
  filter P l = filter Q l.
Proof.
  induction l as [|x l IH]; intros Himp Hlen; [done|].
  assert (∀ y, y ∈ l → P y → Q y) as Himp' by (intros y Hy; apply Himp; by right).
  pose proof (filter_length_mono P Q l Himp') as Hle.
  rewrite !filter_cons in Hlen |- *.
  destruct (decide (P x)) as [HP|HP], (decide (Q x)) as [HQ|HQ]; cbn in Hlen.
  - f_equal. apply IH; [done|lia].
  - destruct HQ. apply Himp; [by left|done].
  - lia.
  - by apply IH.
Qed.

Section Served.
Context {platform : Platform}.

Lemma encoded_in_assembled (df : DataFrame cell) (c : string) :
  c ∈ Inference.CATEGORICAL_FEATURES →
  encoded c ∈ available df Inference.BOOLEAN_FEATURES
              ++ (encoded <$> available df Inference.CATEGORICAL_FEATURES)
              ++ available df Inference.NUMERIC_FEATURES →
  c ∈ columns df.
Proof.
  intros Hc Hin.
  apply (assembled_from_column df Categorical c); [|done].
  unfold declared, predictor. cbn [boolean categorical numeric].
  rewrite !elem_of_app. right; left. by apply (list_elem_of_fmap_2 (fun n => (n, Categorical))).
Qed.

(** X11: after a successful training run on a frame of distinct labels,
    [model_fn] loads the artifacts of the run, and whenever [predict_fn]
    then assembles its frame from an input of distinct labels with one
    value per row in every column, that frame has the rows of the input,
    keeps the values of every boolean and numeric column the training
    frame had, and gives each value of a categorical column the code it
    has in training: the rank of its string among the distinct strings
    of the training column, or -1 when the string does not occur
    there. *)
Theorem served_codes_follow_training
    (train_model : DataFrame cell → option (list cell) →
                   DataFrame cell → option (list cell) → result Booster)
    (metrics : Booster → string) (train_df val_df : DataFrame cell)
    (model_dir : string) (fs fs' : gmap string file) :
  TrainingScript.main train_model metrics train_df val_df model_dir fs = ok fs' →
  NoDup (columns train_df) → (0 < nrows train_df)%nat →
  ∃ g model,
    Inference.model_fn model_dir fs' = ok (g, model)
    ∧ ∀ input_data X,
        Inference.predict_fn_features g input_data = ok X →
        NoDup (columns input_data) → well_formed input_data →
        nrows X = nrows input_data
        ∧ (∀ c values,
             c ∈ Inference.BOOLEAN_FEATURES ++ Inference.NUMERIC_FEATURES →
             c ∈ columns train_df →
             getitem_values input_data c = Some values →
             getitem_values X c = Some values)
        ∧ (∀ c seen values,
             c ∈ Inference.CATEGORICAL_FEATURES →
             getitem_values train_df c = Some seen →
             getitem_values input_data c = Some values →
             getitem_values X (encoded c)
             = Some ((fun v => CFloat (inject_Z
                                 (if decide (py_str v ∈ py_str <$> seen)
                                  then Spec.rank (py_str <$> seen) (py_str v) else -1)))
                       <$> values)).
Proof.
  intros Hmain Hnd Hn.
  apply model_fn_main in Hmain as (X_train & y & enc & model & Hfit & Hload).
  pose proof (prepare_features_fit_eq train_df Hnd Hn) as Hfit'. cbv zeta in Hfit'.
  set (enc0 := {| categories_ := _ |}) in Hfit'.
  set (X0 := assembled _ _ _ _ _) in Hfit'.
  assert (X_train = X0 ∧ enc = enc0) as [-> ->].
  { rewrite Hfit' in Hfit. unfold ok in Hfit. by injection Hfit as -> _ ->. }
  clear Hfit.
  exists {| Inference.model := Some model; Inference.encoder := Some enc0;
            Inference.feature_names := Some (columns X0) |}, model.
  split; [done|]. clear Hload.
  assert (length (categories_ enc0)
          = length (available train_df Inference.CATEGORICAL_FEATURES)) as Hcats.
  { unfold enc0. cbn [categories_]. by rewrite length_fmap, length_categorical. }
  assert (columns X0
          = available train_df Inference.BOOLEAN_FEATURES
            ++ (encoded <$> available train_df Inference.CATEGORICAL_FEATURES)
            ++ available train_df Inference.NUMERIC_FEATURES) as Hnames.
  { unfold X0. apply assembled_columns; [done|]. by apply length_codes_of. }
  assert (∀ i c seen,
            available train_df Inference.CATEGORICAL_FEATURES !! i = Some c →
            (c, seen) ∈ cols train_df →
            categories_ enc0 !! i = Some (unique (py_str <$> seen))) as Hfitted.
  { intros i c seen Hi Hin. by apply (fitted_categories train_df _ i c). }
  assert (unknown_value enc0 = -1) as Hunknown by done.
  clearbody X0 enc0. clear Hfit'.
  rename X0 into X_train. rename enc0 into enc.
  intros input_data X HX Hnd' Hwf'.
  apply predict_fn_features_codes in HX as (enc' & names & [= <-] & [= <-] & Hlen & HX).
  rewrite length_categorical in Hlen by done.
  set (X0 := assembled _ _ _ _ _) in HX.
  assert (columns X0
          = available input_data Inference.BOOLEAN_FEATURES
            ++ (encoded <$> available input_data Inference.CATEGORICAL_FEATURES)
            ++ available input_data Inference.NUMERIC_FEATURES) as Hcols.
  { unfold X0. apply assembled_columns; [done|]. by apply length_codes_of. }
  assert (NoDup (columns X0)) as HndX by (rewrite Hcols; apply assembled_NoDup).
  pose proof (getitem_list_inv _ _ _ HX) as [Hall _].
  assert (available train_df Inference.CATEGORICAL_FEATURES
          = available input_data Inference.CATEGORICAL_FEATURES) as Hsame.
  { apply filter_subset_same_length; [|unfold available in *; lia].
    intros c Hc Hin. apply encoded_in_assembled; [done|].
    rewrite <-Hcols. apply Hall. rewrite Hnames, !elem_of_app. right; left.
    apply list_elem_of_fmap_2. by apply list_elem_of_filter. }
  split; [|split].
  - rewrite (getitem_list_nrows _ _ _ HX). apply assembled_nrows.
  - intros c values Hc Htrain Hval.
    apply (getitem_list_values X0 X (columns X_train)); [done..| |].
    + rewrite Hnames, !elem_of_app.
      apply elem_of_app in Hc as [Hc|Hc]; [left|right; right].
      all: by apply list_elem_of_filter.
    + apply assembled_plain; [done..|]. by apply getitem_values_elem.
  - intros c seen values Hc Hseen Hval.
    apply getitem_values_elem in Hseen, Hval.
    assert (c ∈ available train_df Inference.CATEGORICAL_FEATURES) as Hav.
    { apply list_elem_of_filter. split; [|done].
      by apply (list_elem_of_fmap_2 fst) in Hseen. }
    pose proof Hav as Hav'. apply list_elem_of_lookup in Hav' as [i Hi].
    assert (categories_ enc !! i = Some (unique (py_str <$> seen))) as Hcat.
    { by apply (Hfitted i c). }
    apply (getitem_list_values X0 X (columns X_train)); [done..| |].
    + rewrite Hnames, !elem_of_app. right; left. by apply list_elem_of_fmap_2.
    + replace (_ <$> values)
        with ((fun v => CFloat (inject_Z (encode_value (unknown_value enc)
                                            (unique (py_str <$> seen)) (py_str v))))
                <$> values).
      { apply (assembled_encoded input_data _ _ _ enc i); try done. by rewrite <-Hsame. }
      apply list_fmap_ext. intros _ v _. cbn. by rewrite Hunknown, encode_unique.
Qed.
End Served.

Lemma served_codes_follow_training_witness :
  ∃ fs' g model,
    TrainingScript.main (platform := Sample.platform) Sample.train_model Sample.metrics
      Sample.fit_frame Sample.apply_frame "/opt/ml/model" ∅ = ok fs'
    ∧ Inference.model_fn "/opt/ml/model" fs' = ok (g, model)
    ∧ ∀ X,
        Inference.predict_fn_features (platform := Sample.platform) g Sample.apply_frame
        = ok X →
        getitem_values X "IP_API_COUNTRY_CODE_ENCODED"
        = Some [CFloat 1; CFloat 0; CFloat (-1)].
Proof.
  destruct (result_ok_inv
              (TrainingScript.main (platform := Sample.platform) Sample.train_model
                 Sample.metrics Sample.fit_frame Sample.apply_frame "/opt/ml/model" ∅))
    as [fs' Hmain].
  { vm_compute. reflexivity. }
  destruct (served_codes_follow_training (platform := Sample.platform) Sample.train_model
              Sample.metrics Sample.fit_frame Sample.apply_frame "/opt/ml/model" ∅ fs'
              Hmain)
    as (g & model & Hload & Hserved).
  - by_computation.
  - cbn. lia.
  - exists fs', g, model. split; [exact Hmain|]. split; [exact Hload|].
    intros X HX.
    destruct (Hserved Sample.apply_frame X HX) as (_ & _ & Hcodes).
    + by_computation.
    + by_computation.
    + apply (Hcodes "IP_API_COUNTRY_CODE" [CStr "US"; CStr "CA"; CStr "US"]
               [CStr "US"; CStr "CA"; CStr "MX"]); [by_computation|reflexivity..].
Defined.

(** ** The target and the empty frame *)

Lemma target_is_no_feature :
  TrainingScript.TARGET
  ∉ TrainingScript.BOOLEAN_FEATURES
    ++ (encoded <$> TrainingScript.CATEGORICAL_FEATURES)
    ++ TrainingScript.NUMERIC_FEATURES.
Proof. by_computation. Qed.

Section Leak.
Context {platform : Platform}.

(** Whatever the mode, the labels of the frame [prepare_features]
    returns are feature names of columns the input has. *)
Lemma prepare_features_labels (df X : DataFrame cell) (encoder : option OrdinalEncoder)
    (fit : bool) (y : option (list cell)) (enc : OrdinalEncoder) (f : string) :
  TrainingScript.prepare_features df encoder fit = ok (X, y, enc) →
  f ∈ columns X →
  f ∈ available df TrainingScript.BOOLEAN_FEATURES
      ++ (encoded <$> available df TrainingScript.CATEGORICAL_FEATURES)
      ++ available df TrainingScript.NUMERIC_FEATURES.
Proof.
  unfold TrainingScript.prepare_features.
  rewrite !getitem_list_available. cbn [mbind result_bind ok].
  fold (available df TrainingScript.BOOLEAN_FEATURES).
  fold (available df TrainingScript.CATEGORICAL_FEATURES).
  fold (available df TrainingScript.NUMERIC_FEATURES).
  match goal with |- (?m ≫= _) = _ → _ => destruct m as [|[e codes]] end;
    [done|].
  cbn [mbind result_bind fst snd].
  unfold DataFrame_of_array.
  destruct (decide (length _ = length _)) as [Hlen|]; [|done]. cbn [mbind result_bind ok].
  intros [= <- _ _]. rewrite columns_concat_axis1. unfold reset_index.
  rewrite !elem_of_app. intros [Hf|[Hf|Hf]].
  - left. by eapply columns_select_subset.
  - right; left. unfold columns in Hf. cbn [cols] in Hf.
    rewrite fst_zip in Hf; [done|]. apply Nat.eq_le_incl, Hlen.
  - right; right. by eapply columns_select_subset.
Qed.

(** X6: whatever the mode, the frame [prepare_features] returns never
    carries the target: each of its labels is the feature name of a
    column of the contract that the input has; the target is returned
    apart, as the target column of the input. *)
Theorem prepare_features_keeps_target_out (df X : DataFrame cell)
    (encoder : option OrdinalEncoder) (fit : bool) (y : option (list cell))
    (enc : OrdinalEncoder) :
  TrainingScript.prepare_features df encoder fit = ok (X, y, enc) →
  (TrainingScript.TARGET ∉ columns X)
  ∧ (∀ f, f ∈ columns X →
          ∃ c ty, (c, ty) ∈ declared trainer ∧ f = feature_name ty c ∧ c ∈ columns df)
  ∧ y = getitem_values df TrainingScript.TARGET.
Proof.
  intros HX. split; [|split].
  - intros Hin. apply (prepare_features_labels _ _ _ _ _ _ _ HX) in Hin.
    apply target_is_no_feature.
    rewrite !elem_of_app in Hin |- *.
    destruct Hin as [Hin|[Hin|Hin]]; [left|right; left|right; right].
    + by apply list_elem_of_filter in Hin as [_ ?].
    + apply list_elem_of_fmap in Hin as (c & -> & [_ ?]%list_elem_of_filter).
      by apply list_elem_of_fmap_2.
    + by apply list_elem_of_filter in Hin as [_ ?].
  - intros f Hin. apply (prepare_features_labels _ _ _ _ _ _ _ HX) in Hin.
    unfold declared, trainer. cbn [boolean categorical numeric].
    rewrite !elem_of_app in Hin.
    destruct Hin as [Hin|[Hin|Hin]].
    + apply list_elem_of_filter in Hin as [? ?]. exists f, Boolean.
      rewrite !elem_of_app. split; [left; by apply (list_elem_of_fmap_2 (fun n => (n, Boolean)))|done].
    + apply list_elem_of_fmap in Hin as (c & -> & [? ?]%list_elem_of_filter).
      exists c, Categorical. rewrite !elem_of_app.
      split; [right; left; by apply (list_elem_of_fmap_2 (fun n => (n, Categorical)))|done].
    + apply list_elem_of_filter in Hin as [? ?]. exists f, Numeric.
      rewrite !elem_of_app.
      split; [right; right; by apply (list_elem_of_fmap_2 (fun n => (n, Numeric)))|done].
  - revert HX. unfold TrainingScript.prepare_features.
    rewrite !getitem_list_available. cbn [mbind result_bind ok].
    match goal with |- (?m ≫= _) = _ → _ => destruct m as [|[e codes]] end;
      [done|].
    cbn [mbind result_bind fst snd].
    unfold DataFrame_of_array.
    destruct (decide (length _ = length _)) as [Hlen|]; [|done]. cbn [mbind result_bind ok].
    intros [= _ <- _]. case_decide as Ht; [done|]. unfold getitem_values.
    destruct (list_find _ (cols df)) as [[i [k x]]|] eqn:E; [|done].
    apply list_find_Some in E as (Hi & Hk & _). cbn in Hk. subst k.
    destruct Ht. apply (list_elem_of_fmap_2 fst (cols df) (TrainingScript.TARGET, x)).
    by eapply list_elem_of_lookup_2.
Qed.
End Leak.

Lemma prepare_features_keeps_target_out_witness :
  ∃ X y enc,
    TrainingScript.prepare_features (platform := Sample.platform) Sample.labelled_frame
      None true = ok (X, y, enc)
    ∧ TrainingScript.TARGET ∉ columns X.
Proof.
  destruct (result_ok_inv
              (TrainingScript.prepare_features (platform := Sample.platform)
                 Sample.labelled_frame None true)) as [[[X y] enc] HX].
  { vm_compute. reflexivity. }
  exists X, y, enc. split; [exact HX|].
  exact (proj1 (prepare_features_keeps_target_out (platform := Sample.platform)
                  Sample.labelled_frame X None true y enc HX)).
Defined.

Section Empty.
Context {platform : Platform}.

Lemma selected_nonempty {A : Type} (df : DataFrame A) (features : list string) (c : string) :
  c ∈ features → c ∈ columns df →
  (c ← available df features; filter (fun col : string * list A => col.1 = c) (cols df)) ≠ [].
Proof.
  intros Hc Hcol E.
  apply (proj1 (elem_of_columns_labelled df c) Hcol).
  destruct (filter _ (cols df)) as [|col l] eqn:Hf; [done|].
  assert (col ∈ (c ← available df features;
                 filter (fun col : string * list A => col.1 = c) (cols df))) as Hin.
  { apply list_elem_of_bind. exists c. split; [rewrite Hf; by left|].
    by apply list_elem_of_filter. }
  rewrite E in Hin. by apply elem_of_nil in Hin.
Qed.

Lemma check_X_empty (X : DataFrame string) :
  cols X ≠ [] → nrows X = 0%nat →
  check_X X = raise (ValueError "Found array with 0 sample(s) while a minimum of 1 is required").
Proof. intros Hc Hn. unfold check_X. by rewrite decide_True. Qed.

Lemma transform_rejects_empty (enc : OrdinalEncoder) (X : DataFrame string) :
  cols X ≠ [] → nrows X = 0%nat → raises (transform enc X).
Proof.
  intros Hc Hn. unfold transform. case_decide; [done|]. case_decide; [done|].
  by rewrite check_X_empty.
Qed.

(** X7: a frame with no row that has a categorical column of the
    contract is refused everywhere: [prepare_features] raises in fit
    mode and with any encoder, and [predict_fn] raises and returns no
    score, whatever the artifacts it has loaded. *)
Theorem empty_frames_are_rejected (df : DataFrame cell) (c : string) :
  nrows df = 0%nat → c ∈ TrainingScript.CATEGORICAL_FEATURES → c ∈ columns df →
  raises (TrainingScript.prepare_features df None true)
  ∧ (∀ enc, raises (TrainingScript.prepare_features df (Some enc) false))
  ∧ (∀ g model, raises (Inference.predict_fn g df model)).
Proof.
  intros Hn Hc Hcol.
  pose proof (selected_nonempty df _ c Hc Hcol) as Hsel.
  set (categorical :=
         astype_str
           {| nrows := nrows df;
              cols := c ← available df TrainingScript.CATEGORICAL_FEATURES;
                      filter (fun col : string * list cell => col.1 = c) (cols df) |}).
  assert (cols categorical ≠ []) as Hcols.
  { unfold categorical, astype_str. cbn [cols]. intros E. by apply fmap_nil_inv in E. }
  split; [|split].
  - unfold TrainingScript.prepare_features.
    rewrite !getitem_list_available. cbn [mbind result_bind ok].
    fold (available df TrainingScript.CATEGORICAL_FEATURES). fold categorical.
    unfold fit_transform, fit. by rewrite check_X_empty.
  - intros enc. unfold TrainingScript.prepare_features.
    rewrite !getitem_list_available. cbn [mbind result_bind ok].
    fold (available df TrainingScript.CATEGORICAL_FEATURES). fold categorical.
    pose proof (transform_rejects_empty enc categorical Hcols Hn) as Hraises.
    by destruct (transform enc categorical).
  - intros g model. unfold Inference.predict_fn, Inference.predict_fn_features.
    destruct (Inference.encoder g) as [enc|]; [|done]. cbn [mbind result_bind ok].
    rewrite !getitem_list_available. cbn [mbind result_bind ok].
    change (astype_str _) with categorical.
    pose proof (transform_rejects_empty enc categorical Hcols Hn) as Hraises.
    by destruct (transform enc categorical).
Qed.
End Empty.

Lemma empty_frames_are_rejected_witness :
  raises (TrainingScript.prepare_features (platform := Sample.platform) Sample.empty_frame
            None true)
  ∧ raises (Inference.predict_fn (platform := Sample.platform) Sample.loaded
              Sample.empty_frame Sample.booster).
Proof.
  assert ("IP_API_CITY" ∈ TrainingScript.CATEGORICAL_FEATURES) as Hc by by_computation.
  assert ("IP_API_CITY" ∈ columns Sample.empty_frame) as Hcol by by_computation.
  destruct (empty_frames_are_rejected (platform := Sample.platform) Sample.empty_frame
              "IP_API_CITY" eq_refl Hc Hcol) as (Hfit & _ & Hpredict).
  split; [exact Hfit|]. apply Hpredict.
Defined.

(** ** The artifacts of a training run, and the lines of a response *)

Section Artifacts.
Context {platform : Platform}.

Lemma prepare_features_apply_encoder (df X : DataFrame cell) (enc enc' : OrdinalEncoder)
    (y : option (list cell)) :
  TrainingScript.prepare_features df (Some enc) false = ok (X, y, enc') → enc' = enc.
Proof.
  unfold TrainingScript.prepare_features.
  rewrite !getitem_list_available. cbn [mbind result_bind ok].
  destruct (transform enc _); cbn [mbind result_bind ok fst snd]; [done|].
  destruct (DataFrame_of_array _ _ _); cbn [mbind result_bind ok]; [done|].
  by intros [= _ _ <-].
Qed.

(** X8: a training run that succeeds has prepared the training frame
    in fit mode and the validation frame with the fitted encoder, and
    has written four files: afterwards [model_fn] loads, from the model
    directory, the booster the trainer returned, the encoder fitted on
    the training frame and the labels of the training features; the
    metrics are under metrics.json; every other path holds what it held
    before. *)
Theorem training_run_artifacts
    (train_model : DataFrame cell → option (list cell) →
                   DataFrame cell → option (list cell) → result Booster)
    (metrics : Booster → string) (train_df val_df : DataFrame cell)
    (model_dir : string) (fs fs' : gmap string file) :
  TrainingScript.main train_model metrics train_df val_df model_dir fs = ok fs' →
  ∃ X y enc X_val y_val model,
    TrainingScript.prepare_features train_df None true = ok (X, y, enc)
    ∧ TrainingScript.prepare_features val_df (Some enc) false = ok (X_val, y_val, enc)
    ∧ train_model X y X_val y_val = ok model
    ∧ Inference.model_fn model_dir fs'
      = ok ({| Inference.model := Some model; Inference.encoder := Some enc;
               Inference.feature_names := Some (columns X) |}, model)
    ∧ fs' !! os_path_join model_dir "metrics.json" = Some (FOther (metrics model))
    ∧ ∀ path,
        path ∉ (os_path_join model_dir
                  <$> ["xgboost-model"; "encoder.pkl"; "feature_names.json"; "metrics.json"]) →
        fs' !! path = fs !! path.
Proof.
  unfold TrainingScript.main.
  destruct (TrainingScript.prepare_features train_df None true)
    as [|[[X y] enc]]; [done|].
  cbn [mbind result_bind fst snd].
  destruct (TrainingScript.prepare_features val_df (Some enc) false)
    as [|[[X_val y_val] enc']] eqn:Hval; [done|].
  cbn [mbind result_bind fst snd].
  destruct (train_model X y X_val y_val) as [|model] eqn:Htrain; [done|].
  cbn [mbind result_bind ok]. intros [= <-].
  pose proof (prepare_features_apply_encoder _ _ _ _ _ Hval) as ->.
  exists X, y, enc, X_val, y_val, model. do 3 (split; [done|]).
  split; [|split].
  - rewrite <-(model_fn_save_model model enc (columns X) model_dir fs).
    unfold Inference.model_fn.
    by rewrite !(lookup_insert_ne _ (os_path_join model_dir "metrics.json"))
      by distinct_paths.
  - by rewrite lookup_insert_eq.
  - intros path Hpath. rewrite !fmap_cons, !not_elem_of_cons in Hpath.
    destruct Hpath as (H1 & H2 & H3 & H4 & _).
    rewrite lookup_insert_ne by done. unfold TrainingScript.save_model.
    by rewrite !lookup_insert_ne by done.
Qed.
End Artifacts.

Lemma training_run_artifacts_witness :
  ∃ fs' g,
    TrainingScript.main (platform := Sample.platform) Sample.train_model Sample.metrics
      Sample.fit_frame Sample.apply_frame "/opt/ml/model" ∅ = ok fs'
    ∧ Inference.model_fn "/opt/ml/model" fs' = ok (g, Sample.booster)
    ∧ fs' !! "/opt/ml/model/metrics.json" = Some (FOther "{}")
    ∧ fs' !! "/opt/ml/model/model.tar.gz" = None.
Proof.
  destruct (result_ok_inv
              (TrainingScript.main (platform := Sample.platform) Sample.train_model
                 Sample.metrics Sample.fit_frame Sample.apply_frame "/opt/ml/model" ∅))
    as [fs' Hmain].
  { vm_compute. reflexivity. }
  destruct (training_run_artifacts (platform := Sample.platform) Sample.train_model
              Sample.metrics Sample.fit_frame Sample.apply_frame "/opt/ml/model" ∅ fs'
              Hmain)
    as (X & y & enc & X_val & y_val & model & _ & _ & Htrain & Hload & Hmetrics & Hrest).
  injection Htrain as <-.
  eexists fs', _. split; [exact Hmain|]. split; [exact Hload|]. split.
  - exact Hmetrics.
  - rewrite Hrest; [reflexivity|]. by_computation.
Defined.

Lemma split_on_app (sep : ascii) (line rest : string) :
  has_char sep line = false →
  split_on sep (line +:+ String sep rest) = line :: split_on sep rest.
Proof.
  induction line as [|a line IH]; intros Hline.
  - change ("" +:+ String sep rest) with (String sep rest).
    cbn [split_on]. by rewrite decide_True.
  - cbn in Hline. apply orb_false_iff in Hline as [Ha Hline].
    apply bool_decide_eq_false in Ha.
    change (String a line +:+ String sep rest) with (String a (line +:+ String sep rest)).
    cbn [split_on]. rewrite decide_False by done. by rewrite IH.
Qed.

Lemma split_on_line (sep : ascii) (line : string) :
  has_char sep line = false → split_on sep line = [line].
Proof.
  induction line as [|a line IH]; intros Hline; [done|].
  cbn in Hline. apply orb_false_iff in Hline as [Ha Hline].
  apply bool_decide_eq_false in Ha.
  cbn [split_on]. rewrite decide_False by done. by rewrite IH.
Qed.

Lemma split_on_concat (sep : ascii) (lines : list string) :
  lines ≠ [] → Forall (fun line => has_char sep line = false) lines →
  split_on sep (String.concat (String sep EmptyString) lines) = lines.
Proof.
  intros Hne Hall. induction Hall as [|line lines Hline Hall IH]; [done|].
  destruct lines as [|line' lines].
  - cbn. by apply split_on_line.
  - change (String.concat (String sep "") (line :: line' :: lines))
      with (line +:+ String sep (String.concat (String sep "") (line' :: lines))).
    rewrite split_on_app by done. f_equal. by apply IH.
Qed.

Section Lines.
Context {platform : Platform}.

(** X12: for the accept types text/csv and */*, [output_fn] writes one
    line per score: when there is a score at least and no printed score
    holds a line feed, splitting the body at the line feeds gives back
    the printed scores, one for each prediction and in their order. *)
Theorem output_fn_one_line_per_score (prediction : list Q) (accept : string) :
  accept = "text/csv" ∨ accept = "*/*" →
  prediction ≠ [] →
  Forall (fun score => has_char "010" (np_str_float32 score) = false) prediction →
  ∃ body,
    Inference.output_fn prediction accept = ok body
    ∧ split_on "010" body = np_str_float32 <$> prediction
    ∧ length (split_on "010" body) = length prediction.
Proof.
  intros Haccept Hne Hall. unfold Inference.output_fn. rewrite decide_True by done.
  eexists. split; [reflexivity|].
  assert (split_on "010" (String.concat newline (np_str_float32 <$> prediction))
          = np_str_float32 <$> prediction) as Hsplit.
  { apply split_on_concat.
    - by destruct prediction.
    - by apply Forall_fmap. }
  split; [done|]. by rewrite Hsplit, length_fmap.
Qed.
End Lines.

Lemma output_fn_one_line_per_score_witness :
  ∃ body,
    Inference.output_fn (platform := Sample.platform) [1 # 2; 7 # 2]%Q "text/csv" = ok body
    ∧ split_on "010" body = ["0"; "3"].
Proof.
  destruct (output_fn_one_line_per_score (platform := Sample.platform) [1 # 2; 7 # 2]%Q
              "text/csv") as (body & Hbody & Hlines & _).
  - by left.
  - done.
  - by_computation.
  - exists body. split; [exact Hbody|]. exact Hlines.
Defined.

(** ** The rows the extractors write *)

Lemma eligible_iff_witness :
  Sql.keeps (platform := Sample.platform)
    {| Sql.e_row := Sample.scenario_row; Sql.e_draw := fun _ => 0; Sql.e_today := 100 |}
    (Sql.cte_where
       (ExtractTrainingData.build_preprocessing_sql "SOURCE" 30
          ExtractTrainingData.default_test_size ExtractTrainingData.default_random_seed))
  = Some true.
Proof.
  destruct (eligible_iff (platform := Sample.platform)
              {| Sql.e_row := Sample.scenario_row; Sql.e_draw := fun _ => 0;
                 Sql.e_today := 100 |}
              "SOURCE" 30 ExtractTrainingData.default_test_size
              ExtractTrainingData.default_random_seed (Sql.VNum 10) 100%Q)
    as (kept & Hkept & Hiff).
  - reflexivity.
  - reflexivity.
  - rewrite Hkept. f_equal. apply Hiff. split; [discriminate|].
    unfold Qle. cbn. lia.
Defined.

Lemma main_partitions_witness :
  ∃ out,
    ExtractTrainingData.main (platform := Sample.platform)
      (fun _ => Sample.warehouse 100) "SOURCE" 30 = Some out
    ∧ (length (ExtractTrainingData.train out) + length (ExtractTrainingData.test out)
       = 2)%nat
    ∧ (ExtractTrainingData.train_count out + ExtractTrainingData.test_count out
       = ExtractTrainingData.total_count out)%nat.
Proof.
  assert (is_Some (ExtractTrainingData.main (platform := Sample.platform)
                     (fun _ => Sample.warehouse 100) "SOURCE" 30)) as [out Hout]
    by by_computation.
  destruct (main_partitions (platform := Sample.platform)
              (fun _ => Sample.warehouse 100) "SOURCE" 30 out Hout)
    as (d0 & d1 & d2 & d3 & d4 & Hd0 & Hd1 & Hd2 & Hd3 & Hd4 & _ & _ & _ & _ & _
        & Hfiles & Hcounts & _).
  assert (d1 = d0) as -> by (apply (inj Some); by rewrite <-Hd0, <-Hd1).
  assert (d2 = d0) as -> by (apply (inj Some); by rewrite <-Hd0, <-Hd2).
  assert (d4 = d3) as -> by (apply (inj Some); by rewrite <-Hd3, <-Hd4).
  assert (length d3 = 2%nat) as Hlen.
  { apply (inj Some). transitivity (length <$> Some d3); [done|]. rewrite <-Hd3.
    vm_compute. reflexivity. }
  exists out. split; [exact Hout|]. split.
  - rewrite <-Hlen. exact (proj2 (Hfiles (reflexivity _))).
  - exact (Hcounts (reflexivity _) (reflexivity _)).
Defined.

(** When the executions differ the statement of the files no longer
    holds: on a source of two records whose scan order changes before
    the last write, the first record is written under [train/] and
    again under [test/], and the second under neither, while the counts
    printed before are 2, 1 and 1. *)
Example rescanned_rows :
  ∃ out,
    ExtractTrainingData.main (platform := Sample.platform) Sample.rescanned "SOURCE" 30
    = Some out
    ∧ ExtractTrainingData.total_count out = 2%nat
    ∧ ExtractTrainingData.train_count out = 1%nat
    ∧ ExtractTrainingData.test_count out = 1%nat
    ∧ Sql.get "IP_API_CITY" <$> ExtractTrainingData.train out = [Some (Sql.VStr "r1")]
    ∧ Sql.get "IP_API_CITY" <$> ExtractTrainingData.test out = [Some (Sql.VStr "r1")].
Proof.
  eexists. split; [vm_compute; reflexivity|].
  repeat split; vm_compute; reflexivity.
Qed.

Lemma mapM_option_ext {A B : Type} (f g : A → option B) (l : list A) :
  (∀ x, x ∈ l → f x = g x) → mapM f l = mapM g l.
Proof.
  induction l as [|x l IH]; intros Hext; [done|].
  cbn. rewrite (Hext x) by (by left). rewrite IH; [done|].
  intros y Hy. apply Hext. by right.
Qed.

Lemma cleaned_names_NoDup (seed : Z) :
  NoDup (Sql.item_name
           <$> (ExtractTrainingData.select_parts ++ [(Sql.ERandom seed, Some "split_key")])).
Proof.
  rewrite fmap_app. cbn [fmap list_fmap Sql.item_name].
  change (NoDup ((Sql.item_name <$> ExtractTrainingData.select_parts) ++ ["split_key"])).
  by_computation.
Qed.

Section SplitKey.
Context {platform : Platform}.

(** The rows of [cleaned_data] carry an integer under [split_key]. *)
Lemma cleaned_split_key (rng : Z → nat → Z) (today : Z) (seed : Z) (w : Sql.expr)
    (t cleaned : Sql.table) :
  Sql.select_from_where rng today
    (ExtractTrainingData.select_parts ++ [(Sql.ERandom seed, Some "split_key")]) w 0%nat t
  = Some cleaned →
  Forall (fun r => ∃ draw : Z, Sql.get "split_key" r = Some (Sql.VNum (inject_Z draw)))
    cleaned.
Proof.
  intros Hcleaned. apply select_from_where_per_row in Hcleaned.
  eapply Forall_impl; [exact Hcleaned|]. intros out (r & j & _ & Hout).
  exists (Sql.to_int64 (rng seed j)).
  pose proof (get_project _ _ _ (Sql.ERandom seed, Some "split_key") Hout
                (cleaned_names_NoDup seed)) as Hget.
  cbn [Sql.item_name] in Hget. rewrite Hget; [done|].
  rewrite elem_of_app, list_elem_of_singleton. by right.
Qed.

(** X14: the test fraction has no effect on the split: the split key
    is an integer, so for any two test fractions above 0 and up to 1 the
    training query returns the same rows with the same labels. *)
Theorem test_size_has_no_effect (db : gmap string Sql.table) (rng : Z → nat → Z)
    (today : Z) (source_table : string) (days_limit : nat) (random_seed : Z)
    (test_size test_size' : Q) :
  (0 < test_size)%Q → (test_size <= 1)%Q →
  (0 < test_size')%Q → (test_size' <= 1)%Q →
  Sql.run_cte db rng today
    (ExtractTrainingData.build_preprocessing_sql source_table days_limit test_size
       random_seed)
  = Sql.run_cte db rng today
      (ExtractTrainingData.build_preprocessing_sql source_table days_limit test_size'
         random_seed).
Proof.
  intros Hpos Hle Hpos' Hle'. unfold Sql.run_cte.
  cbn [Sql.cte_from Sql.cte_select Sql.cte_where Sql.outer_extra
       ExtractTrainingData.build_preprocessing_sql].
  destruct (db !! source_table) as [t|]; [|done]. cbn [mbind option_bind].
  destruct (Sql.select_from_where _ _ _ _ _ t) as [cleaned|] eqn:Hcleaned; [|done].
  cbn [mbind option_bind]. apply cleaned_split_key in Hcleaned.
  unfold Sql.select_star_and. apply mapM_option_ext. intros r Hr.
  rewrite Forall_forall in Hcleaned. destruct (Hcleaned r Hr) as [draw Hdraw].
  unfold Sql.eval_item. cbn [fst].
  by rewrite !(split_label_by_sign _ _ draw).
Qed.
End SplitKey.

Lemma test_size_has_no_effect_witness :
  Sql.run_cte (platform := Sample.platform) Sample.source Sample.generator 100
    (ExtractTrainingData.build_preprocessing_sql "SOURCE" 30 (20 # 100) 42)
  = Sql.run_cte (platform := Sample.platform) Sample.source Sample.generator 100
      (ExtractTrainingData.build_preprocessing_sql "SOURCE" 30 (99 # 100) 42).
Proof.
  apply (test_size_has_no_effect (platform := Sample.platform)).
  - reflexivity.
  - unfold Qle. cbn. lia.
  - reflexivity.
  - unfold Qle. cbn. lia.
Defined.

Lemma drop_labels (d : string) (r : Sql.row) :
  (filter (fun kv : string * Sql.value => kv.1 ≠ d) r).*1 = filter (fun c => c ≠ d) r.*1.
Proof.
  induction r as [|[k x] r IH]; [done|].
  rewrite fmap_cons, !filter_cons. cbn [fst].
  destruct (decide (k ≠ d)); cbn; by rewrite IH.
Qed.

Lemma get_app_present (c : string) (r r' : Sql.row) :
  c ∈ r.*1 → Sql.get c (r ++ r') = Sql.get c r.
Proof.
  induction r as [|[k x] r IH]; intros Hc; [by apply elem_of_nil in Hc|].
  cbn. destruct (decide (k = c)); [done|].
  rewrite fmap_cons in Hc. apply elem_of_cons in Hc as [->|Hc]; [done|]. by apply IH.
Qed.

Lemma written_names :
  filter (fun c => c ≠ "DATA_SPLIT")
    (filter (fun c => c ≠ "split_key")
       ((Sql.item_name <$> ExtractTrainingData.select_parts) ++ ["split_key"; "DATA_SPLIT"]))
  = ExtractTrainingData.BOOLEAN_FEATURES ++ ExtractTrainingData.CATEGORICAL_FEATURES
    ++ ExtractTrainingData.NUMERIC_FEATURES ++ [ExtractTrainingData.TARGET].
Proof. by vm_compute. Qed.

Lemma written_names_plain :
  Forall (fun c => c ≠ "DATA_SPLIT" ∧ c ≠ "split_key")
    (Sql.item_name <$> ExtractTrainingData.select_parts).
Proof. by_computation. Qed.

Section Written.
Context {platform : Platform}.

Lemma select_from_where_kept (rng : Z → nat → Z) (today : Z)
    (items : list Sql.select_item) (w : Sql.expr) (i : nat) (t res : Sql.table) :
  Sql.select_from_where rng today items w i t = Some res →
  Forall (fun out =>
            ∃ r j,
              let ρ := {| Sql.e_row := r; Sql.e_draw := fun seed => rng seed j;
                          Sql.e_today := today |} in
              r ∈ t ∧ Sql.keeps ρ w = Some true ∧ Sql.project ρ items = Some out) res.
Proof.
  revert i res. induction t as [|r t IH]; intros i res Hres.
  - injection Hres as <-. constructor.
  - cbn in Hres.
    destruct (Sql.keeps _ w) as [k|] eqn:Hk; [|done]. cbn in Hres.
    destruct (Sql.select_from_where rng today items w (S i) t) as [rest|] eqn:Hrest;
      [|done]. cbn in Hres.
    assert (Forall (fun out =>
                      ∃ r' j,
                        let ρ := {| Sql.e_row := r'; Sql.e_draw := fun seed => rng seed j;
                                    Sql.e_today := today |} in
                        r' ∈ r :: t ∧ Sql.keeps ρ w = Some true
                        ∧ Sql.project ρ items = Some out) rest) as Hrest'.
    { eapply Forall_impl; [by eapply IH|]. intros out (r' & j & Hin & Hkept & Hout).
      exists r', j. split; [by right|done]. }
    destruct k.
    + destruct (Sql.project _ items) as [out|] eqn:Hout; [|done].
      injection Hres as <-. constructor; [|done].
      exists r, i. split; [by left|done].
    + by injection Hres as <-.
Qed.

(** What the expression of a column evaluates to, when it evaluates. *)
Lemma eval_part_filled ρ (ty : coltype) (c : string) (v : Sql.value) :
  Sql.eval ρ (ExtractTrainingData.part ty c).1 = Some v → filled ty v.
Proof.
  destruct ty; cbn; destruct (Sql.get c (Sql.e_row ρ)) as [x|]; cbn; try done.
  - destruct x as [|[]| | |]; cbn; intros [= <-]; auto.
  - destruct x as [|[]| | |]; cbn; intros [= <-]; eauto.
  - destruct x; cbn; intros [= <-]; done.
Qed.

Lemma kept_target ρ (e : Sql.expr) :
  Sql.keeps ρ (Sql.EAnd (Sql.EIsNotNull (Sql.ECol ExtractTrainingData.TARGET)) e)
  = Some true →
  ∃ v, Sql.get ExtractTrainingData.TARGET (Sql.e_row ρ) = Some v ∧ v ≠ Sql.VNull.
Proof.
  unfold Sql.keeps. cbn.
  destruct (Sql.get _ (Sql.e_row ρ)) as [v|]; [|done]. cbn.
  destruct (Sql.eval ρ e) as [y|]; [|done]. cbn.
  intros Hk. exists v. split; [done|]. intros ->. cbn in Hk.
  by destruct y as [|[]| | |].
Qed.
End Written.

Section WrittenRows.
Context {platform : Platform}.

Lemma project_evaluates ρ (items : list Sql.select_item) (out : Sql.row)
    (it : Sql.select_item) :
  Sql.project ρ items = Some out → it ∈ items → is_Some (Sql.eval ρ it.1).
Proof.
  revert out. induction items as [|it' items IH]; intros out Hout Hin.
  - by apply elem_of_nil in Hin.
  - rewrite project_cons in Hout. unfold Sql.eval_item in Hout.
    destruct (Sql.eval ρ it'.1) as [v|] eqn:Hv; [|done]. cbn in Hout.
    destruct (Sql.project ρ items) as [rest|]; [|done].
    apply elem_of_cons in Hin as [->|Hin]; [by rewrite Hv|by eapply IH].
Qed.

(** A row of [cleaned_data], then the same row with its label, then
    without the two split columns. *)
Lemma written_row ρ (out : Sql.row) (label : Sql.value) (seed : Z) :
  Sql.project ρ (ExtractTrainingData.select_parts ++ [(Sql.ERandom seed, Some "split_key")])
  = Some out →
  let written :=
    filter (fun kv : string * Sql.value => kv.1 ≠ "DATA_SPLIT")
      (filter (fun kv : string * Sql.value => kv.1 ≠ "split_key")
         (out ++ [("DATA_SPLIT", label)])) in
  written.*1
  = ExtractTrainingData.BOOLEAN_FEATURES ++ ExtractTrainingData.CATEGORICAL_FEATURES
    ++ ExtractTrainingData.NUMERIC_FEATURES ++ [ExtractTrainingData.TARGET]
  ∧ ∀ it, it ∈ ExtractTrainingData.select_parts →
          Sql.get (Sql.item_name it) written = Sql.eval ρ it.1.
Proof.
  intros Hout written.
  pose proof (project_names _ _ _ Hout) as Hnames.
  rewrite fmap_app in Hnames. cbn [fmap list_fmap Sql.item_name] in Hnames.
  split.
  - unfold written. rewrite !drop_labels, fmap_app, Hnames. cbn [fmap list_fmap fst].
    rewrite <-app_assoc. apply written_names.
  - intros it Hit.
    pose proof written_names_plain as Hplain. rewrite Forall_forall in Hplain.
    destruct (Hplain (Sql.item_name it)) as [Hds Hsk]; [by apply list_elem_of_fmap_2|].
    unfold written. rewrite !get_drop_other by done.
    rewrite get_app_present.
    + apply (get_project ρ _ out it Hout (cleaned_names_NoDup seed)).
      rewrite elem_of_app. by left.
    + rewrite Hnames, elem_of_app. left. by apply list_elem_of_fmap_2.
Qed.

(** A row the training query returns is a row of [cleaned_data], kept by
    the WHERE clause, with its label. *)
Lemma cte_rows (x : Sql.execution) (source_table : string) (days_limit : nat)
    (df : Sql.table) :
  Sql.execute_cte x
    (ExtractTrainingData.build_preprocessing_sql source_table days_limit
       ExtractTrainingData.default_test_size ExtractTrainingData.default_random_seed)
  = Some df →
  Forall (fun r : Sql.row =>
            ∃ ρ cleaned label,
              Sql.keeps ρ (Sql.cte_where
                             (ExtractTrainingData.build_preprocessing_sql source_table
                                days_limit ExtractTrainingData.default_test_size
                                ExtractTrainingData.default_random_seed)) = Some true
              ∧ Sql.project ρ
                  (ExtractTrainingData.select_parts
                   ++ [(Sql.ERandom ExtractTrainingData.default_random_seed,
                        Some "split_key")]) = Some cleaned
              ∧ r = cleaned ++ [("DATA_SPLIT", label)]) df.
Proof.
  unfold Sql.execute_cte, Sql.run_cte.
  cbn [Sql.cte_from Sql.cte_select Sql.cte_where Sql.outer_extra
       ExtractTrainingData.build_preprocessing_sql].
  destruct (Sql.x_tables x !! source_table) as [t|]; [|done]. cbn [mbind option_bind].
  destruct (Sql.select_from_where _ _ _ _ _ t) as [cleaned|] eqn:Hcleaned; [|done].
  cbn [mbind option_bind]. apply select_from_where_kept in Hcleaned.
  unfold Sql.select_star_and. intros Hdf. apply mapM_Some in Hdf.
  induction Hdf as [|r r' cleaned df Hr _ IH]; [constructor|].
  apply Forall_cons in Hcleaned as [(r0 & j & _ & Hkept & Hout) Hcleaned].
  constructor; [|by apply IH].
  unfold Sql.eval_item in Hr. cbn [fst] in Hr.
  destruct (Sql.eval _ _) as [v|]; [|done]. cbn in Hr. injection Hr as <-.
  by eexists _, r, v.
Qed.

(** X16: every row [main] writes under [train/] or [test/] has exactly
    the columns of the contract, in its order, then the target, and
    neither of the two split columns; its target is not null; and every
    column of the contract holds a cleaned value: 0 or 1 for a boolean
    column, a string for a categorical column, a value that is not null
    for a numeric column. *)
Theorem written_rows_are_clean (run : nat → Sql.execution) (source_table : string)
    (days_limit : nat) (out : ExtractTrainingData.output) :
  ExtractTrainingData.main run source_table days_limit = Some out →
  Forall (fun r : Sql.row =>
            r.*1 = ExtractTrainingData.BOOLEAN_FEATURES
                   ++ ExtractTrainingData.CATEGORICAL_FEATURES
                   ++ ExtractTrainingData.NUMERIC_FEATURES ++ [ExtractTrainingData.TARGET]
            ∧ (∃ v, Sql.get ExtractTrainingData.TARGET r = Some v ∧ v ≠ Sql.VNull)
            ∧ ∀ c ty, (c, ty) ∈ declared training_extractor →
                      ∃ v, Sql.get c r = Some v ∧ filled ty v)
    (ExtractTrainingData.train out ++ ExtractTrainingData.test out).
Proof.
  unfold ExtractTrainingData.main.
  destruct (Sql.execute_cte (run 0%nat) _) as [d0|]; [|done]. cbn [mbind option_bind].
  destruct (Sql.execute_cte (run 1%nat) _) as [d1|]; [|done]. cbn [mbind option_bind].
  destruct (Sql.execute_cte (run 2%nat) _) as [d2|]; [|done]. cbn [mbind option_bind].
  destruct (Sql.execute_cte (run 3%nat) _) as [d3|] eqn:Hd3; [|done].
  cbn [mbind option_bind fmap option_fmap option_map].
  destruct (Sql.execute_cte (run 4%nat) _) as [d4|] eqn:Hd4; [|done].
  cbn [mbind option_bind fmap option_fmap option_map].
  intros [= <-]. cbn [ExtractTrainingData.train ExtractTrainingData.test].
  apply cte_rows in Hd3, Hd4.
  assert (∀ label df r,
            r ∈ Spark.drop "DATA_SPLIT"
                  (Spark.filter_eq "DATA_SPLIT" label (Spark.drop "split_key" df)) →
            ∃ r', r' ∈ df
                  ∧ r = filter (fun kv : string * Sql.value => kv.1 ≠ "DATA_SPLIT")
                          (filter (fun kv : string * Sql.value => kv.1 ≠ "split_key") r'))
    as Hfrom.
  { intros label df r. unfold Spark.drop, Spark.filter_eq.
    intros (r1 & -> & Hr1)%list_elem_of_fmap.
    apply list_elem_of_filter in Hr1 as [_ Hr1].
    apply list_elem_of_fmap in Hr1 as (r' & -> & Hr'). by exists r'. }
  apply Forall_forall. intros r Hr.
  assert (∃ r' ρ cleaned label,
            Sql.keeps ρ (Sql.cte_where
                           (ExtractTrainingData.build_preprocessing_sql source_table
                              days_limit ExtractTrainingData.default_test_size
                              ExtractTrainingData.default_random_seed)) = Some true
            ∧ Sql.project ρ
                (ExtractTrainingData.select_parts
                 ++ [(Sql.ERandom ExtractTrainingData.default_random_seed,
                      Some "split_key")]) = Some cleaned
            ∧ r' = cleaned ++ [("DATA_SPLIT", label)]
            ∧ r = filter (fun kv : string * Sql.value => kv.1 ≠ "DATA_SPLIT")
                    (filter (fun kv : string * Sql.value => kv.1 ≠ "split_key") r'))
    as (r' & ρ & cleaned & label & Hkept & Hout & -> & ->).
  { rewrite Forall_forall in Hd3. rewrite Forall_forall in Hd4.
    apply elem_of_app in Hr as [Hr|Hr]; apply Hfrom in Hr as (r' & Hr' & ->).
    - destruct (Hd3 r' Hr') as (ρ & cleaned & label & ? & ? & ?).
      by exists r', ρ, cleaned, label.
    - destruct (Hd4 r' Hr') as (ρ & cleaned & label & ? & ? & ?).
      by exists r', ρ, cleaned, label. }
  destruct (written_row ρ cleaned label _ Hout) as [Hnames Hget].
  split; [done|]. split.
  - apply kept_target in Hkept as (v & Hv & Hnull). exists v. split; [|done].
    rewrite <-Hv.
    apply (Hget (Sql.ECol ExtractTrainingData.TARGET, None)).
    unfold ExtractTrainingData.select_parts. rewrite !elem_of_app, list_elem_of_singleton.
    auto.
  - intros c ty Hd.
    assert (ExtractTrainingData.part ty c ∈ ExtractTrainingData.select_parts) as Hin.
    { unfold ExtractTrainingData.select_parts. rewrite app_assoc, app_assoc, elem_of_app.
      left. rewrite <-!app_assoc.
      apply (declared_part training_extractor). eauto. }
    specialize (Hget _ Hin).
    replace (Sql.item_name (ExtractTrainingData.part ty c)) with c in Hget
      by (by destruct ty).
    assert (is_Some (Sql.eval ρ (ExtractTrainingData.part ty c).1)) as [v Hv].
    { apply (project_evaluates ρ _ cleaned _ Hout). rewrite elem_of_app. by left. }
    exists v. split; [by rewrite Hget|]. by eapply eval_part_filled.
Qed.
End WrittenRows.

Lemma written_rows_are_clean_witness :
  ∃ out,
    ExtractTrainingData.main (platform := Sample.platform)
      (fun _ => Sample.warehouse 100) "SOURCE" 30 = Some out
    ∧ Forall (fun r : Sql.row =>
                ∃ v, Sql.get "IP_API_CITY" r = Some v ∧ filled Categorical v)
        (ExtractTrainingData.train out ++ ExtractTrainingData.test out).
Proof.
  assert (is_Some (ExtractTrainingData.main (platform := Sample.platform)
                     (fun _ => Sample.warehouse 100) "SOURCE" 30)) as [out Hout]
    by by_computation.
  assert (("IP_API_CITY", Categorical) ∈ declared training_extractor) as Hd
    by by_computation.
  exists out. split; [exact Hout|].
  eapply Forall_impl;
    [exact (written_rows_are_clean (platform := Sample.platform)
              (fun _ => Sample.warehouse 100) "SOURCE" 30 out Hout)|].
  intros r (_ & _ & Hfilled). by apply Hfilled.
Defined.

Lemma Qfloor_eq_iff (t : Q) (z : Z) :
  Qfloor t = z ↔ (inject_Z z <= t)%Q ∧ (t < inject_Z (z + 1))%Q.
Proof.
  split.
  - intros <-. split; [apply Qfloor_le|apply Qlt_floor].
  - intros [Hle Hlt].
    assert (z ≤ Qfloor t)%Z.
    { rewrite <-(Qfloor_Z z). by apply Qfloor_resp_le. }
    assert (Qfloor t < z + 1)%Z.
    { rewrite Zlt_Qlt. eapply Qle_lt_trans; [apply Qfloor_le|done]. }
    lia.
Qed.

Section Yesterday.
Context {platform : Platform}.

(** X17: the WHERE clause of the inference query keeps a row with a
    creation time exactly when that time falls on the day before the
    current date, and it keeps no row whose creation time is null. *)
Theorem inference_window ρ (source_table id_column : string) :
  (∀ created : Q,
     Sql.get "CREATED_AT" (Sql.e_row ρ) = Some (Sql.VTime created) →
     ∃ kept : bool,
       Sql.keeps ρ
         (Sql.q_where (ExtractInferenceData.build_inference_sql source_table id_column))
       = Some kept
       ∧ (kept = true ↔
          (inject_Z (Sql.e_today ρ - 1) <= created)%Q
          ∧ (created < inject_Z (Sql.e_today ρ))%Q))
  ∧ (Sql.get "CREATED_AT" (Sql.e_row ρ) = Some Sql.VNull →
     Sql.keeps ρ
       (Sql.q_where (ExtractInferenceData.build_inference_sql source_table id_column))
     = Some false).
Proof.
  split.
  - intros created Hc. unfold Sql.keeps. cbn. rewrite Hc. cbn.
    eexists. split; [reflexivity|].
    rewrite Qeq_bool_iff.
    assert (inject_Z (Sql.e_today ρ) + inject_Z (-1) == inject_Z (Sql.e_today ρ - 1))%Q
      as ->.
    { by rewrite <-inject_Z_plus. }
    rewrite inject_Z_injective, Qfloor_eq_iff.
    by replace (Sql.e_today ρ - 1 + 1) with (Sql.e_today ρ) by lia.
  - intros Hc. unfold Sql.keeps. cbn. by rewrite Hc.
Qed.
End Yesterday.

Lemma inference_window_witness :
  Sql.keeps (platform := Sample.platform)
    {| Sql.e_row := Sample.scenario_row; Sql.e_draw := fun _ => 0; Sql.e_today := 101 |}
    (Sql.q_where (ExtractInferenceData.build_inference_sql "SOURCE" "ID"))
  = Some true.
Proof.
  destruct (proj1 (inference_window (platform := Sample.platform)
                     {| Sql.e_row := Sample.scenario_row; Sql.e_draw := fun _ => 0;
                        Sql.e_today := 101 |} "SOURCE" "ID") 100%Q)
    as (kept & Hkept & Hiff).
  - reflexivity.
  - rewrite Hkept. f_equal. apply Hiff. split.
    + unfold Qle. cbn. lia.
    + reflexivity.
Defined.







(** A name in another case resolves and the column is named as asked;
    two columns that differ in case only make the name ambiguous; a name
    that matches no column fails. *)
Example select_ignores_case :
  Spark.select ["id"] [[("ID", Sql.VStr "r1"); ("CITY", Sql.VNull)]]
  = Some [[("id", Sql.VStr "r1")]]
  ∧ Spark.select ["id"] [[("ID", Sql.VStr "r1"); ("Id", Sql.VNull)]] = None
  ∧ Spark.select ["id"] [[("CITY", Sql.VNull)]] = None.
Proof. repeat split; vm_compute; reflexivity. Qed.

Section InferenceOutputs.
Context {platform : Platform}.







End InferenceOutputs.


(** ** The join of the score loader *)

Lemma monotonically_increasing_id_small (p j : nat) :
  (Z.of_nat p < 2 ^ 30)%Z → (Z.of_nat j < 2 ^ 33)%Z →
  Spark.monotonically_increasing_id p j = (Z.of_nat p * 2 ^ 33 + Z.of_nat j)%Z.
Proof.
  intros Hp Hj. unfold Spark.monotonically_increasing_id, Spark.wrap64.
  rewrite Z.shiftl_mul_pow2 by lia. rewrite Z.mod_small by lia. lia.
Qed.

Lemma elem_of_concat {A : Type} (x : A) (ls : list (list A)) :
  x ∈ concat ls ↔ ∃ l, x ∈ l ∧ l ∈ ls.
Proof.
  induction ls as [|l ls IH]; cbn.
  - split; [by intros ?%elem_of_nil|by intros (? & _ & ?%elem_of_nil)].
  - rewrite elem_of_app, IH. split.
    + intros [?|(l' & ? & ?)]; [exists l; split; [done|by left]|].
      exists l'. split; [done|by right].
    + intros (l' & ? & [->|?]%elem_of_cons); [by left|right; by exists l'].
Qed.

Section Numbering.
Context {A : Type}.

Lemma tag_zip (p : nat) (part : list A) :
  (Z.of_nat p < 2 ^ 30)%Z → (Z.of_nat (length part) ≤ 2 ^ 33)%Z →
  Spark.tag p part
  = zip part ((fun j : nat => (Z.of_nat p * 2 ^ 33 + Z.of_nat j)%Z) <$> seq 0 (length part)).
Proof.
  intros Hp Hn. unfold Spark.tag. apply list_eq. intros i.
  rewrite list_lookup_imap, lookup_zip_with.
  destruct (part !! i) as [x|] eqn:Hi; [|done]. cbn.
  apply lookup_lt_Some in Hi as Hlt.
  rewrite list_lookup_fmap, lookup_seq_lt by done. cbn.
  by rewrite monotonically_increasing_id_small by lia.
Qed.

Lemma collect_with_id_cons (k : nat) (part : list A) (df : list (list A)) :
  concat (imap (fun p => Spark.tag (k + p)) (part :: df))
  = Spark.tag k part ++ concat (imap (fun p => Spark.tag (S k + p)) df).
Proof.
  rewrite imap_cons, concat_cons, Nat.add_0_r. f_equal. f_equal.
  apply imap_ext. intros i x _. cbn. by rewrite Nat.add_succ_r.
Qed.

Lemma tag_keys (p : nat) (part : list A) (x : A * Z) :
  (Z.of_nat p < 2 ^ 30)%Z → (Z.of_nat (length part) ≤ 2 ^ 33)%Z →
  x ∈ Spark.tag p part →
  (Z.of_nat p * 2 ^ 33 ≤ x.2 < (Z.of_nat p + 1) * 2 ^ 33)%Z.
Proof.
  intros Hp Hn Hx. unfold Spark.tag in Hx.
  apply list_elem_of_lookup in Hx as [j Hj]. rewrite list_lookup_imap in Hj.
  destruct (part !! j) as [r|] eqn:Hr; [|done]. cbn in Hj. injection Hj as <-.
  apply lookup_lt_Some in Hr. cbn.
  rewrite monotonically_increasing_id_small by lia. lia.
Qed.

Lemma later_keys (k : nat) (df : list (list A)) (x : A * Z) :
  (Z.of_nat (k + length df) ≤ 2 ^ 30)%Z →
  Forall (fun part => (Z.of_nat (length part) ≤ 2 ^ 33)%Z) df →
  x ∈ concat (imap (fun p => Spark.tag (k + p)) df) →
  (Z.of_nat k * 2 ^ 33 ≤ x.2)%Z.
Proof.
  intros Hk Hall Hx. apply elem_of_concat in Hx as (l & Hx & Hl).
  apply list_elem_of_lookup in Hl as [p Hp]. rewrite list_lookup_imap in Hp.
  destruct (df !! p) as [part|] eqn:Hpart; cbn in Hp; [|done]. injection Hp as <-.
  apply lookup_lt_Some in Hpart as Hlt.
  rewrite Forall_forall in Hall.
  apply tag_keys in Hx; [nia|lia|]. apply Hall. by eapply list_elem_of_lookup_2.
Qed.
End Numbering.

Section Joining.
Context {A B : Type}.

Lemma join_inner_app_l (l1 l2 : list (A * Z)) (r : list (B * Z)) :
  Spark.join_inner (l1 ++ l2) r = Spark.join_inner l1 r ++ Spark.join_inner l2 r.
Proof. unfold Spark.join_inner. apply bind_app. Qed.

Lemma join_inner_far_right (l : list (A * Z)) (r1 r2 : list (B * Z)) :
  (∀ x, x ∈ l → x.2 ∉ r2.*2) →
  Spark.join_inner l (r1 ++ r2) = Spark.join_inner l r1.
Proof.
  induction l as [|x l IH]; intros Hfar; [done|].
  rewrite !join_inner_cons_l, bind_app, (no_match x r2) by (apply Hfar; by left).
  rewrite app_nil_r, IH; [done|]. intros y Hy. apply Hfar. by right.
Qed.

Lemma join_inner_far_left (l : list (A * Z)) (r1 r2 : list (B * Z)) :
  (∀ x, x ∈ l → x.2 ∉ r1.*2) →
  Spark.join_inner l (r1 ++ r2) = Spark.join_inner l r2.
Proof.
  induction l as [|x l IH]; intros Hfar; [done|].
  rewrite !join_inner_cons_l, bind_app, (no_match x r1) by (apply Hfar; by left).
  cbn [app]. rewrite IH; [done|]. intros y Hy. apply Hfar. by right.
Qed.

Lemma join_partition (p : nat) (ids : list A) (scores : list B) :
  (Z.of_nat p < 2 ^ 30)%Z →
  (Z.of_nat (length ids) ≤ 2 ^ 33)%Z → (Z.of_nat (length scores) ≤ 2 ^ 33)%Z →
  Spark.join_inner (Spark.tag p ids) (Spark.tag p scores) = zip ids scores.
Proof.
  intros Hp Hi Hs. rewrite !tag_zip by done.
  rewrite (join_inner_zip (fun j : nat => (Z.of_nat p * 2 ^ 33 + Z.of_nat j)%Z) 0).
  - by rewrite !fst_zip by (rewrite length_fmap, length_seq; lia).
  - intros i j ?. lia.
  - by rewrite snd_zip, length_zip, length_fmap, length_seq, Nat.min_id
      by (rewrite length_fmap, length_seq; lia).
  - by rewrite snd_zip, length_zip, length_fmap, length_seq, Nat.min_id
      by (rewrite length_fmap, length_seq; lia).
Qed.

Lemma join_numbered (k : nat) (ids : list (list A)) (scores : list (list B)) :
  (Z.of_nat (k + length ids) ≤ 2 ^ 30)%Z →
  (Z.of_nat (k + length scores) ≤ 2 ^ 30)%Z →
  Forall (fun part => (Z.of_nat (length part) ≤ 2 ^ 33)%Z) ids →
  Forall (fun part => (Z.of_nat (length part) ≤ 2 ^ 33)%Z) scores →
  Spark.join_inner (concat (imap (fun p => Spark.tag (k + p)) ids))
    (concat (imap (fun p => Spark.tag (k + p)) scores))
  = concat (zip_with zip ids scores).
Proof.
  revert k scores. induction ids as [|ip ids IH]; intros k scores Hi Hs Hai Has; [done|].
  destruct scores as [|sp scores]; [exact (join_inner_nil_r _)|].
  apply Forall_cons in Hai as [Hip Hai]. apply Forall_cons in Has as [Hsp Has].
  cbn [length] in Hi, Hs.
  rewrite !collect_with_id_cons, join_inner_app_l.
  rewrite join_inner_far_right, join_inner_far_left.
  - rewrite join_partition by (done || lia). cbn [zip_with concat]. f_equal.
    apply IH; [lia|lia|done..].
  - intros x Hx (y & Hxy & Hy)%list_elem_of_fmap.
    apply later_keys in Hx; [|lia|done].
    apply tag_keys in Hy; [|lia|done]. lia.
  - intros x Hx (y & Hxy & Hy)%list_elem_of_fmap.
    apply tag_keys in Hx; [|lia|done].
    apply later_keys in Hy; [|lia|done]. lia.
Qed.

(** X19: for two frames within the bounds of the numbering, the join of
    [main] pairs the rows partition by partition and, within a
    partition, position by position: the rows of a partition beyond the
    length of its counterpart, and the partitions beyond the number of
    partitions of the other frame, are dropped. *)
Theorem join_pairs_within_partitions (ids_df : Spark.frame A)
    (predictions_df : Spark.frame B) :
  Spark.numberable ids_df → Spark.numberable predictions_df →
  LoadScores.join_ids_predictions ids_df predictions_df
  = by_partition ids_df predictions_df.
Proof.
  intros [Hi Hai] [Hs Has]. unfold LoadScores.join_ids_predictions, by_partition.
  apply (join_numbered 0); (done || lia).
Qed.

Lemma zip_concat (ids : list (list A)) (scores : list (list B)) :
  length <$> ids = length <$> scores →
  concat (zip_with zip ids scores) = zip (concat ids) (concat scores).
Proof.
  revert scores. induction ids as [|ip ids IH]; intros [|sp scores] Hlen; try done.
  cbn in Hlen. injection Hlen as Hp Hlen. cbn [zip_with concat].
  rewrite IH by done. symmetry. by apply zip_with_app.
Qed.

(** X20: when the identifiers and the predictions are read with the
    same layout (as many partitions, of the same lengths), within the
    bounds of the numbering, [main] loads one row for every identifier,
    each with the score at its position, the model version and the score
    date. *)
Theorem join_is_positional_for_equal_layouts (ids_df : Spark.frame A)
    (predictions_df : Spark.frame B) (model_version yesterday : string) :
  Spark.numberable ids_df →
  length <$> ids_df = length <$> predictions_df →
  LoadScores.main ids_df predictions_df model_version yesterday
  = (fun r => {| LoadScores.id_row := r.1; LoadScores.PREDICTED_FRAUD_SCORE := r.2;
                 LoadScores.MODEL_VERSION := model_version;
                 LoadScores.SCORE_DATE := yesterday |})
      <$> Spec.by_position (Spark.collect ids_df) (Spark.collect predictions_df).
Proof.
  intros [Hi Hai] Hlen. unfold LoadScores.main. f_equal.
  unfold LoadScores.join_ids_predictions, Spec.by_position, Spark.collect.
  assert (length predictions_df = length ids_df) as Hparts.
  { apply (f_equal length) in Hlen. by rewrite !length_fmap in Hlen. }
  rewrite <-zip_concat by done.
  apply (join_numbered 0); [lia|lia|done|].
  apply Forall_forall. intros part [i Hpart]%list_elem_of_lookup.
  assert ((length <$> ids_df) !! i = Some (length part)) as Hsame.
  { rewrite Hlen, list_lookup_fmap. unfold Spark.frame in *. by rewrite Hpart. }
  rewrite list_lookup_fmap in Hsame. unfold Spark.frame in *.
  destruct (ids_df !! i) as [ip|] eqn:Hip; [|done]. injection Hsame as <-.
  rewrite Forall_forall in Hai. apply Hai. by eapply list_elem_of_lookup_2.
Qed.
End Joining.

Lemma join_pairs_within_partitions_witness :
  LoadScores.join_ids_predictions Sample.ids_df Sample.predictions_df
  = [("a", 1 # 2); ("b", 1 # 4)]%Q.
Proof.
  rewrite (join_pairs_within_partitions Sample.ids_df Sample.predictions_df).
  - reflexivity.
  - split; [cbn; lia|]. repeat constructor; cbn; lia.
  - split; [cbn; lia|]. repeat constructor; cbn; lia.
Defined.

Lemma join_is_positional_for_equal_layouts_witness :
  LoadScores.id_row
    <$> LoadScores.main Sample.ids_df Sample.predictions_split "v1" "2024-01-01"
  = ["a"; "b"; "c"].
Proof.
  rewrite (join_is_positional_for_equal_layouts Sample.ids_df Sample.predictions_split).
  - reflexivity.
  - split; [cbn; lia|]. repeat constructor; cbn; lia.
  - reflexivity.
Defined.
